(** * web-crawler-backend: a shallow embedding of the crawl pipeline

    The development follows the Go packages of the backend:
    - [models]   (internal/models/models.go): the four persisted structs
      and what gorm reads off their tags;
    - [services] (internal/services/crawler_service.go, url_service.go):
      link classification, the DOM traversal, the reachability probe, the
      crawl itself and its status, and the creation, reading and deletion
      of URLs and the listing of their links;
    - [handlers] (internal/handlers/url_handler.go): the query-parameter
      sanitisation of the two listing endpoints, and the endpoints that
      create, read and delete URLs.

    Go's [int] is a 64-bit two's-complement integer and is modelled as [Z]
    with the wrap-around written out; [uint] primary keys are [N]; strings
    are byte strings.  The library functions the crawler calls (net/url,
    net/http, x/net/html, strings.TrimSpace, strings.ToLower) are an
    interface, [Env], that the definitions are parameterised by, and the
    theorems hold for every implementation of it.  gorm is modelled as an
    in-memory store: a table is the list of its rows, with auto-incremented
    keys, unique indexes, column defaults and soft deletion.  Logging and
    the closing of the response body are left out.

    The first part holds the definitions, the second the theorems. *)

From Stdlib Require Import ZArith String Ascii List Bool Lia DecimalString.
From stdpp Require Import base list strings gmap sorting.

Open Scope Z_scope.

(** ** Go's machine integers *)

Module goint.

Definition MaxInt : Z := 2 ^ 63 - 1.
Definition MinInt : Z := - 2 ^ 63.

(** Two's-complement reduction of an unbounded result to [int]. *)
Definition wrap (z : Z) : Z := (z + 2 ^ 63) mod 2 ^ 64 - 2 ^ 63.

(** [x++] on an [int]. *)
Definition incr (x : Z) : Z := wrap (x + 1).

End goint.

(** ** strconv *)

Module strconv.

Definition digit_of (c : ascii) : option Z :=
  let n := Z.of_N (N_of_ascii c) in
  if (48 <=? n) && (n <=? 57) then Some (n - 48) else None.

Fixpoint parse_digits (s : string) (acc : Z) : option Z :=
  match s with
  | EmptyString => Some acc
  | String c s' =>
      match digit_of c with
      | Some d => parse_digits s' (acc * 10 + d)
      | None => None
      end
  end.

(** [strconv.Atoi]: an optional sign, then one or more decimal digits,
    the value within [int]; [None] stands for a non-nil error (a syntax
    error or a range error), in which case the caller discards the
    number. *)
Definition Atoi (s : string) : option Z :=
  match s with
  | EmptyString => None
  | String c rest =>
      let neg := Ascii.eqb c "-" in
      let digits := if neg || Ascii.eqb c "+" then rest else s in
      match digits with
      | EmptyString => None
      | _ =>
          match parse_digits digits 0 with
          | Some n =>
              let v := if neg then - n else n in
              if (goint.MinInt <=? v) && (v <=? goint.MaxInt)
              then Some v else None
          | None => None
          end
      end
  end.

(** [strconv.Itoa], also what the verb %d of fmt and encoding/json print
    for an [int]. *)
Definition Itoa (z : Z) : string := NilZero.string_of_int (Z.to_int z).

(** [strconv.ParseUint(s, 10, bitSize)]: one or more decimal digits and
    nothing else (no sign), the value below 2^bitSize; [None] stands for
    a non-nil error. *)
Definition ParseUint (s : string) (bitSize : Z) : option N :=
  match s with
  | EmptyString => None
  | _ =>
      match parse_digits s 0 with
      | Some n => if n <? 2 ^ bitSize then Some (Z.to_N n) else None
      | None => None
      end
  end.

End strconv.

(** ** strings *)

Module strings.

(** [strings.Contains s substr]: some suffix of [s] starts with [substr]. *)
Fixpoint Contains (s substr : string) : bool :=
  String.prefix substr s ||
  match s with
  | EmptyString => false
  | String _ s' => Contains s' substr
  end.

End strings.

(** ** Results of fallible calls *)

(** A Go call returning (value, error): [ok v] when the error is nil,
    [err msg] with the text of [err.Error()] otherwise. *)
Inductive Result (A : Type) : Type :=
  | ok (a : A)
  | err (msg : string).
Arguments ok {A} a.
Arguments err {A} msg.

(** ** golang.org/x/net/html: the parsed document *)

Module html.

Inductive NodeType :=
  | ErrorNode | TextNode | DocumentNode | ElementNode
  | CommentNode | DoctypeNode | RawNode.

Record Attribute := mkAttribute {
  Namespace : string;
  Key : string;
  Val : string
}.

(** A node with its children in sibling order: the FirstChild/NextSibling
    chain of the Go struct, which is finite and acyclic for a parsed
    document.  ([Type_] is the field [Type].) *)
#[local] Set Warnings "-register-all".
Inductive Node := mkNode {
  Type_ : NodeType;
  Data : string;
  Attr : list Attribute;
  Children : list Node
}.

Definition FirstChild (n : Node) : option Node := head (Children n).

#[global] Instance NodeType_eq_dec : EqDecision NodeType.
Proof. solve_decision. Defined.

End html.

(** ** gorm: tables, primary keys, defaults and soft deletion *)

Module gorm.

(** [gorm.DeletedAt], a nullable timestamp. *)
Record DeletedAt := mkDeletedAt { Time : Z; Valid : bool }.

Definition DeletedAt_zero : DeletedAt := mkDeletedAt 0 false.

(** The two database drivers of the repository: MySQL in
    database.Initialize, SQLite in the service tests. *)
Inductive Driver := MySQL | SQLite.

Definition squote : string := String (ascii_of_nat 39) EmptyString.

(** The text of the driver's error for a violated unique index. *)
Definition duplicate_error (d : Driver) (table column value : string) : string :=
  match d with
  | MySQL =>
      "Error 1062 (23000): Duplicate entry " +:+ squote +:+ value +:+ squote
      +:+ " for key " +:+ squote +:+ table +:+ "." +:+ column +:+ squote
  | SQLite => "UNIQUE constraint failed: " +:+ table +:+ "." +:+ column
  end.

Definition ErrRecordNotFound : string := "record not found".

(** What gorm reads off a model struct and its tags. *)
Class Model (A : Type) := {
  TableName : string;
  primaryKey : A -> N;
  setPrimaryKey : N -> A -> A;
  (** on Create, [CreatedAt] and [UpdatedAt] are stamped when zero; on an
      update, [UpdatedAt] is stamped *)
  autoCreateTime : Z -> A -> A;
  autoUpdateTime : Z -> A -> A;
  (** the [default:] tags: on Create a zero-valued field takes its default *)
  applyDefaults : A -> A;
  (** the columns tagged [unique] or [uniqueIndex], by name *)
  uniqueColumns : list (string * (A -> string));
  (** the [gorm.DeletedAt] field of the struct, if it has one *)
  deletedAt : option ((A -> DeletedAt) * (DeletedAt -> A -> A))
}.

Section Store.
Context {A : Type} `{Model A}.

(** A table is the list of its rows, in insertion order. *)
Definition nextID (t : list A) : N :=
  N.succ (foldr N.max 0%N (primaryKey <$> t)).

Definition hasKey (t : list A) (id : N) : bool :=
  existsb (fun r => N.eqb (primaryKey r) id) t.

Definition isDeleted (r : A) : bool :=
  match deletedAt with
  | Some (get, _) => Valid (get r)
  | None => false
  end.

(** The first unique column on which [r] collides with a row of [t].
    Values are compared byte for byte and are not bounded in length, as
    SQLite, the database of the service tests, compares and stores
    them.  MySQL, the database of database.Initialize, bounds a string
    column and compares it under the collation of the table, without
    regard to case: there the comparison is right for an exact
    duplicate, and what is proved of the insertion of a new string is
    stated for SQLite. *)
Definition uniqueConflict (r : A) (t : list A)
  : option (string * (A -> string)) :=
  find (fun c => existsb (fun r' => String.eqb (snd c r') (snd c r)) t)
       uniqueColumns.

(** [db.Create(&r)]: INSERT.  A zero primary key is auto-incremented;
    unique indexes range over every row, soft-deleted ones included,
    and a violated index is the only refusal (for the comparison and
    for the bounds MySQL puts on a column see [uniqueConflict]). *)
Definition Create (d : Driver) (now : Z) (r : A) (t : list A)
  : Result (A * list A) :=
  let key := if N.eqb (primaryKey r) 0 then nextID t else primaryKey r in
  if hasKey t key then
    err (duplicate_error d TableName "PRIMARY" EmptyString)
  else
    match uniqueConflict r t with
    | Some (name, col) => err (duplicate_error d TableName name (col r))
    | None =>
        let r' := setPrimaryKey key (applyDefaults (autoCreateTime now r)) in
        ok (r', t ++ [r'])
    end.

(** [db.Save(&r)] and [db.Unscoped().Save(&r)]: every column of the row
    with the struct's primary key is rewritten, and the row is inserted
    when there is none.  The callers never change a unique column, and
    no constraint is checked here. *)
Definition Save (d : Driver) (now : Z) (r : A) (t : list A)
  : Result (A * list A) :=
  if N.eqb (primaryKey r) 0 then Create d now r t
  else
    let r' := autoUpdateTime now r in
    if hasKey t (primaryKey r) then
      ok (r', (fun x => if N.eqb (primaryKey x) (primaryKey r) then r' else x) <$> t)
    else ok (r', t ++ [r']).

(** The row with the least primary key among those satisfying [p]. *)
Definition least (p : A -> bool) (t : list A) : option A :=
  foldr (fun r acc =>
           if p r then
             match acc with
             | Some r' => if (primaryKey r' <? primaryKey r)%N then Some r' else Some r
             | None => Some r
             end
           else acc) None t.

(** [db.First(&r, id)]: soft-deleted rows are invisible. *)
Definition First (id : N) (t : list A) : Result A :=
  match least (fun r => N.eqb (primaryKey r) id && negb (isDeleted r)) t with
  | Some r => ok r
  | None => err ErrRecordNotFound
  end.

(** [db.Unscoped().Where(cond).First(&r)]. *)
Definition UnscopedFirstWhere (cond : A -> bool) (t : list A) : Result A :=
  match least cond t with
  | Some r => ok r
  | None => err ErrRecordNotFound
  end.

(** [db.Model(&r).Update(column, value)], [set] writing the column: the
    struct and its (visible) row are both updated. *)
Definition Update (now : Z) (set : A -> A) (r : A) (t : list A) : A * list A :=
  let upd x := autoUpdateTime now (set x) in
  (upd r,
   (fun x => if N.eqb (primaryKey x) (primaryKey r) && negb (isDeleted x)
             then upd x else x) <$> t).

(** [db.Delete(&Model{}, id)]: with a [gorm.DeletedAt] field the row is
    kept and stamped, without one the row is removed. *)
Definition Delete (now : Z) (id : N) (t : list A) : list A :=
  match deletedAt with
  | Some (_, set) =>
      (fun x => if N.eqb (primaryKey x) id && negb (isDeleted x)
                then set (mkDeletedAt now true) x else x) <$> t
  | None => filter (fun x => primaryKey x ≠ id) t
  end.

(** The row stored under a primary key, deleted or not. *)
Definition row (id : N) (t : list A) : option A :=
  find (fun r => N.eqb (primaryKey r) id) t.

Definition ErrMissingWhereClause : string := "WHERE conditions required".

(** [db.Delete(&Model{}, ids)] for a slice of keys: an empty slice
    builds no condition and the statement is refused; otherwise the
    rows whose key is in the slice are deleted as by [Delete]. *)
Definition DeleteIn (now : Z) (ids : list N) (t : list A) : Result (list A) :=
  match ids with
  | [] => err ErrMissingWhereClause
  | _ =>
      ok (match deletedAt with
          | Some (_, set) =>
              (fun x => if existsb (N.eqb (primaryKey x)) ids
                           && negb (isDeleted x)
                        then set (mkDeletedAt now true) x else x) <$> t
          | None => filter (fun x => primaryKey x ∉ ids) t
          end)
  end.

(** The rows of a query in the order of [ORDER BY key DESC]: a stable
    insertion sort, rows of equal key staying in table order (SQL
    leaves their order open). *)
Fixpoint insertDesc (key : A -> Z) (x : A) (l : list A) : list A :=
  match l with
  | [] => [x]
  | y :: l' => if key y <=? key x then x :: l else y :: insertDesc key x l'
  end.

Definition orderDesc (key : A -> Z) (t : list A) : list A :=
  foldr (insertDesc key) [] t.

End Store.

End gorm.

(** ** models (internal/models/models.go) *)

(** Each struct is a record in a module of its name, [t] the type and
    [set_F v x] the struct [x] with field [F] assigned [v].  A [time.Time]
    is a number, zero for the zero time; a [*time.Time] is an option.  The
    relationship fields (Crawls, Links, URL, Crawl) are not columns and are
    left out. *)
Module models.

Module User.

Record t := mk {
  ID : N;
  Username : string;
  Email : string;
  Password : string;
  FirstName : string;
  LastName : string;
  IsActive : bool;
  IsAdmin : bool;
  CreatedAt : Z;
  UpdatedAt : Z;
  DeletedAt : gorm.DeletedAt
}.

Definition set_ID (v : N) (x : t) : t :=
  mk v (Username x) (Email x) (Password x) (FirstName x) (LastName x) (IsActive x) (IsAdmin x) (CreatedAt x) (UpdatedAt x) (DeletedAt x).
Definition set_IsActive (v : bool) (x : t) : t :=
  mk (ID x) (Username x) (Email x) (Password x) (FirstName x) (LastName x) v (IsAdmin x) (CreatedAt x) (UpdatedAt x) (DeletedAt x).
Definition set_CreatedAt (v : Z) (x : t) : t :=
  mk (ID x) (Username x) (Email x) (Password x) (FirstName x) (LastName x) (IsActive x) (IsAdmin x) v (UpdatedAt x) (DeletedAt x).
Definition set_UpdatedAt (v : Z) (x : t) : t :=
  mk (ID x) (Username x) (Email x) (Password x) (FirstName x) (LastName x) (IsActive x) (IsAdmin x) (CreatedAt x) v (DeletedAt x).
Definition set_DeletedAt (v : gorm.DeletedAt) (x : t) : t :=
  mk (ID x) (Username x) (Email x) (Password x) (FirstName x) (LastName x) (IsActive x) (IsAdmin x) (CreatedAt x) (UpdatedAt x) v.

End User.

Module URL.

Record t := mk {
  ID : N;
  URL : string;
  Title : string;
  HTMLVersion : string;
  Status : string;
  HasLoginForm : bool;
  CreatedAt : Z;
  UpdatedAt : Z;
  DeletedAt : gorm.DeletedAt
}.

Definition set_ID (v : N) (x : t) : t :=
  mk v (URL x) (Title x) (HTMLVersion x) (Status x) (HasLoginForm x) (CreatedAt x) (UpdatedAt x) (DeletedAt x).
Definition set_Title (v : string) (x : t) : t :=
  mk (ID x) (URL x) v (HTMLVersion x) (Status x) (HasLoginForm x) (CreatedAt x) (UpdatedAt x) (DeletedAt x).
Definition set_HTMLVersion (v : string) (x : t) : t :=
  mk (ID x) (URL x) (Title x) v (Status x) (HasLoginForm x) (CreatedAt x) (UpdatedAt x) (DeletedAt x).
Definition set_Status (v : string) (x : t) : t :=
  mk (ID x) (URL x) (Title x) (HTMLVersion x) v (HasLoginForm x) (CreatedAt x) (UpdatedAt x) (DeletedAt x).
Definition set_HasLoginForm (v : bool) (x : t) : t :=
  mk (ID x) (URL x) (Title x) (HTMLVersion x) (Status x) v (CreatedAt x) (UpdatedAt x) (DeletedAt x).
Definition set_CreatedAt (v : Z) (x : t) : t :=
  mk (ID x) (URL x) (Title x) (HTMLVersion x) (Status x) (HasLoginForm x) v (UpdatedAt x) (DeletedAt x).
Definition set_UpdatedAt (v : Z) (x : t) : t :=
  mk (ID x) (URL x) (Title x) (HTMLVersion x) (Status x) (HasLoginForm x) (CreatedAt x) v (DeletedAt x).
Definition set_DeletedAt (v : gorm.DeletedAt) (x : t) : t :=
  mk (ID x) (URL x) (Title x) (HTMLVersion x) (Status x) (HasLoginForm x) (CreatedAt x) (UpdatedAt x) v.

End URL.

Module Crawl.

Record t := mk {
  ID : N;
  URLID : N;
  Status : string;
  StartedAt : option Z;
  CompletedAt : option Z;
  ErrorMessage : string;
  InternalLinks : Z;
  ExternalLinks : Z;
  BrokenLinks : Z;
  HeadingCounts : string;
  CreatedAt : Z;
  UpdatedAt : Z
}.

Definition set_ID (v : N) (x : t) : t :=
  mk v (URLID x) (Status x) (StartedAt x) (CompletedAt x) (ErrorMessage x) (InternalLinks x) (ExternalLinks x) (BrokenLinks x) (HeadingCounts x) (CreatedAt x) (UpdatedAt x).
Definition set_Status (v : string) (x : t) : t :=
  mk (ID x) (URLID x) v (StartedAt x) (CompletedAt x) (ErrorMessage x) (InternalLinks x) (ExternalLinks x) (BrokenLinks x) (HeadingCounts x) (CreatedAt x) (UpdatedAt x).
Definition set_CompletedAt (v : option Z) (x : t) : t :=
  mk (ID x) (URLID x) (Status x) (StartedAt x) v (ErrorMessage x) (InternalLinks x) (ExternalLinks x) (BrokenLinks x) (HeadingCounts x) (CreatedAt x) (UpdatedAt x).
Definition set_ErrorMessage (v : string) (x : t) : t :=
  mk (ID x) (URLID x) (Status x) (StartedAt x) (CompletedAt x) v (InternalLinks x) (ExternalLinks x) (BrokenLinks x) (HeadingCounts x) (CreatedAt x) (UpdatedAt x).
Definition set_InternalLinks (v : Z) (x : t) : t :=
  mk (ID x) (URLID x) (Status x) (StartedAt x) (CompletedAt x) (ErrorMessage x) v (ExternalLinks x) (BrokenLinks x) (HeadingCounts x) (CreatedAt x) (UpdatedAt x).
Definition set_ExternalLinks (v : Z) (x : t) : t :=
  mk (ID x) (URLID x) (Status x) (StartedAt x) (CompletedAt x) (ErrorMessage x) (InternalLinks x) v (BrokenLinks x) (HeadingCounts x) (CreatedAt x) (UpdatedAt x).
Definition set_BrokenLinks (v : Z) (x : t) : t :=
  mk (ID x) (URLID x) (Status x) (StartedAt x) (CompletedAt x) (ErrorMessage x) (InternalLinks x) (ExternalLinks x) v (HeadingCounts x) (CreatedAt x) (UpdatedAt x).
Definition set_HeadingCounts (v : string) (x : t) : t :=
  mk (ID x) (URLID x) (Status x) (StartedAt x) (CompletedAt x) (ErrorMessage x) (InternalLinks x) (ExternalLinks x) (BrokenLinks x) v (CreatedAt x) (UpdatedAt x).
Definition set_CreatedAt (v : Z) (x : t) : t :=
  mk (ID x) (URLID x) (Status x) (StartedAt x) (CompletedAt x) (ErrorMessage x) (InternalLinks x) (ExternalLinks x) (BrokenLinks x) (HeadingCounts x) v (UpdatedAt x).
Definition set_UpdatedAt (v : Z) (x : t) : t :=
  mk (ID x) (URLID x) (Status x) (StartedAt x) (CompletedAt x) (ErrorMessage x) (InternalLinks x) (ExternalLinks x) (BrokenLinks x) (HeadingCounts x) (CreatedAt x) v.

End Crawl.

Module Link.

Record t := mk {
  ID : N;
  URLID : N;
  CrawlID : N;
  LinkURL : string;
  LinkText : string;
  LinkType : string;
  StatusCode : Z;
  IsAccessible : bool;
  CreatedAt : Z
}.

Definition set_ID (v : N) (x : t) : t :=
  mk v (URLID x) (CrawlID x) (LinkURL x) (LinkText x) (LinkType x) (StatusCode x) (IsAccessible x) (CreatedAt x).
Definition set_URLID (v : N) (x : t) : t :=
  mk (ID x) v (CrawlID x) (LinkURL x) (LinkText x) (LinkType x) (StatusCode x) (IsAccessible x) (CreatedAt x).
Definition set_CrawlID (v : N) (x : t) : t :=
  mk (ID x) (URLID x) v (LinkURL x) (LinkText x) (LinkType x) (StatusCode x) (IsAccessible x) (CreatedAt x).
Definition set_StatusCode (v : Z) (x : t) : t :=
  mk (ID x) (URLID x) (CrawlID x) (LinkURL x) (LinkText x) (LinkType x) v (IsAccessible x) (CreatedAt x).
Definition set_IsAccessible (v : bool) (x : t) : t :=
  mk (ID x) (URLID x) (CrawlID x) (LinkURL x) (LinkText x) (LinkType x) (StatusCode x) v (CreatedAt x).
Definition set_CreatedAt (v : Z) (x : t) : t :=
  mk (ID x) (URLID x) (CrawlID x) (LinkURL x) (LinkText x) (LinkType x) (StatusCode x) (IsAccessible x) v.

End Link.

Module HeadingCounts.

Record t := mk {
  H1 : Z;
  H2 : Z;
  H3 : Z;
  H4 : Z;
  H5 : Z;
  H6 : Z
}.

Definition set_H1 (v : Z) (x : t) : t :=
  mk v (H2 x) (H3 x) (H4 x) (H5 x) (H6 x).
Definition set_H2 (v : Z) (x : t) : t :=
  mk (H1 x) v (H3 x) (H4 x) (H5 x) (H6 x).
Definition set_H3 (v : Z) (x : t) : t :=
  mk (H1 x) (H2 x) v (H4 x) (H5 x) (H6 x).
Definition set_H4 (v : Z) (x : t) : t :=
  mk (H1 x) (H2 x) (H3 x) v (H5 x) (H6 x).
Definition set_H5 (v : Z) (x : t) : t :=
  mk (H1 x) (H2 x) (H3 x) (H4 x) v (H6 x).
Definition set_H6 (v : Z) (x : t) : t :=
  mk (H1 x) (H2 x) (H3 x) (H4 x) (H5 x) v.

End HeadingCounts.

(** What GetCrawlStatus answers; [HeadingCounts] is a pointer, nil when
    the URL has no crawl. *)
Module CrawlStatusResponse.

Record t := mk {
  ID : N;
  URL : string;
  Status : string;
  InternalLinks : Z;
  ExternalLinks : Z;
  BrokenLinks : Z;
  HeadingCounts : option HeadingCounts.t;
  StartedAt : option Z;
  CompletedAt : option Z;
  ErrorMessage : string
}.

End CrawlStatusResponse.

Definition stampIfZero (now t : Z) : Z := if t =? 0 then now else t.
Definition defaultString (d s : string) : string :=
  if String.eqb s EmptyString then d else s.

(** User: [IsActive] has [default:true], so that Create replaces a
    false, the zero value, by true; Username and Email carry a
    [uniqueIndex]; the struct has a [gorm.DeletedAt]. *)
#[global] Instance User_Model : gorm.Model User.t := {|
  gorm.TableName := "users";
  gorm.primaryKey := User.ID;
  gorm.setPrimaryKey := User.set_ID;
  gorm.autoCreateTime now x :=
    User.set_UpdatedAt (stampIfZero now (User.UpdatedAt x))
      (User.set_CreatedAt (stampIfZero now (User.CreatedAt x)) x);
  gorm.autoUpdateTime now x := User.set_UpdatedAt now x;
  gorm.applyDefaults x := User.set_IsActive true x;
  gorm.uniqueColumns := [("username", User.Username); ("email", User.Email)];
  gorm.deletedAt := Some (User.DeletedAt, User.set_DeletedAt)
|}.

(** URL: [Status] has [default:'pending'], [URL] is [unique]; the struct
    has a [gorm.DeletedAt]. *)
#[global] Instance URL_Model : gorm.Model URL.t := {|
  gorm.TableName := "urls";
  gorm.primaryKey := URL.ID;
  gorm.setPrimaryKey := URL.set_ID;
  gorm.autoCreateTime now x :=
    URL.set_UpdatedAt (stampIfZero now (URL.UpdatedAt x))
      (URL.set_CreatedAt (stampIfZero now (URL.CreatedAt x)) x);
  gorm.autoUpdateTime now x := URL.set_UpdatedAt now x;
  gorm.applyDefaults x :=
    URL.set_Status (defaultString "pending" (URL.Status x)) x;
  gorm.uniqueColumns := [("url", URL.URL)];
  gorm.deletedAt := Some (URL.DeletedAt, URL.set_DeletedAt)
|}.

(** Crawl: [Status] has [default:'queued'] (the three counters default to
    0, their zero value); no unique column and no [gorm.DeletedAt]. *)
#[global] Instance Crawl_Model : gorm.Model Crawl.t := {|
  gorm.TableName := "crawls";
  gorm.primaryKey := Crawl.ID;
  gorm.setPrimaryKey := Crawl.set_ID;
  gorm.autoCreateTime now x :=
    Crawl.set_UpdatedAt (stampIfZero now (Crawl.UpdatedAt x))
      (Crawl.set_CreatedAt (stampIfZero now (Crawl.CreatedAt x)) x);
  gorm.autoUpdateTime now x := Crawl.set_UpdatedAt now x;
  gorm.applyDefaults x :=
    Crawl.set_Status (defaultString "queued" (Crawl.Status x)) x;
  gorm.uniqueColumns := [];
  gorm.deletedAt := None
|}.

(** Link: [IsAccessible] has [default:true], so that Create replaces a
    false, the zero value, by true; no [UpdatedAt], no unique column and
    no [gorm.DeletedAt]. *)
#[global] Instance Link_Model : gorm.Model Link.t := {|
  gorm.TableName := "links";
  gorm.primaryKey := Link.ID;
  gorm.setPrimaryKey := Link.set_ID;
  gorm.autoCreateTime now x :=
    Link.set_CreatedAt (stampIfZero now (Link.CreatedAt x)) x;
  gorm.autoUpdateTime now x := x;
  gorm.applyDefaults x := Link.set_IsAccessible true x;
  gorm.uniqueColumns := [];
  gorm.deletedAt := None
|}.

End models.

(** ** The world a crawl runs in *)

Module http.

(** The calls made to net/http, by method and URL.  (A call follows
    redirects on its own; it is one event here.) *)
Inductive Request :=
  | GET (url : string)
  | HEAD (url : string).

Record Response := mkResponse {
  StatusCode : Z;
  Status : string;
  Body : string
}.







Definition isGET (req : Request) : bool :=
  match req with
  | GET _ => true
  | HEAD _ => false
  end.

End http.

(** The library functions and the network.  What a request returns may
    depend on every request made before it, so the two net/http calls take
    the history; the theorems hold for every [Env]. *)
Class Env := {
  strings_TrimSpace : string -> string;
  strings_ToLower : string -> string;
  (** net/url: [*url.URL], [url.Parse], the field [Host],
      [ResolveReference] and [String] *)
  url_URL : Type;
  url_Parse : string -> Result url_URL;
  url_Host : url_URL -> string;
  url_ResolveReference : url_URL -> url_URL -> url_URL;
  url_String : url_URL -> string;
  (** [http.Get] and [client.Head] (the latter yields the status code) *)
  http_Get : list http.Request -> string -> Result http.Response;
  http_Head : list http.Request -> string -> Result Z;
  (** [html.Parse] of a response body *)
  html_Parse : string -> Result html.Node
}.


(** The database: the driver in use and the three tables of the crawler. *)
Module DB.

Record t := mk {
  driver : gorm.Driver;
  urls : list models.URL.t;
  crawls : list models.Crawl.t;
  links : list models.Link.t
}.
Definition set_urls (v : list models.URL.t) (x : t) : t :=
  mk (driver x) v (crawls x) (links x).
Definition set_crawls (v : list models.Crawl.t) (x : t) : t :=
  mk (driver x) (urls x) v (links x).
Definition set_links (v : list models.Link.t) (x : t) : t :=
  mk (driver x) (urls x) (crawls x) v.

End DB.

(** The state threaded through the services: the clock [time.Now] reads
    (no claim depends on a duration, and it is never advanced), the
    requests made so far, and the database. *)
Module World.

Record t := mk {
  clock : Z;
  requests : list http.Request;
  db : DB.t
}.
Definition set_requests (v : list http.Request) (x : t) : t :=
  mk (clock x) v (db x).
Definition set_db (v : DB.t) (x : t) : t :=
  mk (clock x) (requests x) v.

End World.

(** ** services (crawler_service.go, url_service.go) *)

Module services.

Import models.

Module CrawlData.

Record t := mk {
  Title : string;
  HTMLVersion : string;
  HasLoginForm : bool;
  HeadingCounts : models.HeadingCounts.t;
  InternalLinks : Z;
  ExternalLinks : Z;
  BrokenLinks : Z;
  Links : list models.Link.t
}.

Definition set_Title (v : string) (x : t) : t :=
  mk v (HTMLVersion x) (HasLoginForm x) (HeadingCounts x) (InternalLinks x) (ExternalLinks x) (BrokenLinks x) (Links x).
Definition set_HTMLVersion (v : string) (x : t) : t :=
  mk (Title x) v (HasLoginForm x) (HeadingCounts x) (InternalLinks x) (ExternalLinks x) (BrokenLinks x) (Links x).
Definition set_HasLoginForm (v : bool) (x : t) : t :=
  mk (Title x) (HTMLVersion x) v (HeadingCounts x) (InternalLinks x) (ExternalLinks x) (BrokenLinks x) (Links x).
Definition set_HeadingCounts (v : models.HeadingCounts.t) (x : t) : t :=
  mk (Title x) (HTMLVersion x) (HasLoginForm x) v (InternalLinks x) (ExternalLinks x) (BrokenLinks x) (Links x).
Definition set_InternalLinks (v : Z) (x : t) : t :=
  mk (Title x) (HTMLVersion x) (HasLoginForm x) (HeadingCounts x) v (ExternalLinks x) (BrokenLinks x) (Links x).
Definition set_ExternalLinks (v : Z) (x : t) : t :=
  mk (Title x) (HTMLVersion x) (HasLoginForm x) (HeadingCounts x) (InternalLinks x) v (BrokenLinks x) (Links x).
Definition set_BrokenLinks (v : Z) (x : t) : t :=
  mk (Title x) (HTMLVersion x) (HasLoginForm x) (HeadingCounts x) (InternalLinks x) (ExternalLinks x) v (Links x).
Definition set_Links (v : list models.Link.t) (x : t) : t :=
  mk (Title x) (HTMLVersion x) (HasLoginForm x) (HeadingCounts x) (InternalLinks x) (ExternalLinks x) (BrokenLinks x) v.

End CrawlData.

(** A goroutine started with [go]: it is not run here, only recorded. *)
Inductive Goroutine :=
  | go_StartCrawl (urlID : N).

(** Where a goroutine that runs StartCrawl stands: at its start, in
    performCrawl with the two structs it holds, or returned. *)
Inductive Crawling :=
  | starting (urlID : N)
  | crawling (urlRecord : URL.t) (crawl : Crawl.t)
  | returned.

Definition launch (g : Goroutine) : Crawling :=
  match g with
  | go_StartCrawl urlID => starting urlID
  end.

Section Crawler.
Context {env : Env}.

Definition dquote : string := String (ascii_of_nat 34) EmptyString.

(** The loop of processLink over [n.Attr]: the value of the first
    attribute whose key is href, the empty string when there is none. *)
Definition href_of (attrs : list html.Attribute) : string :=
  match find (fun attr => String.eqb (html.Key attr) "href") attrs with
  | Some attr => html.Val attr
  | None => EmptyString
  end.

(** processLink processes anchor tags and categorizes links. *)
Definition processLink (n : html.Node) (data : CrawlData.t) (baseURL : url_URL)
  : CrawlData.t :=
  let href := href_of (html.Attr n) in
  if String.eqb href EmptyString then data
  else
    let linkText :=
      match html.FirstChild n with
      | Some c =>
          if decide (html.Type_ c = html.TextNode)
          then strings_TrimSpace (html.Data c) else EmptyString
      | None => EmptyString
      end in
    match url_Parse href with
    | err _ => data
    | ok linkURL =>
        let resolvedURL := url_ResolveReference baseURL linkURL in
        let linkType :=
          if String.eqb (url_Host resolvedURL) (url_Host baseURL)
          then "internal" else "external" in
        let link :=
          Link.mk 0 0 0 (url_String resolvedURL) linkText linkType 0 true 0 in
        let data := CrawlData.set_Links (CrawlData.Links data ++ [link]) data in
        if String.eqb linkType "internal"
        then CrawlData.set_InternalLinks
               (goint.incr (CrawlData.InternalLinks data)) data
        else CrawlData.set_ExternalLinks
               (goint.incr (CrawlData.ExternalLinks data)) data
    end.

Fixpoint renderNode (n : html.Node) : string :=
  match html.Type_ n with
  | html.ElementNode =>
      "<" +:+ html.Data n
      +:+ String.concat EmptyString
            ((fun attr => " " +:+ html.Key attr +:+ "=" +:+ dquote
                          +:+ html.Val attr +:+ dquote) <$> html.Attr n)
      +:+ ">"
      +:+ String.concat EmptyString (renderNode <$> html.Children n)
      +:+ "</" +:+ html.Data n +:+ ">"
  | html.TextNode => html.Data n
  | _ => EmptyString
  end.

Definition nodeToString (n : html.Node) : string := renderNode n.

Definition loginIndicators : list string :=
  ["login"; "signin"; "email"; "username"; "password"].

(** checkLoginForm checks if the form might be a login form. *)
Definition checkLoginForm (n : html.Node) (data : CrawlData.t) : CrawlData.t :=
  let formHTML := nodeToString n in
  let lowerHTML := strings_ToLower formHTML in
  if existsb (fun indicator => strings.Contains lowerHTML indicator) loginIndicators
  then CrawlData.set_HasLoginForm true data
  else data.

Definition detectHTMLVersion (n : html.Node) (data : CrawlData.t) : CrawlData.t :=
  CrawlData.set_HTMLVersion "HTML5" data.

Definition incrHeading (set : Z -> HeadingCounts.t -> HeadingCounts.t)
    (get : HeadingCounts.t -> Z) (data : CrawlData.t) : CrawlData.t :=
  CrawlData.set_HeadingCounts
    (set (goint.incr (get (CrawlData.HeadingCounts data)))
         (CrawlData.HeadingCounts data)) data.

(** The head of traverseHTML (lines 155-180): what it does at the node
    itself, before it descends. *)
Definition visit (n : html.Node) (data : CrawlData.t) (baseURL : url_URL)
  : CrawlData.t :=
  if decide (html.Type_ n = html.ElementNode) then
    let tag := html.Data n in
    if String.eqb tag "title" then
      match html.FirstChild n with
      | Some c =>
          if String.eqb (CrawlData.Title data) EmptyString
          then CrawlData.set_Title (strings_TrimSpace (html.Data c)) data
          else data
      | None => data
      end
    else if String.eqb tag "h1" then
      incrHeading HeadingCounts.set_H1 HeadingCounts.H1 data
    else if String.eqb tag "h2" then
      incrHeading HeadingCounts.set_H2 HeadingCounts.H2 data
    else if String.eqb tag "h3" then
      incrHeading HeadingCounts.set_H3 HeadingCounts.H3 data
    else if String.eqb tag "h4" then
      incrHeading HeadingCounts.set_H4 HeadingCounts.H4 data
    else if String.eqb tag "h5" then
      incrHeading HeadingCounts.set_H5 HeadingCounts.H5 data
    else if String.eqb tag "h6" then
      incrHeading HeadingCounts.set_H6 HeadingCounts.H6 data
    else if String.eqb tag "a" then processLink n data baseURL
    else if String.eqb tag "form" then checkLoginForm n data
    else if String.eqb tag "html" then detectHTMLVersion n data
    else data
  else data.

(** traverseHTML recursively traverses HTML nodes to extract data. *)
Fixpoint traverseHTML (n : html.Node) (data : CrawlData.t) (baseURL : url_URL)
  : CrawlData.t :=
  let data := visit n data baseURL in
  fold_left (fun data c => traverseHTML c data baseURL) (html.Children n) data.

(** One turn of the loop of checkLinkAccessibility: the link at the
    current index, the broken-link counter and the requests so far. *)
Definition checkLink (link : Link.t) (broken : Z) (reqs : list http.Request)
  : Link.t * Z * list http.Request :=
  if String.eqb (Link.LinkType link) "internal" then
    (Link.set_StatusCode 200 link, broken, reqs)
  else
    let reqs' := reqs ++ [http.HEAD (Link.LinkURL link)] in
    match http_Head reqs (Link.LinkURL link) with
    | err _ =>
        (Link.set_IsAccessible false (Link.set_StatusCode 0 link),
         goint.incr broken, reqs')
    | ok code =>
        let link := Link.set_StatusCode code link in
        if 400 <=? code
        then (Link.set_IsAccessible false link, goint.incr broken, reqs')
        else (link, broken, reqs')
    end.

Fixpoint checkLinks (links : list Link.t) (broken : Z) (reqs : list http.Request)
  : list Link.t * Z * list http.Request :=
  match links with
  | [] => ([], broken, reqs)
  | link :: rest =>
      let '(link', broken, reqs) := checkLink link broken reqs in
      let '(rest', broken, reqs) := checkLinks rest broken reqs in
      (link' :: rest', broken, reqs)
  end.

(** checkLinkAccessibility checks if links are accessible: the slice is
    updated in place, index by index. *)
Definition checkLinkAccessibility (data : CrawlData.t) (w : World.t)
  : CrawlData.t * World.t :=
  let '(links, broken, reqs) :=
    checkLinks (CrawlData.Links data) (CrawlData.BrokenLinks data)
               (World.requests w) in
  (CrawlData.set_BrokenLinks broken (CrawlData.set_Links links data),
   World.set_requests reqs w).

Definition newCrawlData : CrawlData.t :=
  CrawlData.mk EmptyString "HTML5" false (HeadingCounts.mk 0 0 0 0 0 0) 0 0 0 [].

(** extractData extracts relevant data from HTML document. *)
Definition extractData (doc : html.Node) (baseURL : string) (w : World.t)
  : CrawlData.t * World.t :=
  let data := newCrawlData in
  match url_Parse baseURL with
  | err _ => (data, w)
  | ok parsedBaseURL =>
      let data := traverseHTML doc data parsedBaseURL in
      checkLinkAccessibility data w
  end.

(** [json.Marshal] of a [models.HeadingCounts]. *)
Definition marshalHeadingCounts (h : HeadingCounts.t) : string :=
  let field name v := dquote +:+ name +:+ dquote +:+ ":" +:+ strconv.Itoa v in
  "{" +:+ field "h1" (HeadingCounts.H1 h)
  +:+ "," +:+ field "h2" (HeadingCounts.H2 h)
  +:+ "," +:+ field "h3" (HeadingCounts.H3 h)
  +:+ "," +:+ field "h4" (HeadingCounts.H4 h)
  +:+ "," +:+ field "h5" (HeadingCounts.H5 h)
  +:+ "," +:+ field "h6" (HeadingCounts.H6 h) +:+ "}".

(** [s.db.Save(x)] with its error dropped, as performCrawl calls it. *)
Definition saveCrawl (crawl : Crawl.t) (w : World.t) : Crawl.t * World.t :=
  match gorm.Save (DB.driver (World.db w)) (World.clock w) crawl
                  (DB.crawls (World.db w)) with
  | ok (crawl, t) => (crawl, World.set_db (DB.set_crawls t (World.db w)) w)
  | err _ => (crawl, w)
  end.

Definition saveURL (urlRecord : URL.t) (w : World.t) : URL.t * World.t :=
  match gorm.Save (DB.driver (World.db w)) (World.clock w) urlRecord
                  (DB.urls (World.db w)) with
  | ok (urlRecord, t) => (urlRecord, World.set_db (DB.set_urls t (World.db w)) w)
  | err _ => (urlRecord, w)
  end.

(** The loop that saves the links (lines 114-118): [link] is a copy of
    the slice element, and the error of Create is dropped. *)
Fixpoint saveLinks (urlID crawlID : N) (links : list Link.t) (w : World.t)
  : World.t :=
  match links with
  | [] => w
  | link :: rest =>
      let link := Link.set_CrawlID crawlID (Link.set_URLID urlID link) in
      let w :=
        match gorm.Create (DB.driver (World.db w)) (World.clock w) link
                          (DB.links (World.db w)) with
        | ok (_, t) => World.set_db (DB.set_links t (World.db w)) w
        | err _ => w
        end in
      saveLinks urlID crawlID rest w
  end.

Definition failCrawl (msg : string) (crawl : Crawl.t) : Crawl.t :=
  Crawl.set_ErrorMessage msg (Crawl.set_Status "error" crawl).

(** The body of performCrawl (lines 70-118), the deferred function
    apart: the two structs behind the pointers and the world after. *)
Definition performCrawl_body (urlRecord : URL.t) (crawl : Crawl.t) (w : World.t)
  : URL.t * Crawl.t * World.t :=
  let resp := http_Get (World.requests w) (URL.URL urlRecord) in
  let w := World.set_requests
             (World.requests w ++ [http.GET (URL.URL urlRecord)]) w in
  match resp with
  | err e => (urlRecord, failCrawl ("HTTP request failed: " +:+ e) crawl, w)
  | ok resp =>
      if 400 <=? http.StatusCode resp then
        (urlRecord,
         failCrawl ("HTTP " +:+ strconv.Itoa (http.StatusCode resp) +:+ ": "
                    +:+ http.Status resp) crawl,
         w)
      else
        match html_Parse (http.Body resp) with
        | err e =>
            (urlRecord, failCrawl ("HTML parsing failed: " +:+ e) crawl, w)
        | ok doc =>
            let '(data, w) := extractData doc (URL.URL urlRecord) w in
            let urlRecord :=
              URL.set_HasLoginForm (CrawlData.HasLoginForm data)
                (URL.set_HTMLVersion (CrawlData.HTMLVersion data)
                   (URL.set_Title (CrawlData.Title data) urlRecord)) in
            let crawl :=
              Crawl.set_BrokenLinks (CrawlData.BrokenLinks data)
                (Crawl.set_ExternalLinks (CrawlData.ExternalLinks data)
                   (Crawl.set_InternalLinks (CrawlData.InternalLinks data) crawl)) in
            let headingCountsJSON :=
              marshalHeadingCounts (CrawlData.HeadingCounts data) in
            let crawl :=
              Crawl.set_Status "completed"
                (Crawl.set_HeadingCounts headingCountsJSON crawl) in
            let w := saveLinks (URL.ID urlRecord) (Crawl.ID crawl)
                               (CrawlData.Links data) w in
            (urlRecord, crawl, w)
        end
  end.

(** performCrawl does the actual crawling work: the body, then the
    deferred function (lines 59-68) on every path. *)
Definition performCrawl (urlRecord : URL.t) (crawl : Crawl.t) (w : World.t)
  : URL.t * Crawl.t * World.t :=
  let '(urlRecord, crawl, w) := performCrawl_body urlRecord crawl w in
  let now := World.clock w in
  let crawl := Crawl.set_CompletedAt (Some now) crawl in
  let '(crawl, w) := saveCrawl crawl w in
  let urlRecord := URL.set_Status (Crawl.Status crawl) urlRecord in
  let '(urlRecord, w) := saveURL urlRecord w in
  (urlRecord, crawl, w).

(** StartCrawl initiates the crawling process for a URL. *)
Definition StartCrawl (urlID : N) (w : World.t) : World.t :=
  match gorm.First urlID (DB.urls (World.db w)) with
  | err _ => w
  | ok urlRecord =>
      let crawl :=
        Crawl.mk 0 urlID "running" (Some (World.clock w)) None
                 EmptyString 0 0 0 EmptyString 0 0 in
      match gorm.Create (DB.driver (World.db w)) (World.clock w) crawl
                        (DB.crawls (World.db w)) with
      | err _ => w
      | ok (crawl, t) =>
          let w := World.set_db (DB.set_crawls t (World.db w)) w in
          let '(urlRecord, t) :=
            gorm.Update (World.clock w) (URL.set_Status "running") urlRecord
                        (DB.urls (World.db w)) in
          let w := World.set_db (DB.set_urls t (World.db w)) w in
          let '(_, _, w) := performCrawl urlRecord crawl w in
          w
      end
  end.

(** StartCrawl up to its call of performCrawl (lines 30-51): the two
    structs behind the pointers it passes on, or nothing when it returns
    early. *)
Definition StartCrawl_begin (urlID : N) (w : World.t)
  : option (URL.t * Crawl.t) * World.t :=
  match gorm.First urlID (DB.urls (World.db w)) with
  | err _ => (None, w)
  | ok urlRecord =>
      let crawl :=
        Crawl.mk 0 urlID "running" (Some (World.clock w)) None
                 EmptyString 0 0 0 EmptyString 0 0 in
      match gorm.Create (DB.driver (World.db w)) (World.clock w) crawl
                        (DB.crawls (World.db w)) with
      | err _ => (None, w)
      | ok (crawl, t) =>
          let w := World.set_db (DB.set_crawls t (World.db w)) w in
          let '(urlRecord, t) :=
            gorm.Update (World.clock w) (URL.set_Status "running") urlRecord
                        (DB.urls (World.db w)) in
          let w := World.set_db (DB.set_urls t (World.db w)) w in
          (Some (urlRecord, crawl), w)
      end
  end.

(** One step of a goroutine that runs StartCrawl: from its start to the
    call of performCrawl, and from there to its return.  Between two
    steps other goroutines may run. *)
Definition step (g : Crawling) (w : World.t) : Crawling * World.t :=
  match g with
  | starting urlID =>
      match StartCrawl_begin urlID w with
      | (Some (urlRecord, crawl), w) => (crawling urlRecord crawl, w)
      | (None, w) => (returned, w)
      end
  | crawling urlRecord crawl =>
      let '(_, _, w) := performCrawl urlRecord crawl w in (returned, w)
  | returned => (returned, w)
  end.

(** BulkRerunCrawls restarts crawling for multiple URLs: one goroutine
    for each id, and a nil error. *)
Definition BulkRerunCrawls (urlIDs : list N) : list Goroutine :=
  go_StartCrawl <$> urlIDs.

End Crawler.

(** CreateURL creates a new URL record and starts crawling
    (url_service.go, lines 31-72). *)
Definition CreateURL (url : string) (w : World.t)
  : Result URL.t * World.t * list Goroutine :=
  let d := DB.driver (World.db w) in
  let urlRecord :=
    URL.mk 0 url EmptyString EmptyString "pending" false 0 0 gorm.DeletedAt_zero in
  match gorm.Create d (World.clock w) urlRecord (DB.urls (World.db w)) with
  | ok (urlRecord, t) =>
      (ok urlRecord, World.set_db (DB.set_urls t (World.db w)) w,
       [go_StartCrawl (URL.ID urlRecord)])
  | err e =>
      if strings.Contains e "Duplicate entry"
         || strings.Contains e "UNIQUE constraint failed" then
        match gorm.UnscopedFirstWhere
                (fun r => String.eqb (URL.URL r) url) (DB.urls (World.db w)) with
        | err fetchErr =>
            (err ("failed to fetch existing URL after duplicate error: "
                  +:+ fetchErr), w, [])
        | ok existingURL =>
            let existingURL :=
              if gorm.Valid (URL.DeletedAt existingURL)
              then URL.set_DeletedAt gorm.DeletedAt_zero existingURL
              else existingURL in
            let existingURL := URL.set_Status "pending" existingURL in
            match gorm.Save d (World.clock w) existingURL
                            (DB.urls (World.db w)) with
            | err updateErr =>
                (err ("failed to update existing URL status: " +:+ updateErr),
                 w, [])
            | ok (existingURL, t) =>
                (ok existingURL, World.set_db (DB.set_urls t (World.db w)) w,
                 [go_StartCrawl (URL.ID existingURL)])
            end
        end
      else (err ("failed to create URL record: " +:+ e), w, [])
  end.

(** A [models.URL] with its two relationship fields as Preload fills
    them. *)
Record LoadedURL := mkLoadedURL {
  Record_ : URL.t;
  Crawls : list Crawl.t;
  Links : list Link.t
}.

(** GetURL retrieves a single URL by ID with full details
    (url_service.go, lines 119-137): the visible row of the key, its
    crawls newest first, and those of its links that are flagged
    inaccessible. *)
Definition GetURL (id : N) (w : World.t) : Result LoadedURL :=
  match gorm.First id (DB.urls (World.db w)) with
  | err e =>
      if String.eqb e gorm.ErrRecordNotFound then err "URL not found"
      else err ("failed to fetch URL: " +:+ e)
  | ok url =>
      ok (mkLoadedURL url
            (gorm.orderDesc Crawl.CreatedAt
               (filter (fun c => Crawl.URLID c = URL.ID url)
                       (DB.crawls (World.db w))))
            (filter (fun l => Link.URLID l = URL.ID url
                              /\ Link.IsAccessible l = false)
                    (DB.links (World.db w))))
  end.

(** DeleteURL soft deletes a URL by ID (lines 140-145).  Delete cannot
    fail in this store, so the error branch has no counterpart. *)
Definition DeleteURL (id : N) (w : World.t) : Result unit * World.t :=
  (ok tt,
   World.set_db
     (DB.set_urls (gorm.Delete (World.clock w) id (DB.urls (World.db w)))
                  (World.db w)) w).

(** BulkDeleteURLs soft deletes multiple URLs (lines 148-153). *)
Definition BulkDeleteURLs (ids : list N) (w : World.t) : Result unit * World.t :=
  match gorm.DeleteIn (World.clock w) ids (DB.urls (World.db w)) with
  | err e => (err ("failed to bulk delete URLs: " +:+ e), w)
  | ok t => (ok tt, World.set_db (DB.set_urls t (World.db w)) w)
  end.

(** The switch of GetURLLinks on the link type: the condition it adds to
    the query, none for any other string. *)
Definition linkTypeFilter (linkType : string) (l : Link.t) : bool :=
  if String.eqb linkType "internal" then String.eqb (Link.LinkType l) "internal"
  else if String.eqb linkType "external" then String.eqb (Link.LinkType l) "external"
  else if String.eqb linkType "broken" then negb (Link.IsAccessible l)
  else if String.eqb linkType "accessible" then Link.IsAccessible l
  else true.

(** GetURLLinks retrieves links for a specific URL with filtering
    (url_service.go, lines 156-199): the page and the total.  The limit
    is at least 1 and the offset at least 0, as the handler passes them;
    rows created at the same time come in table order (SQL leaves their
    order open). *)
Definition GetURLLinks (urlID : N) (linkType : string) (limit offset : Z)
    (w : World.t) : Result (list Link.t * Z) :=
  match gorm.First urlID (DB.urls (World.db w)) with
  | err e =>
      if String.eqb e gorm.ErrRecordNotFound then err "URL not found"
      else err ("failed to verify URL: " +:+ e)
  | ok _ =>
      let query :=
        filter (fun l => Link.URLID l = urlID /\ linkTypeFilter linkType l = true)
               (DB.links (World.db w)) in
      let total := Z.of_nat (length query) in
      let links :=
        take (Z.to_nat limit)
             (drop (Z.to_nat offset) (gorm.orderDesc Link.CreatedAt query)) in
      ok (links, total)
  end.

Section Status.

(** [json.Unmarshal(data, &headingCounts)] on a zero struct, its error
    dropped as GetCrawlStatus drops it: the struct afterwards. *)
Variable json_Unmarshal : string -> HeadingCounts.t -> HeadingCounts.t.

(** GetCrawlStatus returns the status of a crawl (crawler_service.go,
    lines 322-358): of the newest crawl of the URL, or pending when it
    has none.  Every error of First is reported as URL not found. *)
Definition GetCrawlStatus (urlID : N) (w : World.t)
  : Result CrawlStatusResponse.t :=
  match gorm.First urlID (DB.urls (World.db w)) with
  | err _ => err "URL not found"
  | ok url =>
      match head (gorm.orderDesc Crawl.CreatedAt
                    (filter (fun c => Crawl.URLID c = URL.ID url)
                            (DB.crawls (World.db w)))) with
      | None =>
          ok (CrawlStatusResponse.mk urlID (URL.URL url) "pending" 0 0 0
                None None None EmptyString)
      | Some crawl =>
          let headingCounts := HeadingCounts.mk 0 0 0 0 0 0 in
          let headingCounts :=
            if negb (String.eqb (Crawl.HeadingCounts crawl) EmptyString)
            then json_Unmarshal (Crawl.HeadingCounts crawl) headingCounts
            else headingCounts in
          ok (CrawlStatusResponse.mk (Crawl.ID crawl) (URL.URL url)
                (Crawl.Status crawl) (Crawl.InternalLinks crawl)
                (Crawl.ExternalLinks crawl) (Crawl.BrokenLinks crawl)
                (Some headingCounts) (Crawl.StartedAt crawl)
                (Crawl.CompletedAt crawl) (Crawl.ErrorMessage crawl))
      end
  end.

End Status.

End services.

(** ** gin: the query string of a request *)

Module gin.

(** The parsed query string, in the order of the request; a key may be
    repeated, and the accessors below return its first value. *)
Definition Context := list (string * string).

Definition GetQuery (c : Context) (key : string) : option string :=
  snd <$> find (fun kv => String.eqb (fst kv) key) c.

Definition DefaultQuery (c : Context) (key defaultValue : string) : string :=
  match GetQuery c key with
  | Some v => v
  | None => defaultValue
  end.

Definition Query (c : Context) (key : string) : string :=
  DefaultQuery c key "".

End gin.

(** ** handlers.URLHandler.GetURLs *)

Module handlers.

(** The arguments of the call [h.urlService.GetURLs(...)]. *)
Record GetURLsArgs := mkGetURLsArgs {
  limit : Z;
  offset : Z;
  search : string;
  status : string;
  sortBy : string;
  sortOrder : string
}.

Definition validSortColumns : gmap string bool :=
  list_to_map
    [("url", true); ("title", true); ("status", true);
     ("html_version", true); ("created_at", true); ("updated_at", true)].

(** GetURLs up to the call of the service (lines 21-59). *)
Definition GetURLs (c : gin.Context) : GetURLsArgs :=
  let limitStr := gin.DefaultQuery c "limit" "20" in
  let offsetStr := gin.DefaultQuery c "offset" "0" in
  let search := gin.Query c "search" in
  let status := gin.Query c "status" in
  let sortBy := gin.DefaultQuery c "sortBy" "updated_at" in
  let sortOrder := gin.DefaultQuery c "sortOrder" "desc" in
  let limit :=
    match strconv.Atoi limitStr with
    | Some limit => if (limit <=? 0) || (100 <? limit) then 20 else limit
    | None => 20
    end in
  let offset :=
    match strconv.Atoi offsetStr with
    | Some offset => if offset <? 0 then 0 else offset
    | None => 0
    end in
  let sortBy :=
    if negb (default false (validSortColumns !! sortBy))
    then "updated_at" else sortBy in
  let sortOrder :=
    if negb (String.eqb sortOrder "asc") && negb (String.eqb sortOrder "desc")
    then "desc" else sortOrder in
  mkGetURLsArgs limit offset search status sortBy sortOrder.

(** The six column names a listing may be sorted by. *)
Definition sortColumnNames : list string :=
  ["url"; "title"; "status"; "html_version"; "created_at"; "updated_at"].

(** A value of a [gin.H] and the response [c.JSON(code, body)] writes. *)
Inductive Value :=
  | Str (s : string)
  | Data (url : services.LoadedURL).

Record Response := mkResponse {
  Code : Z;
  Body : gmap string Value
}.

Definition errorResponse (code : Z) (error message : string) : Response :=
  mkResponse code (<["error" := Str error]> (<["message" := Str message]> ∅)).

Definition messageResponse (message : string) : Response :=
  mkResponse 200 (<["message" := Str message]> ∅).

Definition invalidID : Response :=
  errorResponse 400 "Invalid URL ID" "ID must be a valid number".

(** CreateURL handles POST /api/v1/urls (lines 79-103); [bind] is what
    [c.ShouldBindJSON(&req)] yields, the URL of the request or its error.
    The record answered carries no crawls and no links. *)
Definition CreateURL (bind : Result string) (w : World.t)
  : Response * World.t * list services.Goroutine :=
  match bind with
  | err e => (errorResponse 400 "Invalid request body" e, w, [])
  | ok url =>
      match services.CreateURL url w with
      | (err e, w', started) =>
          (errorResponse 500 "Failed to create URL" e, w', started)
      | (ok url, w', started) =>
          (mkResponse 201
             (<["data" := Data (services.mkLoadedURL url [] [])]>
                (<["message" := Str "URL created and crawling started"]> ∅)),
           w', started)
      end
  end.

(** GetURL handles GET /api/v1/urls/:id (lines 106-137); [idStr] is
    [c.Param("id")]. *)
Definition GetURL (idStr : string) (w : World.t) : Response :=
  match strconv.ParseUint idStr 32 with
  | None => invalidID
  | Some id =>
      match services.GetURL id w with
      | err e =>
          if String.eqb e "URL not found"
          then errorResponse 404 "URL not found" "The requested URL does not exist"
          else errorResponse 500 "Failed to fetch URL" e
      | ok url => mkResponse 200 (<["data" := Data url]> ∅)
      end
  end.

(** DeleteURL handles DELETE /api/v1/urls/:id (lines 140-162). *)
Definition DeleteURL (idStr : string) (w : World.t) : Response * World.t :=
  match strconv.ParseUint idStr 32 with
  | None => (invalidID, w)
  | Some id =>
      match services.DeleteURL id w with
      | (err e, w') => (errorResponse 500 "Failed to delete URL" e, w')
      | (ok _, w') => (messageResponse "URL deleted successfully", w')
      end
  end.

(** BulkDeleteURLs handles POST /api/v1/urls/bulk-delete (lines
    165-194); [bind] is what [c.ShouldBindJSON(&req)] yields, the IDs of
    the request or its error. *)
Definition BulkDeleteURLs (bind : Result (list N)) (w : World.t)
  : Response * World.t :=
  match bind with
  | err e => (errorResponse 400 "Invalid request body" e, w)
  | ok IDs =>
      if (length IDs =? 0)%nat then
        (errorResponse 400 "No IDs provided"
                       "At least one URL ID must be provided", w)
      else
        match services.BulkDeleteURLs IDs w with
        | (err e, w') => (errorResponse 500 "Failed to delete URLs" e, w')
        | (ok _, w') => (messageResponse "URLs deleted successfully", w')
        end
  end.

(** The arguments of the call [h.urlService.GetURLLinks(...)]. *)
Record GetURLLinksArgs := mkGetURLLinksArgs {
  links_urlID : N;
  links_linkType : string;
  links_limit : Z;
  links_offset : Z
}.

(** GetURLLinks up to the call of the service (lines 197-221): the
    response when the ID is refused, the arguments otherwise. *)
Definition GetURLLinks (idStr : string) (c : gin.Context)
  : Response + GetURLLinksArgs :=
  match strconv.ParseUint idStr 32 with
  | None => inl invalidID
  | Some id =>
      let linkType := gin.Query c "type" in
      let limitStr := gin.DefaultQuery c "limit" "50" in
      let offsetStr := gin.DefaultQuery c "offset" "0" in
      let limit :=
        match strconv.Atoi limitStr with
        | Some limit => if (limit <=? 0) || (200 <? limit) then 50 else limit
        | None => 50
        end in
      let offset :=
        match strconv.Atoi offsetStr with
        | Some offset => if offset <? 0 then 0 else offset
        | None => 0
        end in
      inr (mkGetURLLinksArgs id linkType limit offset)
  end.

End handlers.

(** ** A sample environment

    The theorems below hold for every [Env].  Closed examples need one: a
    byte-level model of the library functions, enough for the inputs of the
    examples, and a three-page web. *)

Module sample.

Definition byte (c : ascii) : Z := Z.of_N (N_of_ascii c).

(** The ASCII white space [strings.TrimSpace] removes. *)
Definition isSpace (c : ascii) : bool :=
  let n := byte c in ((9 <=? n) && (n <=? 13)) || (n =? 32).

Fixpoint trimLeft (s : string) : string :=
  match s with
  | String c s' => if isSpace c then trimLeft s' else s
  | EmptyString => EmptyString
  end.

Fixpoint trimRight (s : string) : string :=
  match s with
  | String c s' =>
      match trimRight s' with
      | EmptyString => if isSpace c then EmptyString else String c EmptyString
      | t => String c t
      end
  | EmptyString => EmptyString
  end.

Definition TrimSpace (s : string) : string := trimRight (trimLeft s).

Definition lower (c : ascii) : ascii :=
  let n := byte c in
  if (65 <=? n) && (n <=? 90) then ascii_of_N (Z.to_N (n + 32)) else c.

Fixpoint ToLower (s : string) : string :=
  match s with
  | String c s' => String (lower c) (ToLower s')
  | EmptyString => EmptyString
  end.

(** [strings.Cut s sep] for a one-byte separator. *)
Fixpoint cut (sep : ascii) (s : string) : string * option string :=
  match s with
  | EmptyString => (EmptyString, None)
  | String c s' =>
      if Ascii.eqb c sep then (EmptyString, Some s')
      else let '(before, after) := cut sep s' in (String c before, after)
  end.

Fixpoint containsCTLByte (s : string) : bool :=
  match s with
  | EmptyString => false
  | String c s' => (byte c <? 32) || (byte c =? 127) || containsCTLByte s'
  end.

(** net/url's getScheme: [None] is its error, missing protocol scheme. *)
Fixpoint getScheme (rawURL : string) (i : nat) (acc : string)
  : option (string * string) :=
  match rawURL with
  | EmptyString => Some (EmptyString, acc)
  | String c rest =>
      let n := byte c in
      if ((97 <=? n) && (n <=? 122)) || ((65 <=? n) && (n <=? 90)) then
        getScheme rest (S i) (acc +:+ String c EmptyString)
      else if ((48 <=? n) && (n <=? 57)) || (n =? 43) || (n =? 45) || (n =? 46) then
        match i with
        | O => Some (EmptyString, acc +:+ rawURL)
        | _ => getScheme rest (S i) (acc +:+ String c EmptyString)
        end
      else if n =? 58 then
        match i with
        | O => None
        | _ => Some (acc, rest)
        end
      else Some (EmptyString, acc +:+ rawURL)
  end.

(** The fields of [url.URL] the examples exercise. *)
Record URL := mkURL {
  Scheme : string;
  Opaque : string;
  Host : string;
  Path : string;
  RawQuery : string;
  Fragment : string
}.

(** The part of the authority after its last at-sign. *)
Fixpoint hostOf (authority : string) : string :=
  match authority with
  | EmptyString => EmptyString
  | String _ rest =>
      if strings.Contains authority "@" then hostOf rest else authority
  end.

(** [url.Parse], without the checks of percent escapes, of the host and
    of the port, and without user information. *)
Definition Parse (rawURL : string) : Result URL :=
  let '(u, frag) := cut "#" rawURL in
  if containsCTLByte u then err "net/url: invalid control character in URL"
  else if String.eqb u "*" then
    ok (mkURL EmptyString EmptyString EmptyString "*" EmptyString (default EmptyString frag))
  else
    match getScheme u 0 EmptyString with
    | None => err "missing protocol scheme"
    | Some (scheme, rest) =>
        let scheme := ToLower scheme in
        let '(rest, query) := cut "?" rest in
        let query := default EmptyString query in
        let frag := default EmptyString frag in
        if negb (String.prefix "/" rest) && negb (String.eqb scheme EmptyString) then
          ok (mkURL scheme rest EmptyString EmptyString query frag)
        else if negb (String.prefix "/" rest)
                && strings.Contains (fst (cut "/" rest)) ":" then
          err "first path segment in URL cannot contain colon"
        else if String.prefix "//" rest
                && (negb (String.eqb scheme EmptyString)
                    || negb (String.prefix "///" rest)) then
          let after := String.substring 2 (String.length rest - 2) rest in
          let '(authority, path) := cut "/" after in
          let path := match path with
                      | Some p => String "/" p
                      | None => EmptyString
                      end in
          ok (mkURL scheme EmptyString (hostOf authority) path query frag)
        else ok (mkURL scheme EmptyString EmptyString rest query frag)
    end.

(** The directory of a path: up to and including its last slash. *)
Fixpoint dirOf (p : string) : string :=
  match p with
  | EmptyString => EmptyString
  | String c p' =>
      if strings.Contains p "/" then String c (dirOf p') else EmptyString
  end.

(** [ResolveReference], the dot segments of the merged path left in
    place. *)
Definition ResolveReference (u ref : URL) : URL :=
  let scheme := if String.eqb (Scheme ref) EmptyString then Scheme u else Scheme ref in
  if negb (String.eqb (Scheme ref) EmptyString)
     || negb (String.eqb (Host ref) EmptyString) then
    mkURL scheme (Opaque ref) (Host ref) (Path ref) (RawQuery ref) (Fragment ref)
  else if negb (String.eqb (Opaque ref) EmptyString) then
    mkURL scheme (Opaque ref) EmptyString EmptyString (RawQuery ref) (Fragment ref)
  else
    let inherit := String.eqb (Path ref) EmptyString
                   && String.eqb (RawQuery ref) EmptyString in
    let query := if inherit then RawQuery u else RawQuery ref in
    let frag := if inherit && String.eqb (Fragment ref) EmptyString
                then Fragment u else Fragment ref in
    if String.eqb (Path ref) EmptyString && negb (String.eqb (Opaque u) EmptyString) then
      mkURL scheme (Opaque u) EmptyString EmptyString query frag
    else
      let full :=
        if String.eqb (Path ref) EmptyString then Path u
        else if String.prefix "/" (Path ref) then Path ref
        else dirOf (Path u) +:+ Path ref in
      let full := if String.eqb full EmptyString || String.prefix "/" full
                  then full else String "/" full in
      mkURL scheme EmptyString (Host u) full query frag.

Definition URLString (u : URL) : string :=
  (if String.eqb (Scheme u) EmptyString then EmptyString else Scheme u +:+ ":")
  +:+ (if String.eqb (Opaque u) EmptyString then
         (if String.eqb (Host u) EmptyString then EmptyString else "//" +:+ Host u)
         +:+ Path u
       else Opaque u)
  +:+ (if String.eqb (RawQuery u) EmptyString then EmptyString else "?" +:+ RawQuery u)
  +:+ (if String.eqb (Fragment u) EmptyString then EmptyString else "#" +:+ Fragment u).

Definition element (tag : string) (attrs : list html.Attribute)
    (children : list html.Node) : html.Node :=
  html.mkNode html.ElementNode tag attrs children.
Definition text (s : string) : html.Node :=
  html.mkNode html.TextNode s [] [].
Definition attr (k v : string) : html.Attribute :=
  html.mkAttribute EmptyString k v.

(** The document of the page at https://example.com. *)
Definition page : html.Node :=
  html.mkNode html.DocumentNode EmptyString []
    [element "html" []
       [element "head" [] [element "title" [] [text " Test Page "]];
        element "body" []
          [element "h1" [] [text "Title 1"];
           element "h1" [] [text "Title 2"];
           element "h2" [] [text "Subtitle 1"];
           element "a" [attr "href" "/internal"] [text "Internal Link"];
           element "a" [attr "href" "https://external.com"] [text "External Link"];
           element "a" [attr "href" "https://gone.example.org/x"] [text "Gone"];
           element "a" [attr "href" "https://unreachable.example.org"] [];
           element "a" [attr "href" ":bad"] [text "Malformed"];
           element "a" [] [text "No href"];
           element "form" []
             [element "input" [attr "type" "password"; attr "name" "password"] []]]]].

(** The anchor of the sample page whose href is malformed. *)
Definition malformedAnchor : html.Node :=
  element "a" [attr "href" ":bad"] [text "Malformed"].

(** The base URL of the sample page, parsed. *)
Definition sampleBase : URL :=
  mkURL "https" EmptyString "example.com" EmptyString EmptyString EmptyString.

Definition Get (history : list http.Request) (url : string) : Result http.Response :=
  if String.eqb url "https://example.com" then
    ok (http.mkResponse 200 "200 OK" "page")
  else if String.eqb url "https://example.com/missing" then
    ok (http.mkResponse 404 "404 Not Found" EmptyString)
  else if String.eqb url "https://example.com/truncated" then
    ok (http.mkResponse 200 "200 OK" "truncated")
  else err "dial tcp: no such host".

Definition Head (history : list http.Request) (url : string) : Result Z :=
  if String.eqb url "https://external.com" then ok 200
  else if String.eqb url "https://gone.example.org/x" then ok 404
  else err "dial tcp: no such host".

Definition ParseHTML (body : string) : Result html.Node :=
  if String.eqb body "page" then ok page
  else if String.eqb body "truncated" then err "unexpected EOF"
  else ok (html.mkNode html.DocumentNode EmptyString [] []).

Definition env : Env := {|
  strings_TrimSpace := TrimSpace;
  strings_ToLower := ToLower;
  url_URL := URL;
  url_Parse := Parse;
  url_Host := Host;
  url_ResolveReference := ResolveReference;
  url_String := URLString;
  http_Get := Get;
  http_Head := Head;
  html_Parse := ParseHTML
|}.

Definition emptyDB : DB.t := DB.mk gorm.SQLite [] [] [].

(** A database holding the URL https://example.com under key 1, and the
    world at time 1000 with no request made yet. *)
Definition exampleURL : models.URL.t :=
  models.URL.mk 1 "https://example.com" EmptyString EmptyString "pending"
                false 900 900 gorm.DeletedAt_zero.
Definition exampleCrawl : models.Crawl.t :=
  models.Crawl.mk 1 1 "running" (Some 1000) None EmptyString 0 0 0
                  EmptyString 1000 1000.
Definition world0 : World.t :=
  World.mk 1000 [] (DB.mk gorm.SQLite [exampleURL] [exampleCrawl] []).

(** A second URL, whose page answers 404, and a crawl of it. *)
Definition missingURL : models.URL.t :=
  models.URL.mk 2 "https://example.com/missing" "Old title" "HTML5" "running"
                false 900 900 gorm.DeletedAt_zero.
Definition missingCrawl : models.Crawl.t :=
  models.Crawl.mk 2 2 "running" (Some 1000) None EmptyString 0 0 0
                  EmptyString 1000 1000.



(** A web on which only the first GET is answered. *)
Definition GetOnce (history : list http.Request) (url : string)
  : Result http.Response :=
  if existsb http.isGET history then err "connection reset by peer"
  else Get history url.

Definition flaky : Env := {|
  strings_TrimSpace := TrimSpace;
  strings_ToLower := ToLower;
  url_URL := URL;
  url_Parse := Parse;
  url_Host := Host;
  url_ResolveReference := ResolveReference;
  url_String := URLString;
  http_Get := GetOnce;
  http_Head := Head;
  html_Parse := ParseHTML
|}.

(** The world at time 1000 with an empty database. *)
Definition emptyWorld : World.t := World.mk 1000 [] emptyDB.

End sample.

(** ** Vocabulary of the statements *)

Module spec.

Import models services.

(** A link the reachability loop probes: any whose type is not internal
    (processLink only ever writes internal or external). *)
Definition isExternal (l : Link.t) : Prop := Link.LinkType l ≠ "internal".
Definition isInternal (l : Link.t) : Prop := Link.LinkType l = "internal".
Definition isBroken (l : Link.t) : Prop := Link.IsAccessible l = false.

#[global] Instance isExternal_dec l : Decision (isExternal l).
Proof. unfold isExternal. apply _. Defined.
#[global] Instance isInternal_dec l : Decision (isInternal l).
Proof. unfold isInternal. apply _. Defined.
#[global] Instance isBroken_dec l : Decision (isBroken l).
Proof. unfold isBroken. apply _. Defined.

(** The nodes of a document in document order (a node, then the subtrees
    of its children from first to last). *)
Fixpoint preorder (n : html.Node) : list html.Node :=
  n :: flat_map preorder (html.Children n).

(** The positions of a document, in the same order: a position is the
    list of child indexes leading from the root to a node. *)
Fixpoint positions (n : html.Node) : list (list nat) :=
  [] :: (fix siblings (cs : list html.Node) (i : nat) : list (list nat) :=
           match cs with
           | [] => []
           | c :: cs' => (cons i <$> positions c) ++ siblings cs' (S i)
           end) (html.Children n) 0%nat.

Fixpoint nodeAt (n : html.Node) (p : list nat) : option html.Node :=
  match p with
  | [] => Some n
  | i :: p' =>
      match html.Children n !! i with
      | Some c => nodeAt c p'
      | None => None
      end
  end.

(** The positions below a run of siblings, the first of index [i]. *)
Fixpoint siblingPositions (cs : list html.Node) (i : nat) : list (list nat) :=
  match cs with
  | [] => []
  | c :: cs' => (cons i <$> positions c) ++ siblingPositions cs' (S i)
  end.

(** The six heading counters, by tag. *)
Definition headingCounters : list (string * (HeadingCounts.t -> Z)) :=
  [("h1", HeadingCounts.H1); ("h2", HeadingCounts.H2);
   ("h3", HeadingCounts.H3); ("h4", HeadingCounts.H4);
   ("h5", HeadingCounts.H5); ("h6", HeadingCounts.H6)].

(** A link as processLink creates it: not yet stored, accessible, and of
    one of the two types. *)
Definition freshLink (l : Link.t) : Prop :=
  Link.ID l = 0%N
  /\ Link.IsAccessible l = true
  /\ (Link.LinkType l = "internal" \/ Link.LinkType l = "external").

(** The counters of a [CrawlData] agree with its links, none probed yet. *)
Definition traversed (d : CrawlData.t) : Prop :=
  CrawlData.InternalLinks d =
    goint.wrap (Z.of_nat (length (filter isInternal (CrawlData.Links d))))
  /\ CrawlData.ExternalLinks d =
       goint.wrap (Z.of_nat (length (filter isExternal (CrawlData.Links d))))
  /\ CrawlData.BrokenLinks d = 0
  /\ Forall freshLink (CrawlData.Links d).

(** A link before and after its turn of the reachability loop: only the
    status code and the accessibility flag may differ, and an internal link
    gets 200 and keeps its flag. *)
Definition probedFrom (l l' : Link.t) : Prop :=
  Link.ID l' = Link.ID l
  /\ Link.URLID l' = Link.URLID l
  /\ Link.CrawlID l' = Link.CrawlID l
  /\ Link.LinkURL l' = Link.LinkURL l
  /\ Link.LinkText l' = Link.LinkText l
  /\ Link.LinkType l' = Link.LinkType l
  /\ Link.CreatedAt l' = Link.CreatedAt l
  /\ (isInternal l ->
      Link.StatusCode l' = 200
      /\ Link.IsAccessible l' = Link.IsAccessible l).

(** A stored link row and the extracted link it was created from. *)
Definition storedFrom (urlID crawlID : N) (l r : Link.t) : Prop :=
  Link.URLID r = urlID
  /\ Link.CrawlID r = crawlID
  /\ Link.LinkURL r = Link.LinkURL l
  /\ Link.LinkText r = Link.LinkText l
  /\ Link.LinkType r = Link.LinkType l
  /\ Link.StatusCode r = Link.StatusCode l
  /\ Link.ID r ≠ 0%N.

(** Two worlds that differ at most in the named table. *)
Definition sameButLinks (w w' : World.t) : Prop :=
  World.clock w' = World.clock w
  /\ World.requests w' = World.requests w
  /\ DB.driver (World.db w') = DB.driver (World.db w)
  /\ DB.urls (World.db w') = DB.urls (World.db w)
  /\ DB.crawls (World.db w') = DB.crawls (World.db w).

Definition isElement (tag : string) (n : html.Node) : Prop :=
  html.Type_ n = html.ElementNode /\ html.Data n = tag.

#[global] Instance isElement_dec tag n : Decision (isElement tag n).
Proof. unfold isElement. apply _. Defined.

(** How many elements of a document carry the tag. *)
Definition countElements (tag : string) (doc : html.Node) : nat :=
  length (filter (isElement tag) (preorder doc)).

Section Fetch.
Context {env : Env}.

(** What processLink appends for an href that parses. *)
Definition linkFor (n : html.Node) (baseURL linkURL : url_URL) : Link.t :=
  let resolvedURL := url_ResolveReference baseURL linkURL in
  Link.mk 0 0 0 (url_String resolvedURL)
    (match html.FirstChild n with
     | Some c =>
         if decide (html.Type_ c = html.TextNode)
         then strings_TrimSpace (html.Data c) else EmptyString
     | None => EmptyString
     end)
    (if String.eqb (url_Host resolvedURL) (url_Host baseURL)
     then "internal" else "external")
    0 true 0.

(** The world once performCrawl has issued its GET. *)
Definition afterGet (u : URL.t) (w : World.t) : World.t :=
  World.set_requests (World.requests w ++ [http.GET (URL.URL u)]) w.

(** The GET fails, or answers with a status of 400 or more, or the body
    does not parse. *)
Definition fetchFails (u : URL.t) (w : World.t) : Prop :=
  (exists e, http_Get (World.requests w) (URL.URL u) = err e)
  \/ (exists resp, http_Get (World.requests w) (URL.URL u) = ok resp
                   /\ 400 <= http.StatusCode resp)
  \/ (exists resp e, http_Get (World.requests w) (URL.URL u) = ok resp
                     /\ html_Parse (http.Body resp) = err e).

(** The GET answers below 400 with a body that parses to [doc]. *)
Definition fetchYields (u : URL.t) (w : World.t) (doc : html.Node) : Prop :=
  exists resp, http_Get (World.requests w) (URL.URL u) = ok resp
               /\ http.StatusCode resp < 400
               /\ html_Parse (http.Body resp) = ok doc.

End Fetch.

Section Extraction.
Context {env : Env}.

(** The text a title element offers as the page title: the data of its
    first child, trimmed; nothing for any other node. *)
Definition titleText (n : html.Node) : option string :=
  if decide (isElement "title" n)
  then (fun c => strings_TrimSpace (html.Data c)) <$> html.FirstChild n
  else None.

(** The first non-empty string of a list, the empty string if none. *)
Definition firstNonEmpty (l : list string) : string :=
  default EmptyString (head (filter (fun s => s ≠ EmptyString) l)).

(** A form whose rendering, lowered, contains a login indicator. *)
Definition looksLikeLogin (n : html.Node) : bool :=
  existsb (fun indicator =>
             strings.Contains (strings_ToLower (nodeToString n)) indicator)
          loginIndicators.

(** The link an anchor yields: none unless its href is non-empty and
    parses. *)
Definition anchorLink (baseURL : url_URL) (n : html.Node) : option Link.t :=
  if decide (isElement "a" n /\ href_of (html.Attr n) ≠ EmptyString) then
    match url_Parse (href_of (html.Attr n)) with
    | ok linkURL => Some (linkFor n baseURL linkURL)
    | err _ => None
    end
  else None.

(** What the reachability loop makes of a link, given the requests
    made before its turn. *)
Definition probed (history : list http.Request) (l : Link.t) : Link.t :=
  if decide (isInternal l) then Link.set_StatusCode 200 l
  else
    match http_Head history (Link.LinkURL l) with
    | err _ => Link.set_IsAccessible false (Link.set_StatusCode 0 l)
    | ok code =>
        if 400 <=? code
        then Link.set_IsAccessible false (Link.set_StatusCode code l)
        else Link.set_StatusCode code l
    end.

End Extraction.

(** Every row of a links table is flagged accessible. *)
Definition allAccessible (t : list Link.t) : Prop :=
  Forall (fun l => Link.IsAccessible l = true) t.

(** No row of the key is visible: there is none, or it is soft-deleted. *)
Definition noVisibleURL (id : N) (t : list URL.t) : Prop :=
  Forall (fun r => URL.ID r = id -> gorm.Valid (URL.DeletedAt r) = true) t.

(** A urls table as the database keeps it: keys non-zero and distinct,
    URL strings distinct. *)
Definition wellFormedURLs (t : list URL.t) : Prop :=
  Forall (fun r => URL.ID r ≠ 0%N) t
  /\ NoDup (URL.ID <$> t)
  /\ NoDup (URL.URL <$> t).

(** What CreateURL makes of the row it finds under the submitted string:
    the deletion stamp cleared, the status pending, the update time
    stamped. *)
Definition resubmitted (now : Z) (existing : URL.t) : URL.t :=
  URL.set_UpdatedAt now
    (URL.set_Status "pending"
       (if gorm.Valid (URL.DeletedAt existing)
        then URL.set_DeletedAt gorm.DeletedAt_zero existing
        else existing)).

(** An execution: the submissions and the steps of the goroutines they
    started, in the order in which they take effect.  [Step i] is a step
    of the goroutine started i-th. *)
Inductive Event :=
  | Submit (url : string)
  | Step (i : nat).

Section Executions.
Context {env : Env}.

Fixpoint run (events : list Event) (pool : list Crawling) (w : World.t)
  : list Crawling * World.t :=
  match events with
  | [] => (pool, w)
  | Submit url :: events =>
      let '(_, w, started) := CreateURL url w in
      run events (pool ++ (launch <$> started)) w
  | Step i :: events =>
      match pool !! i with
      | Some g =>
          let '(g, w) := step g w in
          run events (<[i := g]> pool) w
      | None => run events pool w
      end
  end.

End Executions.

(** The crawl row created last. *)
Definition newestCrawl (w : World.t) : option Crawl.t :=
  last (DB.crawls (World.db w)).

(** Deleting the row [id] of a table is soft when the row is still
    stored afterwards. *)
Definition softDeletes (A : Type) `{gorm.Model A} : Prop :=
  forall now id (t : list A) r,
    gorm.row id t = Some r -> is_Some (gorm.row id (gorm.Delete now id t)).

End spec.

(** * Properties *)

(** ** Machine integers *)

Section GoInt.

Import goint.

Lemma wrap_small (z : Z) : MinInt <= z <= MaxInt -> wrap z = z.
Proof.
  unfold wrap, MinInt, MaxInt. intros Hz.
  rewrite Z.mod_small by lia. lia.
Qed.

Lemma wrap_add_l (x y : Z) : wrap (wrap x + y) = wrap (x + y).
Proof.
  unfold wrap. f_equal.
  replace ((x + 2 ^ 63) mod 2 ^ 64 - 2 ^ 63 + y + 2 ^ 63)
    with ((x + 2 ^ 63) mod 2 ^ 64 + y) by lia.
  rewrite Zplus_mod_idemp_l. f_equal. lia.
Qed.

Lemma wrap_idemp (x : Z) : wrap (wrap x) = wrap x.
Proof.
  pose proof (wrap_add_l x 0) as H.
  by rewrite !Z.add_0_r in H.
Qed.

Lemma incr_wrap (x : Z) : incr (wrap x) = wrap (x + 1).
Proof. unfold incr. apply wrap_add_l. Qed.

Lemma wrap_0 : wrap 0 = 0.
Proof. reflexivity. Qed.

(** [k] increments of a counter that holds [wrap x]. *)
Lemma iter_incr_wrap (k : nat) (x : Z) :
  Nat.iter k incr (wrap x) = wrap (x + Z.of_nat k).
Proof.
  induction k as [|k IH].
  - simpl. f_equal. lia.
  - rewrite Nat.iter_succ, IH, incr_wrap. f_equal. lia.
Qed.

End GoInt.

(** ** The listing endpoint *)

Section GetURLsParameters.

Import handlers.

Lemma validSortColumns_true (k : string) :
  default false (validSortColumns !! k) = true <-> k ∈ sortColumnNames.
Proof.
  unfold sortColumnNames. split.
  - destruct (validSortColumns !! k) as [b|] eqn:Hk; simpl; [|discriminate].
    intros ->.
    apply elem_of_list_to_map_2 in Hk.
    rewrite !elem_of_cons, elem_of_nil in Hk.
    rewrite !elem_of_cons, elem_of_nil.
    destruct Hk as [Hk|[Hk|[Hk|[Hk|[Hk|[Hk|[]]]]]]];
      injection Hk as ->; auto 10.
  - rewrite !elem_of_cons, elem_of_nil.
    intros [->|[->|[->|[->|[->|[->|[]]]]]]]; reflexivity.
Qed.

Lemma sortBy_cases (c : gin.Context) :
  let requested := gin.DefaultQuery c "sortBy" "updated_at" in
  sortBy (GetURLs c) =
    if decide (requested ∈ sortColumnNames) then requested else "updated_at".
Proof.
  unfold GetURLs; simpl.
  destruct (default false (validSortColumns !! _)) eqn:Hv; simpl;
    case_decide as Hin; try reflexivity.
  - apply validSortColumns_true in Hv. contradiction.
  - apply validSortColumns_true in Hin. congruence.
Qed.

Lemma sortOrder_cases (c : gin.Context) :
  let requested := gin.DefaultQuery c "sortOrder" "desc" in
  sortOrder (GetURLs c) =
    if decide (requested = "asc" \/ requested = "desc") then requested else "desc".
Proof.
  unfold GetURLs; simpl.
  destruct (String.eqb _ "asc") eqn:Ha; simpl.
  - apply String.eqb_eq in Ha. case_decide as Hr; [done|]. tauto.
  - destruct (String.eqb _ "desc") eqn:Hd; simpl.
    + apply String.eqb_eq in Hd. case_decide as Hr; [done|]. tauto.
    + apply String.eqb_neq in Ha, Hd. case_decide as Hr; [tauto|done].
Qed.

Lemma limit_cases (c : gin.Context) :
  limit (GetURLs c) =
    match strconv.Atoi (gin.DefaultQuery c "limit" "20") with
    | Some n => if decide (1 <= n <= 100) then n else 20
    | None => 20
    end.
Proof.
  unfold GetURLs; simpl.
  destruct (strconv.Atoi _) as [n|]; [|done].
  case_decide; destruct (n <=? 0) eqn:H1, (100 <? n) eqn:H2; simpl; lia.
Qed.

Lemma offset_cases (c : gin.Context) :
  offset (GetURLs c) =
    match strconv.Atoi (gin.DefaultQuery c "offset" "0") with
    | Some n => if decide (0 <= n) then n else 0
    | None => 0
    end.
Proof.
  unfold GetURLs; simpl.
  destruct (strconv.Atoi _) as [n|]; [|done].
  case_decide; destruct (n <? 0) eqn:H1; simpl; lia.
Qed.

Lemma Atoi_default_limit : strconv.Atoi "20" = Some 20.
Proof. reflexivity. Qed.

Lemma Atoi_default_offset : strconv.Atoi "0" = Some 0.
Proof. reflexivity. Qed.

(** C10.  Whatever the query string of a request to the listing endpoint,
    the arguments handed to the service are sanitised: the limit lies in
    1..100 and is 20 unless the parameter is a number of that range; the
    offset is non-negative and is 0 unless the parameter is a non-negative
    number; the sort column is one of the six whitelisted names and is
    updated_at unless the parameter is one of them; the sort order is asc
    or desc and is desc unless the parameter is one of the two. *)
Theorem GetURLs_parameters_sanitised (c : gin.Context) :
  let a := GetURLs c in
  (1 <= limit a <= 100
   /\ limit a =
        match gin.GetQuery c "limit" with
        | None => 20
        | Some s =>
            match strconv.Atoi s with
            | Some n => if decide (1 <= n <= 100) then n else 20
            | None => 20
            end
        end)
  /\ (0 <= offset a
      /\ offset a =
           match gin.GetQuery c "offset" with
           | None => 0
           | Some s =>
               match strconv.Atoi s with
               | Some n => if decide (0 <= n) then n else 0
               | None => 0
               end
           end)
  /\ (sortBy a ∈ sortColumnNames
      /\ sortBy a =
           match gin.GetQuery c "sortBy" with
           | None => "updated_at"
           | Some s => if decide (s ∈ sortColumnNames) then s else "updated_at"
           end)
  /\ ((sortOrder a = "asc" \/ sortOrder a = "desc")
      /\ sortOrder a =
           match gin.GetQuery c "sortOrder" with
           | None => "desc"
           | Some s => if decide (s = "asc" \/ s = "desc") then s else "desc"
           end).
Proof.
  intros a. subst a.
  rewrite (limit_cases c), (offset_cases c).
  rewrite (sortBy_cases c), (sortOrder_cases c).
  unfold gin.DefaultQuery.
  split; [|split; [|split]].
  - destruct (gin.GetQuery c "limit") as [s|].
    + destruct (strconv.Atoi s) as [n|]; [case_decide|]; split; (lia || done).
    + rewrite Atoi_default_limit. case_decide; split; (lia || done).
  - destruct (gin.GetQuery c "offset") as [s|].
    + destruct (strconv.Atoi s) as [n|]; [case_decide|]; split; (lia || done).
    + rewrite Atoi_default_offset. case_decide; split; (lia || done).
  - destruct (gin.GetQuery c "sortBy") as [s|]; case_decide as Hin;
      split; try done; by apply validSortColumns_true.
  - destruct (gin.GetQuery c "sortOrder") as [s|]; case_decide as Hin;
      split; try done; by right.
Qed.

End GetURLsParameters.

(** ** Link classification *)

Section LinkClassification.

Import models services spec.
Context {env : Env}.

Lemma visit_anchor (n : html.Node) (data : CrawlData.t) (baseURL : url_URL) :
  isElement "a" n -> visit n data baseURL = processLink n data baseURL.
Proof.
  intros [Hty Htag]. unfold visit. rewrite Htag.
  by rewrite decide_True.
Qed.

Lemma processLink_links (n : html.Node) (data : CrawlData.t) (baseURL : url_URL) :
  CrawlData.Links (processLink n data baseURL) =
    if String.eqb (href_of (html.Attr n)) EmptyString then CrawlData.Links data
    else match url_Parse (href_of (html.Attr n)) with
         | ok linkURL => CrawlData.Links data ++ [linkFor n baseURL linkURL]
         | err _ => CrawlData.Links data
         end.
Proof.
  unfold processLink, linkFor.
  destruct (String.eqb (href_of _) _); [done|].
  destruct (url_Parse _) as [linkURL|e]; [|done].
  by destruct (String.eqb (url_Host _) _).
Qed.

(** C1, amended.  For an anchor element whose href is non-empty and is
    accepted by url.Parse, the traversal records exactly one link, for the
    href resolved against the base URL; the link is internal if and only
    if the host of the resolved URL equals the host of the base URL, and
    external otherwise. *)
Theorem anchor_classified_by_host
    (n : html.Node) (data : CrawlData.t) (baseURL linkURL : url_URL) :
  isElement "a" n ->
  href_of (html.Attr n) ≠ EmptyString ->
  url_Parse (href_of (html.Attr n)) = ok linkURL ->
  let resolved := url_ResolveReference baseURL linkURL in
  exists link,
    CrawlData.Links (visit n data baseURL) = CrawlData.Links data ++ [link]
    /\ Link.LinkURL link = url_String resolved
    /\ (Link.LinkType link = "internal" <-> url_Host resolved = url_Host baseURL)
    /\ (Link.LinkType link = "external" <-> url_Host resolved ≠ url_Host baseURL).
Proof.
  intros Ha Hne Hparse resolved.
  exists (linkFor n baseURL linkURL).
  rewrite (visit_anchor _ _ _ Ha), processLink_links, Hparse.
  apply String.eqb_neq in Hne. rewrite Hne.
  split; [done|]. split; [done|].
  unfold linkFor; simpl. fold resolved.
  destruct (String.eqb (url_Host resolved) (url_Host baseURL)) eqn:Hh.
  - apply String.eqb_eq in Hh. split; split; intros; congruence.
  - apply String.eqb_neq in Hh. split; split; intros; congruence.
Qed.

End LinkClassification.

(** C1 as stated fails: the href :bad is non-empty and url.Parse rejects it
    (missing protocol scheme); processLink returns before it classifies, and
    the anchor yields no link at all, internal or external. *)
Lemma anchor_with_malformed_href_not_classified :
  spec.isElement "a" sample.malformedAnchor
  /\ services.href_of (html.Attr sample.malformedAnchor) ≠ EmptyString
  /\ forall (baseURL : sample.URL) (data : services.CrawlData.t),
       ~ exists link,
           services.CrawlData.Links
             (services.visit (env := sample.env) sample.malformedAnchor data baseURL)
           = services.CrawlData.Links data ++ [link].
Proof.
  split; [done|]. split; [done|].
  intros baseURL data [link Hlink].
  change (services.visit (env := sample.env) sample.malformedAnchor data baseURL)
    with data in Hlink.
  apply (f_equal length) in Hlink.
  rewrite length_app in Hlink. simpl in Hlink. lia.
Qed.

(** C1, witness: the theorem at the first anchor of the sample page, whose
    href /internal resolves to the host of the page. *)
Lemma anchor_classified_by_host_witness :
  exists link,
    services.CrawlData.Links
      (services.visit (env := sample.env)
         (sample.element "a" [sample.attr "href" "/internal"]
                         [sample.text "Internal Link"])
         services.newCrawlData sample.sampleBase)
    = services.CrawlData.Links services.newCrawlData ++ [link]
    /\ models.Link.LinkURL link = "https://example.com/internal"
    /\ (models.Link.LinkType link = "internal" <-> "example.com" = "example.com")
    /\ (models.Link.LinkType link = "external" <-> "example.com" ≠ "example.com").
Proof.
  apply (anchor_classified_by_host (env := sample.env)
           (sample.element "a" [sample.attr "href" "/internal"]
                           [sample.text "Internal Link"])
           services.newCrawlData sample.sampleBase
           (sample.mkURL EmptyString EmptyString EmptyString "/internal"
                         EmptyString EmptyString)).
  - split; reflexivity.
  - discriminate.
  - reflexivity.
Defined.

(** ** The document tree *)

Section Tree.

Import spec.

(** Induction on a document: a property of a node follows from the
    property of its children. *)
Lemma Node_children_ind (P : html.Node -> Prop) :
  (forall n, Forall P (html.Children n) -> P n) -> forall n, P n.
Proof.
  intros step. fix IH 1. intros [ty tag attrs cs].
  apply step. simpl.
  induction cs as [|c cs IHcs]; constructor; [apply IH | apply IHcs].
Qed.

Lemma positions_unfold (n : html.Node) :
  positions n = [] :: siblingPositions (html.Children n) 0.
Proof.
  by destruct n.
Qed.

Lemma preorder_unfold (n : html.Node) :
  preorder n = n :: flat_map preorder (html.Children n).
Proof. by destruct n. Qed.

Lemma elem_of_siblingPositions (cs : list html.Node) (i : nat) (p : list nat) :
  p ∈ siblingPositions cs i <->
  exists j c p', p = (i + j)%nat :: p' /\ cs !! j = Some c /\ p' ∈ positions c.
Proof.
  revert i. induction cs as [|c cs IH]; intros i; simpl.
  - rewrite elem_of_nil. split; [done|]. by intros (j & c & p' & _ & Hc & _).
  - rewrite elem_of_app, list_elem_of_fmap, IH. split.
    + intros [(p' & -> & Hp')|(j & c' & p' & -> & Hc' & Hp')].
      * exists 0%nat, c, p'. by rewrite Nat.add_0_r.
      * exists (S j), c', p'. split; [f_equal; lia|done].
    + intros (j & c' & p' & -> & Hc' & Hp'). destruct j as [|j]; simpl in Hc'.
      * left. injection Hc' as ->. exists p'. by rewrite Nat.add_0_r.
      * right. exists j, c', p'. split; [f_equal; lia|done].
Qed.

Lemma elem_of_positions (n : html.Node) (p : list nat) :
  p ∈ positions n <-> is_Some (nodeAt n p).
Proof.
  revert p. induction n as [n IH] using Node_children_ind. intros p.
  rewrite positions_unfold, elem_of_cons, elem_of_siblingPositions.
  rewrite Forall_lookup in IH.
  destruct p as [|i p]; simpl.
  - split; [by eexists|by left].
  - split.
    + intros [?|(j & c & p' & [= -> ->] & Hc & Hp')]; [done|].
      simpl in Hc. rewrite Hc. by apply (IH _ _ Hc).
    + destruct (html.Children n !! i) as [c|] eqn:Hc; [|by intros [? ?]].
      intros Hp. right. exists i, c, p. split; [done|]. split; [done|].
      by apply (IH _ _ Hc).
Qed.

Lemma NoDup_siblingPositions (cs : list html.Node) (i : nat) :
  Forall (fun c => NoDup (positions c)) cs -> NoDup (siblingPositions cs i).
Proof.
  revert i. induction cs as [|c cs IH]; intros i Hcs; simpl; [constructor|].
  inversion_clear Hcs as [|? ? Hc Hcs'].
  apply NoDup_app. split; [|split].
  - apply NoDup_fmap_2; [|done]. by intros ? ? [= ->].
  - intros p (p' & -> & _)%list_elem_of_fmap
      (j & c' & p'' & Hp & _)%elem_of_siblingPositions.
    injection Hp as Hi _. lia.
  - by apply IH.
Qed.

Lemma NoDup_positions (n : html.Node) : NoDup (positions n).
Proof.
  induction n as [n IH] using Node_children_ind.
  rewrite positions_unfold. constructor.
  - intros (j & c & p' & Hp & _)%elem_of_siblingPositions. discriminate.
  - by apply NoDup_siblingPositions.
Qed.

(** The node listed at each place of [preorder] is the node at the
    position listed at the same place of [positions]. *)
Lemma preorder_positions (n : html.Node) :
  Forall2 (fun p m => nodeAt n p = Some m) (positions n) (preorder n).
Proof.
  induction n as [n IH] using Node_children_ind.
  rewrite positions_unfold, preorder_unfold. constructor; [done|].
  assert (forall cs i,
    Forall (fun c => Forall2 (fun p m => nodeAt c p = Some m)
                             (positions c) (preorder c)) cs ->
    Forall2 (fun p m => exists j c p', p = (i + j)%nat :: p'
               /\ cs !! j = Some c /\ nodeAt c p' = Some m)
            (siblingPositions cs i) (flat_map preorder cs)) as Hsib.
  { clear. induction cs as [|c cs IHcs]; intros i Hcs; simpl; [constructor|].
    inversion_clear Hcs as [|? ? Hc Hcs'].
    apply Forall2_app.
    - apply Forall2_fmap_l. eapply Forall2_impl; [exact Hc|].
      intros p m Hpm. exists 0%nat, c, p. by rewrite Nat.add_0_r.
    - eapply Forall2_impl; [apply (IHcs (S i) Hcs')|].
      intros p m (j & c' & p' & -> & Hc' & Hm).
      exists (S j), c', p'. split; [f_equal; lia|done]. }
  eapply Forall2_impl; [apply (Hsib _ 0%nat IH)|].
  intros p m (j & c & p' & -> & Hc & Hm). simpl. by rewrite Hc.
Qed.

End Tree.

(** ** The traversal *)

Section Traversal.

Import models services spec.
Context {env : Env}.

Lemma traverseHTML_unfold (n : html.Node) (data : CrawlData.t) (baseURL : url_URL) :
  traverseHTML n data baseURL =
    fold_left (fun data c => traverseHTML c data baseURL) (html.Children n)
              (visit n data baseURL).
Proof. by destruct n. Qed.

(** The traversal applies [visit] to the nodes in document order, once
    for each place of [preorder]. *)
Lemma traverseHTML_preorder (n : html.Node) (data : CrawlData.t) (baseURL : url_URL) :
  traverseHTML n data baseURL =
    fold_left (fun data m => visit m data baseURL) (preorder n) data.
Proof.
  revert data. induction n as [n IH] using Node_children_ind. intros data.
  rewrite traverseHTML_unfold, preorder_unfold. simpl.
  generalize (visit n data baseURL). clear data.
  induction IH as [|c cs Hc _ IHcs]; intros data; simpl; [done|].
  by rewrite fold_left_app, <- Hc, IHcs.
Qed.

Lemma processLink_HeadingCounts n data baseURL :
  CrawlData.HeadingCounts (processLink n data baseURL) = CrawlData.HeadingCounts data.
Proof.
  unfold processLink.
  destruct (String.eqb (href_of _) _); [done|].
  destruct (url_Parse _); [|done].
  by destruct (String.eqb (url_Host _) _).
Qed.

Lemma checkLoginForm_HeadingCounts n data :
  CrawlData.HeadingCounts (checkLoginForm n data) = CrawlData.HeadingCounts data.
Proof. unfold checkLoginForm. by destruct (existsb _ _). Qed.

(** [visit] increments the counter of a heading tag at the elements of
    that tag, and at no other node. *)
Lemma visit_heading (tag : string) (get : HeadingCounts.t -> Z)
    (n : html.Node) (data : CrawlData.t) (baseURL : url_URL) :
  (tag, get) ∈ headingCounters ->
  get (CrawlData.HeadingCounts (visit n data baseURL)) =
    if decide (isElement tag n)
    then goint.incr (get (CrawlData.HeadingCounts data))
    else get (CrawlData.HeadingCounts data).
Proof.
  intros Hin. unfold headingCounters in Hin.
  rewrite !elem_of_cons, elem_of_nil in Hin.
  destruct n as [ty t attrs cs]. unfold visit, isElement. simpl.
  destruct (decide (ty = html.ElementNode)) as [->|Hty].
  2:{ rewrite decide_False; [done|]. by intros [? _]. }
  destruct (String.eqb_spec t "title") as [->|_].
  { destruct Hin as [H|[H|[H|[H|[H|[H|[]]]]]]]; injection H as -> ->;
      rewrite decide_False by (by intros [_ ?]);
      (destruct (html.FirstChild _); [by destruct (String.eqb _ _)|done]). }
  destruct (String.eqb_spec t "h1") as [->|N1].
  { destruct Hin as [H|[H|[H|[H|[H|[H|[]]]]]]]; injection H as -> ->;
      first [by rewrite decide_True | by rewrite decide_False by (by intros [_ ?])]. }
  destruct (String.eqb_spec t "h2") as [->|N2].
  { destruct Hin as [H|[H|[H|[H|[H|[H|[]]]]]]]; injection H as -> ->;
      first [by rewrite decide_True | by rewrite decide_False by (by intros [_ ?])]. }
  destruct (String.eqb_spec t "h3") as [->|N3].
  { destruct Hin as [H|[H|[H|[H|[H|[H|[]]]]]]]; injection H as -> ->;
      first [by rewrite decide_True | by rewrite decide_False by (by intros [_ ?])]. }
  destruct (String.eqb_spec t "h4") as [->|N4].
  { destruct Hin as [H|[H|[H|[H|[H|[H|[]]]]]]]; injection H as -> ->;
      first [by rewrite decide_True | by rewrite decide_False by (by intros [_ ?])]. }
  destruct (String.eqb_spec t "h5") as [->|N5].
  { destruct Hin as [H|[H|[H|[H|[H|[H|[]]]]]]]; injection H as -> ->;
      first [by rewrite decide_True | by rewrite decide_False by (by intros [_ ?])]. }
  destruct (String.eqb_spec t "h6") as [->|N6].
  { destruct Hin as [H|[H|[H|[H|[H|[H|[]]]]]]]; injection H as -> ->;
      first [by rewrite decide_True | by rewrite decide_False by (by intros [_ ?])]. }
  rewrite decide_False.
  2:{ intros [_ ->]. destruct Hin as [H|[H|[H|[H|[H|[H|[]]]]]]];
        injection H as H _; congruence. }
  destruct (String.eqb t "a"); [apply f_equal, processLink_HeadingCounts|].
  destruct (String.eqb t "form"); [apply f_equal, checkLoginForm_HeadingCounts|].
  by destruct (String.eqb t "html").
Qed.

Lemma fold_visit_heading (tag : string) (get : HeadingCounts.t -> Z)
    (ns : list html.Node) (data : CrawlData.t) (baseURL : url_URL) :
  (tag, get) ∈ headingCounters ->
  get (CrawlData.HeadingCounts
         (fold_left (fun data m => visit m data baseURL) ns data)) =
    Nat.iter (length (filter (isElement tag) ns)) goint.incr
             (get (CrawlData.HeadingCounts data)).
Proof.
  intros Hin. revert data.
  induction ns as [|n ns IH]; intros data; simpl; [done|].
  rewrite IH, (visit_heading _ _ _ _ _ Hin), filter_cons.
  case_decide; [|done]. simpl length. by rewrite Nat.iter_succ_r.
Qed.

(** C7.  The recursive traversal is a total function of the (finite)
    document, hence terminates; it is one pass, applying [visit] in
    document order to the node at every position of the document, each
    position once; and each heading counter is incremented once for each
    element of its tag. *)
Theorem traverseHTML_single_pass
    (doc : html.Node) (data : CrawlData.t) (baseURL : url_URL) :
  traverseHTML doc data baseURL =
    fold_left (fun data n => visit n data baseURL) (preorder doc) data
  /\ (NoDup (positions doc)
      /\ (forall p, p ∈ positions doc <-> is_Some (nodeAt doc p))
      /\ Forall2 (fun p n => nodeAt doc p = Some n) (positions doc) (preorder doc))
  /\ Forall (fun counter =>
               snd counter (CrawlData.HeadingCounts (traverseHTML doc data baseURL))
               = Nat.iter (countElements (fst counter) doc) goint.incr
                          (snd counter (CrawlData.HeadingCounts data)))
            headingCounters.
Proof.
  split; [apply traverseHTML_preorder|]. split.
  - split; [apply NoDup_positions|].
    split; [apply elem_of_positions|apply preorder_positions].
  - apply Forall_forall. intros [tag get] Hin. simpl.
    rewrite traverseHTML_preorder. by apply fold_visit_heading.
Qed.

End Traversal.

(** ** Link bookkeeping *)

Section LinkCounts.

Import models services spec.
Context {env : Env}.

Lemma filter_partition_length {A} (P : A -> Prop) `{!forall x, Decision (P x)}
    (l : list A) :
  (length (filter P l) + length (filter (fun x => ~ P x) l))%nat = length l.
Proof.
  induction l as [|x l IH]; [done|].
  rewrite !filter_cons. destruct (decide (P x)).
  - rewrite decide_False by tauto. simpl. lia.
  - rewrite decide_True by done. simpl. lia.
Qed.

Lemma filter_length_le_impl {A} (P Q : A -> Prop)
    `{!forall x, Decision (P x)} `{!forall x, Decision (Q x)} (l : list A) :
  Forall (fun x => P x -> Q x) l ->
  (length (filter P l) <= length (filter Q l))%nat.
Proof.
  induction 1 as [|x l Hx _ IH]; [done|].
  rewrite !filter_cons. destruct (decide (P x)).
  - rewrite decide_True by auto. simpl. lia.
  - destruct (decide (Q x)); simpl; lia.
Qed.

Lemma internal_external_length (l : list Link.t) :
  (length (filter isInternal l) + length (filter isExternal l))%nat = length l.
Proof. apply (filter_partition_length isInternal). Qed.

Lemma newCrawlData_traversed : traversed newCrawlData.
Proof. split; [done|]. split; [done|]. split; [done|]. constructor. Qed.

Lemma processLink_traversed n data baseURL :
  traversed data -> traversed (processLink n data baseURL).
Proof.
  intros (Hi & He & Hb & Hl). unfold processLink.
  destruct (String.eqb (href_of _) _); [done|].
  destruct (url_Parse _) as [linkURL|]; [|done].
  destruct (String.eqb (url_Host _) _); simpl;
    unfold traversed; simpl; rewrite !filter_app, !filter_cons, !filter_nil.
  - rewrite decide_True by done. rewrite (decide_False (P := isExternal _)).
    2:{ unfold isExternal. simpl. tauto. }
    rewrite app_nil_r, length_app. simpl. rewrite Hi, incr_wrap.
    split; [f_equal; lia|]. split; [done|]. split; [done|].
    apply Forall_app. split; [done|].
    constructor; [|constructor]. unfold freshLink; simpl; auto.
  - rewrite decide_False by done. rewrite (decide_True (P := isExternal _)) by done.
    rewrite app_nil_r, length_app. simpl. rewrite He, incr_wrap.
    split; [done|]. split; [f_equal; lia|]. split; [done|].
    apply Forall_app. split; [done|].
    constructor; [|constructor]. unfold freshLink; simpl; auto.
Qed.

Lemma visit_traversed n data baseURL :
  traversed data -> traversed (visit n data baseURL).
Proof.
  intros H. unfold visit.
  destruct (decide _); [|done].
  destruct (String.eqb _ "title").
  { destruct (html.FirstChild n); [|done]. by destruct (String.eqb _ _). }
  repeat (match goal with
          | |- traversed (if String.eqb ?a ?b then _ else _) =>
              destruct (String.eqb a b); [try exact H|]
          end).
  - by apply processLink_traversed.
  - unfold checkLoginForm. by destruct (existsb _ _).
  - exact H.
Qed.

Lemma traverseHTML_traversed doc data baseURL :
  traversed data -> traversed (traverseHTML doc data baseURL).
Proof.
  rewrite traverseHTML_preorder. revert data.
  induction (preorder doc) as [|n ns IH]; intros data H; simpl; [done|].
  by apply IH, visit_traversed.
Qed.

(** One turn of the reachability loop. *)
Lemma checkLink_spec (link : Link.t) (broken : Z) (reqs : list http.Request) :
  Link.IsAccessible link = true ->
  let '(link', broken', reqs') := checkLink link broken reqs in
  probedFrom link link'
  /\ reqs' = reqs ++ (if decide (isExternal link)
                      then [http.HEAD (Link.LinkURL link)] else [])
  /\ broken' = (if decide (isBroken link') then goint.incr broken else broken)
  /\ (isBroken link' -> isExternal link).
Proof.
  intros Hacc. unfold checkLink, probedFrom, isBroken, isExternal, isInternal.
  destruct (String.eqb_spec (Link.LinkType link) "internal") as [Hi|He].
  - rewrite decide_False by tauto. rewrite app_nil_r. simpl.
    rewrite decide_False by congruence.
    repeat split; congruence.
  - rewrite decide_True by done.
    destruct (http_Head reqs _) as [code|e]; [destruct (400 <=? code)|]; simpl.
    all: try (rewrite decide_True by done).
    all: try (rewrite decide_False by congruence).
    all: intuition congruence.
Qed.

(** The reachability loop over a list of links that are all accessible
    when it starts: one HEAD for each external link, in order; an
    increment of the counter for each link it marks inaccessible, all of
    them external. *)
Lemma checkLinks_spec (links : list Link.t) (broken : Z) (reqs : list http.Request) :
  Forall (fun l => Link.IsAccessible l = true) links ->
  let '(links', broken', reqs') := checkLinks links broken reqs in
  Forall2 probedFrom links links'
  /\ reqs' = reqs ++ (http.HEAD ∘ Link.LinkURL <$> filter isExternal links)
  /\ broken' = Nat.iter (length (filter isBroken links')) goint.incr broken
  /\ Forall (fun l' => isBroken l' -> isExternal l') links'.
Proof.
  intros Hacc. revert broken reqs.
  induction Hacc as [|link rest Hlink _ IH]; intros broken reqs; simpl.
  { rewrite app_nil_r. repeat split; constructor. }
  pose proof (checkLink_spec link broken reqs Hlink) as H1.
  destruct (checkLink link broken reqs) as [[link' b1] r1].
  destruct H1 as (Hp & -> & -> & Hb).
  specialize (IH (if decide (isBroken link') then goint.incr broken else broken)
                 (reqs ++ if decide (isExternal link)
                          then [http.HEAD (Link.LinkURL link)] else [])).
  destruct (checkLinks rest _ _) as [[rest' b2] r2].
  destruct IH as (Hps & -> & -> & Hbs).
  split; [by constructor|]. split; [|split].
  - rewrite filter_cons, <- app_assoc. f_equal.
    by destruct (decide (isExternal link)).
  - rewrite filter_cons. destruct (decide (isBroken link')); [|done].
    simpl length. by rewrite Nat.iter_succ_r.
  - constructor; [|done]. intros Hbr. specialize (Hb Hbr).
    unfold isExternal in *. destruct Hp as (_ & _ & _ & _ & _ & -> & _). done.
Qed.

Lemma probedFrom_filter_LinkType (P : Link.t -> Prop) `{!forall l, Decision (P l)}
    (links links' : list Link.t) :
  (forall l l', Link.LinkType l' = Link.LinkType l -> P l <-> P l') ->
  Forall2 probedFrom links links' ->
  length (filter P links') = length (filter P links).
Proof.
  intros HP. induction 1 as [|l l' ls ls' Hl _ IH]; [done|].
  rewrite !filter_cons.
  destruct Hl as (_ & _ & _ & _ & _ & Hty & _).
  destruct (decide (P l)) as [Hl|Hl].
  - rewrite decide_True by (by apply (HP l l')). simpl. by rewrite IH.
  - rewrite decide_False by (by rewrite <- (HP l l')). done.
Qed.

Lemma probedFrom_external_urls (links links' : list Link.t) :
  Forall2 probedFrom links links' ->
  http.HEAD ∘ Link.LinkURL <$> filter isExternal links'
  = http.HEAD ∘ Link.LinkURL <$> filter isExternal links.
Proof.
  induction 1 as [|l l' ls ls' Hl _ IH]; [done|].
  rewrite !filter_cons. destruct Hl as (_ & _ & _ & Hu & _ & Hty & _).
  destruct (decide (isExternal l)) as [He|He], (decide (isExternal l')) as [He'|He'];
    unfold isExternal in He, He'; rewrite Hty in He'; try contradiction.
  - rewrite !fmap_cons. f_equal; [|exact IH]. simpl. by rewrite Hu.
  - done.
Qed.

(** What extractData returns, whatever the document and the base URL. *)
Lemma extractData_spec (doc : html.Node) (baseURL : string) (w : World.t) :
  let '(data, w') := extractData doc baseURL w in
  let links := CrawlData.Links data in
  CrawlData.InternalLinks data = goint.wrap (Z.of_nat (length (filter isInternal links)))
  /\ CrawlData.ExternalLinks data = goint.wrap (Z.of_nat (length (filter isExternal links)))
  /\ CrawlData.BrokenLinks data = goint.wrap (Z.of_nat (length (filter isBroken links)))
  /\ Forall (fun l => isBroken l -> isExternal l) links
  /\ Forall (fun l => isInternal l ->
                      Link.StatusCode l = 200 /\ Link.IsAccessible l = true) links
  /\ Forall (fun l => Link.ID l = 0%N) links
  /\ World.requests w' =
       World.requests w ++ (http.HEAD ∘ Link.LinkURL <$> filter isExternal links)
  /\ World.db w' = World.db w /\ World.clock w' = World.clock w.
Proof.
  unfold extractData.
  destruct (url_Parse baseURL) as [parsedBaseURL|e].
  { pose proof (traverseHTML_traversed doc newCrawlData parsedBaseURL
                  newCrawlData_traversed) as (Hi & He & Hb & Hl).
    unfold checkLinkAccessibility.
    pose proof (checkLinks_spec
                  (CrawlData.Links (traverseHTML doc newCrawlData parsedBaseURL))
                  (CrawlData.BrokenLinks (traverseHTML doc newCrawlData parsedBaseURL))
                  (World.requests w)) as Hc.
    destruct (checkLinks _ _ _) as [[links' broken'] reqs'].
    destruct Hc as (Hp & -> & -> & Hbr).
    { eapply Forall_impl; [exact Hl|]. by intros l (_ & ? & _). }
    simpl.
    rewrite Hi, He, Hb.
    rewrite (probedFrom_filter_LinkType isInternal _ _
               ltac:(unfold isInternal; by intros ? ? ->) Hp).
    rewrite (probedFrom_filter_LinkType isExternal _ _
               ltac:(unfold isExternal; by intros ? ? ->) Hp).
    rewrite <- wrap_0, iter_incr_wrap.
    split; [done|]. split; [done|]. split; [done|]. split; [done|].
    split; [|split; [|split; [|done]]].
    - clear -Hp Hl. induction Hp as [|l l' ls ls' Hl' _ IH]; [constructor|].
      inversion_clear Hl as [|? ? Hfl Hls]. constructor; [|by apply IH].
      destruct Hl' as (_ & _ & _ & _ & _ & Hty & _ & Hint).
      destruct Hfl as (_ & Hacc & _).
      intros Hi'. unfold isInternal in *. rewrite Hty in Hi'.
      destruct (Hint Hi') as [-> ->]. done.
    - clear -Hp Hl. induction Hp as [|l l' ls ls' Hl' _ IH]; [constructor|].
      inversion_clear Hl as [|? ? Hfl Hls]. constructor; [|by apply IH].
      destruct Hl' as (-> & _). by destruct Hfl as (? & _).
    - by rewrite (probedFrom_external_urls _ _ Hp). }
  simpl. rewrite app_nil_r. repeat split; constructor.
Qed.


(** C2.  After extraction and the reachability check on any document,
    with the number of links within the range of a Go [int] (as the
    length of a slice is): the internal and external counts add up to
    the number of links collected, the broken count is the number of
    links flagged inaccessible, and it does not exceed the external
    count. *)
Theorem extractData_counts (doc : html.Node) (baseURL : string) (w : World.t) :
  let data := fst (extractData doc baseURL w) in
  Z.of_nat (length (CrawlData.Links data)) <= goint.MaxInt ->
  CrawlData.InternalLinks data + CrawlData.ExternalLinks data
    = Z.of_nat (length (CrawlData.Links data))
  /\ CrawlData.BrokenLinks data
     = Z.of_nat (length (filter (fun l => Link.IsAccessible l = false)
                                (CrawlData.Links data)))
  /\ CrawlData.BrokenLinks data <= CrawlData.ExternalLinks data.
Proof.
  pose proof (extractData_spec doc baseURL w) as H.
  destruct (extractData doc baseURL w) as [data w']. simpl in *.
  destruct H as (Hi & He & Hb & Hbe & _).
  intros Hlen.
  pose proof (internal_external_length (CrawlData.Links data)) as Hsum.
  pose proof (filter_length_le_impl isBroken isExternal _ Hbe) as Hle.
  rewrite Hi, He, Hb.
  unfold goint.MaxInt in Hlen.
  rewrite !wrap_small by (unfold goint.MinInt, goint.MaxInt; lia).
  unfold isBroken in *. lia.
Qed.

End LinkCounts.

(** C2, witness: the theorem on the sample page, which yields four links. *)
Lemma extractData_counts_witness :
  let data := fst (services.extractData (env := sample.env) sample.page
                     "https://example.com" sample.world0) in
  services.CrawlData.InternalLinks data + services.CrawlData.ExternalLinks data
    = Z.of_nat (length (services.CrawlData.Links data))
  /\ services.CrawlData.BrokenLinks data
     = Z.of_nat (length (filter (fun l => models.Link.IsAccessible l = false)
                                (services.CrawlData.Links data)))
  /\ services.CrawlData.BrokenLinks data <= services.CrawlData.ExternalLinks data.
Proof.
  apply (extractData_counts (env := sample.env) sample.page
           "https://example.com" sample.world0).
  vm_compute. discriminate.
Defined.

(** ** The store *)

Section Store.

Context {A : Type} `{gorm.Model A}.

Lemma primaryKey_le_max (t : list A) (r : A) :
  r ∈ t -> (gorm.primaryKey r <= foldr N.max 0 (gorm.primaryKey <$> t))%N.
Proof.
  induction 1 as [r t|r r' t _ IH]; rewrite fmap_cons; simpl foldr; lia.
Qed.

Lemma hasKey_true (t : list A) (id : N) :
  gorm.hasKey t id = true <-> exists r, r ∈ t /\ gorm.primaryKey r = id.
Proof.
  unfold gorm.hasKey. rewrite existsb_exists. split.
  - intros (r & Hr & Heq). exists r. split.
    + by apply list_elem_of_In.
    + by apply N.eqb_eq.
  - intros (r & Hr & Heq). exists r. split.
    + by apply list_elem_of_In.
    + by apply N.eqb_eq.
Qed.

(** An auto-incremented key is not in use. *)
Lemma nextID_fresh (t : list A) : gorm.hasKey t (gorm.nextID t) = false.
Proof.
  destruct (gorm.hasKey t (gorm.nextID t)) eqn:Hk; [|done].
  apply hasKey_true in Hk as (r & Hr & Heq).
  apply primaryKey_le_max in Hr. unfold gorm.nextID in Heq. lia.
Qed.

Lemma nextID_nonzero (t : list A) : gorm.nextID t ≠ 0%N.
Proof. unfold gorm.nextID. lia. Qed.

Lemma hasKey_app (t t' : list A) (id : N) :
  gorm.hasKey (t ++ t') id = gorm.hasKey t id || gorm.hasKey t' id.
Proof. apply existsb_app. Qed.

Lemma row_app (t t' : list A) (id : N) :
  gorm.row id (t ++ t') =
    match gorm.row id t with
    | Some r => Some r
    | None => gorm.row id t'
    end.
Proof.
  unfold gorm.row. induction t as [|x t IH]; simpl; [done|].
  by destruct (N.eqb _ _).
Qed.

Lemma row_None (t : list A) (id : N) :
  gorm.hasKey t id = false -> gorm.row id t = None.
Proof.
  unfold gorm.hasKey, gorm.row. induction t as [|x t IH]; simpl; [done|].
  destruct (N.eqb _ _); [done|apply IH].
Qed.

(** Rewriting the row of a key in place: the row stored under the key is
    the new one, every other key keeps its row. *)
Lemma row_replace (t : list A) (r' : A) (id : N) :
  gorm.primaryKey r' = id ->
  gorm.hasKey t id = true ->
  gorm.row id ((fun x => if N.eqb (gorm.primaryKey x) id then r' else x) <$> t)
  = Some r'.
Proof.
  intros Hpk. unfold gorm.hasKey, gorm.row.
  induction t as [|x t IH]; simpl; [done|].
  destruct (N.eqb (gorm.primaryKey x) id) eqn:Hx; simpl.
  - intros _. by rewrite Hpk, N.eqb_refl.
  - intros Ht. rewrite Hx. by apply IH.
Qed.

Lemma row_replace_other (t : list A) (r' : A) (id id' : N) :
  gorm.primaryKey r' = id -> id' ≠ id ->
  gorm.row id' ((fun x => if N.eqb (gorm.primaryKey x) id then r' else x) <$> t)
  = gorm.row id' t.
Proof.
  intros Hpk Hne. unfold gorm.row.
  induction t as [|x t IH]; simpl; [done|].
  destruct (N.eqb (gorm.primaryKey x) id) eqn:Hx.
  - apply N.eqb_eq in Hx. rewrite Hpk, Hx.
    destruct (N.eqb_spec id id'); [congruence|done].
  - by destruct (N.eqb _ id').
Qed.

(** [Save] of a struct with a non-zero key whose key the update stamp
    leaves alone. *)
Lemma Save_spec (d : gorm.Driver) (now : Z) (r : A) (t : list A) :
  gorm.primaryKey r ≠ 0%N ->
  gorm.primaryKey (gorm.autoUpdateTime now r) = gorm.primaryKey r ->
  exists t', gorm.Save d now r t = ok (gorm.autoUpdateTime now r, t')
             /\ gorm.row (gorm.primaryKey r) t' = Some (gorm.autoUpdateTime now r)
             /\ (forall id, id ≠ gorm.primaryKey r -> gorm.row id t' = gorm.row id t).
Proof.
  intros Hnz Hpk. unfold gorm.Save.
  destruct (N.eqb_spec (gorm.primaryKey r) 0) as [|_]; [done|].
  destruct (gorm.hasKey t (gorm.primaryKey r)) eqn:Hk; eexists; split; try done.
  - split; [by apply row_replace|].
    intros id Hid. by apply row_replace_other.
  - split.
    + rewrite row_app, (row_None _ _ Hk). unfold gorm.row. simpl.
      by rewrite Hpk, N.eqb_refl.
    + intros id Hid. rewrite row_app. destruct (gorm.row id t); [done|].
      unfold gorm.row. simpl. rewrite Hpk.
      destruct (N.eqb_spec (gorm.primaryKey r) id); [congruence|done].
Qed.

Lemma least_cases (p : A -> bool) (t : list A) :
  match gorm.least p t with
  | Some r => r ∈ t /\ p r = true
  | None => Forall (fun x => p x = false) t
  end.
Proof.
  induction t as [|x t IH]; simpl; [constructor|].
  destruct (p x) eqn:Hx.
  - destruct (gorm.least p t) as [r'|].
    + destruct IH as [? ?]. destruct (_ <? _)%N; split; try done.
      * by right.
      * by left.
    + split; [by left|done].
  - destruct (gorm.least p t) as [r'|].
    + destruct IH as [? ?]. split; [by right|done].
    + by constructor.
Qed.

Lemma least_sound (p : A -> bool) (t : list A) (r : A) :
  gorm.least p t = Some r -> r ∈ t /\ p r = true.
Proof.
  intros Hl. pose proof (least_cases p t) as Hc. by rewrite Hl in Hc.
Qed.

Lemma least_Some (p : A -> bool) (t : list A) (r : A) :
  r ∈ t -> p r = true ->
  exists r', gorm.least p t = Some r' /\ r' ∈ t /\ p r' = true.
Proof.
  intros Hr Hp. pose proof (least_cases p t) as Hc.
  destruct (gorm.least p t) as [r'|].
  - by exists r'.
  - rewrite Forall_forall in Hc. rewrite (Hc r Hr) in Hp. discriminate.
Qed.

(** [First] finds a visible row of the key it is asked for. *)
Lemma First_ok (id : N) (t : list A) (r : A) :
  gorm.First id t = ok r ->
  r ∈ t /\ gorm.primaryKey r = id /\ gorm.isDeleted r = false.
Proof.
  unfold gorm.First.
  destruct (gorm.least _ t) as [r'|] eqn:Hl; [|discriminate].
  intros [= ->]. apply least_sound in Hl as [Hin Hp].
  apply andb_true_iff in Hp as [Hk Hd].
  apply N.eqb_eq in Hk. apply negb_true_iff in Hd. done.
Qed.

End Store.

(** ** The crawl *)

Section Crawl.

Import models services spec.
Context {env : Env}.

(** The loop that saves the links appends one row for each link, in
    order, under a key not in use, carrying the two foreign keys. *)
Lemma saveLinks_spec (urlID crawlID : N) (links : list Link.t) (w : World.t) :
  Forall (fun l => Link.ID l = 0%N) links ->
  exists rows,
    DB.links (World.db (saveLinks urlID crawlID links w))
      = DB.links (World.db w) ++ rows
    /\ Forall2 (storedFrom urlID crawlID) links rows
    /\ Forall (fun r => gorm.hasKey (DB.links (World.db w)) (Link.ID r) = false) rows
    /\ sameButLinks w (saveLinks urlID crawlID links w).
Proof.
  intros Hids. revert w.
  induction Hids as [|l links Hl _ IH]; intros w; simpl.
  { exists []. rewrite app_nil_r. by repeat split; try constructor. }
  unfold gorm.Create. simpl. rewrite Hl. simpl.
  rewrite (nextID_fresh (DB.links (World.db w))). simpl.
  match goal with
  | |- context [saveLinks _ _ _ ?w1] => destruct (IH w1) as (rows & Hrows & Hst & Hfresh & Hsame)
  end.
  simpl in Hrows, Hfresh.
  eexists (_ :: rows). split; [|split; [|split]].
  - rewrite Hrows, <- app_assoc. reflexivity.
  - constructor; [|done]. unfold storedFrom; simpl.
    repeat split; try done. apply (nextID_nonzero (A := Link.t)).
  - constructor.
    + simpl. apply (nextID_fresh (DB.links (World.db w))).
    + eapply Forall_impl; [exact Hfresh|]. intros r Hr. simpl in Hr.
      rewrite hasKey_app in Hr. by apply orb_false_iff in Hr as [? _].
  - destruct Hsame as (? & ? & ? & ? & ?). by repeat split.
Qed.

(** The deferred function: the completion time is set, the crawl is
    saved, the URL takes the status of the crawl and is saved. *)
Lemma deferred_spec (u : URL.t) (c : Crawl.t) (w : World.t) :
  URL.ID u ≠ 0%N -> Crawl.ID c ≠ 0%N ->
  let now := World.clock w in
  let c' := Crawl.set_UpdatedAt now (Crawl.set_CompletedAt (Some now) c) in
  let u' := URL.set_UpdatedAt now (URL.set_Status (Crawl.Status c) u) in
  exists w',
    (let '(crawl, w1) := saveCrawl (Crawl.set_CompletedAt (Some now) c) w in
     let '(urlRecord, w2) := saveURL (URL.set_Status (Crawl.Status crawl) u) w1 in
     (urlRecord, crawl, w2)) = (u', c', w')
    /\ gorm.row (Crawl.ID c) (DB.crawls (World.db w')) = Some c'
    /\ gorm.row (URL.ID u) (DB.urls (World.db w')) = Some u'
    /\ DB.links (World.db w') = DB.links (World.db w)
    /\ World.requests w' = World.requests w.
Proof.
  intros Hu Hc now c' u'. subst now c' u'. unfold saveCrawl, saveURL.
  destruct (Save_spec (DB.driver (World.db w)) (World.clock w)
              (Crawl.set_CompletedAt (Some (World.clock w)) c)
              (DB.crawls (World.db w)))
    as (tc & -> & Hrow_c & _); [done|done|].
  simpl.
  destruct (Save_spec (DB.driver (World.db w)) (World.clock w)
              (URL.set_Status (Crawl.Status c) u) (DB.urls (World.db w)))
    as (tu & -> & Hrow_u & _); [done|done|].
  eexists. split; [reflexivity|]. by repeat split.
Qed.

Lemma fetch_cases (u : URL.t) (w : World.t) :
  fetchFails u w \/ exists doc, fetchYields u w doc.
Proof.
  unfold fetchFails, fetchYields.
  destruct (http_Get _ _) as [resp|e] eqn:Hget; [|left; left; by eexists].
  destruct (Z_lt_le_dec (http.StatusCode resp) 400) as [Hlt|Hge].
  - destruct (html_Parse (http.Body resp)) as [doc|e] eqn:Hparse.
    + right. by exists doc, resp.
    + left. right. right. by exists resp, e.
  - left. right. left. by exists resp.
Qed.


(** The body of performCrawl on a failed fetch. *)
Lemma performCrawl_body_fails (u : URL.t) (c : Crawl.t) (w : World.t) :
  fetchFails u w ->
  exists msg, msg ≠ EmptyString
              /\ performCrawl_body u c w = (u, failCrawl msg c, afterGet u w).
Proof.
  unfold performCrawl_body, afterGet.
  intros [(e & ->)|[(resp & -> & Hge)|(resp & e & -> & Hp)]].
  - eexists. split; [|reflexivity]. done.
  - apply Z.leb_le in Hge. rewrite Hge. eexists. split; [|reflexivity]. done.
  - destruct (400 <=? http.StatusCode resp).
    + eexists. split; [|reflexivity]. done.
    + rewrite Hp. eexists. split; [|reflexivity]. done.
Qed.

(** The body of performCrawl on a page that was fetched and parsed. *)
Lemma performCrawl_body_yields (u : URL.t) (c : Crawl.t) (w : World.t)
    (doc : html.Node) :
  fetchYields u w doc ->
  performCrawl_body u c w =
    let '(data, w1) := extractData doc (URL.URL u) (afterGet u w) in
    (URL.set_HasLoginForm (CrawlData.HasLoginForm data)
       (URL.set_HTMLVersion (CrawlData.HTMLVersion data)
          (URL.set_Title (CrawlData.Title data) u)),
     Crawl.set_Status "completed"
       (Crawl.set_HeadingCounts (marshalHeadingCounts (CrawlData.HeadingCounts data))
          (Crawl.set_BrokenLinks (CrawlData.BrokenLinks data)
             (Crawl.set_ExternalLinks (CrawlData.ExternalLinks data)
                (Crawl.set_InternalLinks (CrawlData.InternalLinks data) c)))),
     saveLinks (URL.ID u) (Crawl.ID c) (CrawlData.Links data) w1).
Proof.
  intros (resp & Hget & Hlt & Hparse).
  unfold performCrawl_body, afterGet. rewrite Hget.
  apply Z.leb_gt in Hlt. rewrite Hlt, Hparse. reflexivity.
Qed.



Lemma performCrawl_deferred (u u1 : URL.t) (c c1 : Crawl.t) (w w1 : World.t) :
  performCrawl_body u c w = (u1, c1, w1) ->
  URL.ID u1 ≠ 0%N -> Crawl.ID c1 ≠ 0%N ->
  let now := World.clock w1 in
  let c' := Crawl.set_UpdatedAt now (Crawl.set_CompletedAt (Some now) c1) in
  let u' := URL.set_UpdatedAt now (URL.set_Status (Crawl.Status c1) u1) in
  exists w',
    performCrawl u c w = (u', c', w')
    /\ gorm.row (Crawl.ID c1) (DB.crawls (World.db w')) = Some c'
    /\ gorm.row (URL.ID u1) (DB.urls (World.db w')) = Some u'
    /\ DB.links (World.db w') = DB.links (World.db w1)
    /\ World.requests w' = World.requests w1.
Proof.
  intros Hbody Hu Hc. unfold performCrawl. rewrite Hbody.
  apply (deferred_spec u1 c1 w1 Hu Hc).
Qed.


(** C4.  When the GET fails, or answers 400 or more, or the body does not
    parse: the crawl row is saved with status error and a non-empty error
    message, the URL row is saved with status error and with its title,
    HTML version and login-form flag as they were, no link row is
    created, and nothing is requested after the GET. *)
Theorem performCrawl_error (u : URL.t) (c : Crawl.t) (w : World.t) :
  URL.ID u ≠ 0%N -> Crawl.ID c ≠ 0%N ->
  fetchFails u w ->
  let r := performCrawl u c w in
  let u' := fst (fst r) in
  let c' := snd (fst r) in
  let w' := snd r in
  (Crawl.Status c' = "error" /\ Crawl.ErrorMessage c' ≠ EmptyString
   /\ gorm.row (Crawl.ID c) (DB.crawls (World.db w')) = Some c')
  /\ (URL.Status u' = "error"
      /\ gorm.row (URL.ID u) (DB.urls (World.db w')) = Some u')
  /\ (URL.Title u' = URL.Title u /\ URL.HTMLVersion u' = URL.HTMLVersion u
      /\ URL.HasLoginForm u' = URL.HasLoginForm u)
  /\ DB.links (World.db w') = DB.links (World.db w)
  /\ World.requests w' = World.requests w ++ [http.GET (URL.URL u)].
Proof.
  intros Hu Hc Hfail r u' c' w'. subst u' c' w' r.
  destruct (performCrawl_body_fails u c w Hfail) as (msg & Hmsg & Hbody).
  destruct (performCrawl_deferred _ _ _ _ _ _ Hbody Hu Hc)
    as (w' & -> & Hrc & Hru & Hl & Hr).
  simpl. by repeat split.
Qed.

(** C5.  When the page is fetched (status below 400) and parsed: the
    crawl row is saved as completed with the heading counts as a JSON
    string and the three link counts, the URL row is saved as completed
    with the extracted title (and HTML version and login-form flag), and
    one link row is created for each extracted link, in order, carrying
    the ID of the URL and the ID of the crawl. *)
Theorem performCrawl_completed
    (u : URL.t) (c : Crawl.t) (w : World.t) (doc : html.Node) :
  URL.ID u ≠ 0%N -> Crawl.ID c ≠ 0%N ->
  fetchYields u w doc ->
  let data := fst (extractData doc (URL.URL u) (afterGet u w)) in
  let r := performCrawl u c w in
  let u' := fst (fst r) in
  let c' := snd (fst r) in
  let w' := snd r in
  (Crawl.Status c' = "completed"
   /\ Crawl.HeadingCounts c' = marshalHeadingCounts (CrawlData.HeadingCounts data)
   /\ Crawl.InternalLinks c' = CrawlData.InternalLinks data
   /\ Crawl.ExternalLinks c' = CrawlData.ExternalLinks data
   /\ Crawl.BrokenLinks c' = CrawlData.BrokenLinks data
   /\ gorm.row (Crawl.ID c) (DB.crawls (World.db w')) = Some c')
  /\ (URL.Status u' = "completed"
      /\ URL.Title u' = CrawlData.Title data
      /\ URL.HTMLVersion u' = CrawlData.HTMLVersion data
      /\ URL.HasLoginForm u' = CrawlData.HasLoginForm data
      /\ gorm.row (URL.ID u) (DB.urls (World.db w')) = Some u')
  /\ exists rows,
       DB.links (World.db w') = DB.links (World.db w) ++ rows
       /\ Forall2 (storedFrom (URL.ID u) (Crawl.ID c)) (CrawlData.Links data) rows
       /\ Forall (fun row => gorm.hasKey (DB.links (World.db w)) (Link.ID row) = false)
                 rows.
Proof.
  intros Hu Hc Hdoc data r u' c' w'. subst u' c' w' r data.
  pose proof (performCrawl_body_yields u c w doc Hdoc) as Hbody.
  pose proof (extractData_spec doc (URL.URL u) (afterGet u w)) as Hx.
  destruct (extractData doc (URL.URL u) (afterGet u w)) as [data w1].
  simpl in Hx. destruct Hx as (_ & _ & _ & _ & _ & Hids & _ & Hdb & _).
  destruct (saveLinks_spec (URL.ID u) (Crawl.ID c) (CrawlData.Links data) w1 Hids)
    as (rows & Hrows & Hst & Hfresh & Hsame).
  destruct (performCrawl_deferred _ _ _ _ _ _ Hbody Hu Hc)
    as (w' & -> & Hrc & Hru & Hl & Hr).
  simpl. split; [by repeat split|]. split; [by repeat split|].
  exists rows. rewrite Hl, Hrows, Hdb. simpl.
  split; [done|]. split; [done|]. by rewrite Hdb in Hfresh.
Qed.

Lemma third_snd {A B C} (p : A * B * C) : (let '(_, _, w) := p in w) = snd p.
Proof. by destruct p as [[? ?] ?]. Qed.

(** The one call site of performCrawl: StartCrawl passes it the URL row
    it found, with its status set to running, and a crawl row it has just
    created; both primary keys are database keys, the second non-zero. *)
Lemma StartCrawl_performCrawl (urlID : N) (w : World.t) (u : URL.t) :
  gorm.First urlID (DB.urls (World.db w)) = ok u ->
  exists c1 w1,
    let u1 := URL.set_UpdatedAt (World.clock w) (URL.set_Status "running" u) in
    StartCrawl urlID w = snd (performCrawl u1 c1 w1)
    /\ URL.ID u1 = urlID
    /\ (Crawl.ID c1 ≠ 0%N /\ Crawl.URLID c1 = urlID /\ Crawl.Status c1 = "running")
    /\ gorm.row (Crawl.ID c1) (DB.crawls (World.db w)) = None
    /\ (World.requests w1 = World.requests w
        /\ World.clock w1 = World.clock w
        /\ DB.links (World.db w1) = DB.links (World.db w)).
Proof.
  intros Hfirst. unfold StartCrawl. rewrite Hfirst.
  apply First_ok in Hfirst as (_ & Hid & _).
  unfold gorm.Create. simpl.
  rewrite (nextID_fresh (DB.crawls (World.db w))). simpl.
  eexists _, _. split.
  { apply (third_snd (A := URL.t) (B := Crawl.t)). }
  simpl. split; [done|]. split.
  { split; [|done]. apply (nextID_nonzero (A := Crawl.t)). }
  split; [|done].
  apply row_None, (nextID_fresh (DB.crawls (World.db w))).
Qed.

End Crawl.

(** C4, witness: the theorem on the crawl of the sample URL whose page
    answers 404. *)
Lemma performCrawl_error_witness :
  models.Crawl.Status
    (snd (fst (services.performCrawl (env := sample.env)
                 sample.missingURL sample.missingCrawl sample.world0))) = "error"
  /\ models.Crawl.ErrorMessage
       (snd (fst (services.performCrawl (env := sample.env)
                    sample.missingURL sample.missingCrawl sample.world0)))
     ≠ EmptyString.
Proof.
  assert (spec.fetchFails (env := sample.env) sample.missingURL sample.world0) as Hfail.
  { right. left. eexists. split; [reflexivity|]. vm_compute. discriminate. }
  pose proof (performCrawl_error (env := sample.env)
                sample.missingURL sample.missingCrawl sample.world0
                ltac:(discriminate) ltac:(discriminate) Hfail) as H.
  destruct H as ((Hs & He & _) & _). exact (conj Hs He).
Defined.

(** C5, witness: the theorem on the crawl of the sample page. *)
Lemma performCrawl_completed_witness :
  models.Crawl.Status
    (snd (fst (services.performCrawl (env := sample.env)
                 sample.exampleURL sample.exampleCrawl sample.world0))) = "completed"
  /\ models.URL.Title
       (fst (fst (services.performCrawl (env := sample.env)
                    sample.exampleURL sample.exampleCrawl sample.world0)))
     = "Test Page".
Proof.
  assert (spec.fetchYields (env := sample.env) sample.exampleURL sample.world0
            sample.page) as Hdoc.
  { eexists. split; [reflexivity|]. split; [|reflexivity]. vm_compute. reflexivity. }
  pose proof (performCrawl_completed (env := sample.env)
                sample.exampleURL sample.exampleCrawl sample.world0 sample.page
                ltac:(discriminate) ltac:(discriminate) Hdoc) as H.
  destruct H as ((Hs & _) & (_ & Ht & _) & _). exact (conj Hs Ht).
Defined.

(** ** URL creation *)

Section CreateURL.

Import models services.

Lemma Contains_duplicate_error (d : gorm.Driver) (table column value : string) :
  strings.Contains (gorm.duplicate_error d table column value) "Duplicate entry"
  || strings.Contains (gorm.duplicate_error d table column value)
                      "UNIQUE constraint failed" = true.
Proof.
  apply orb_true_iff. destruct d; [left|right]; reflexivity.
Qed.

(** C9.  Submitting a URL string that some row of the urls table holds,
    soft-deleted or not (primary keys being non-zero, as auto-incremented
    keys are): CreateURL returns no error; the existing row is rewritten
    with its deletion timestamp cleared and its status pending, its other
    columns kept; one crawl is started for it; and the record returned is
    that row. *)
Theorem CreateURL_existing (url : string) (w : World.t) (r : URL.t) :
  r ∈ DB.urls (World.db w) ->
  URL.URL r = url ->
  Forall (fun x => URL.ID x ≠ 0%N) (DB.urls (World.db w)) ->
  exists existing saved w',
    CreateURL url w = (ok saved, w', [go_StartCrawl (URL.ID existing)])
    /\ (existing ∈ DB.urls (World.db w) /\ URL.URL existing = url)
    /\ (URL.ID saved = URL.ID existing
        /\ URL.URL saved = url
        /\ URL.Status saved = "pending"
        /\ gorm.Valid (URL.DeletedAt saved) = false
        /\ URL.Title saved = URL.Title existing
        /\ URL.HTMLVersion saved = URL.HTMLVersion existing
        /\ URL.HasLoginForm saved = URL.HasLoginForm existing
        /\ URL.CreatedAt saved = URL.CreatedAt existing)
    /\ gorm.row (URL.ID existing) (DB.urls (World.db w')) = Some saved
    /\ (forall id, id ≠ URL.ID existing ->
          gorm.row id (DB.urls (World.db w')) = gorm.row id (DB.urls (World.db w)))
    /\ (DB.crawls (World.db w') = DB.crawls (World.db w)
        /\ DB.links (World.db w') = DB.links (World.db w)
        /\ World.requests w' = World.requests w).
Proof.
  intros Hr Hurl Hkeys.
  assert (existsb (fun r' => String.eqb (URL.URL r') url) (DB.urls (World.db w)) = true)
    as Hdup.
  { apply existsb_exists. exists r. split; [by apply list_elem_of_In|].
    by apply String.eqb_eq. }
  destruct (least_Some (fun r' => String.eqb (URL.URL r') url)
              (DB.urls (World.db w)) r Hr ltac:(by apply String.eqb_eq))
    as (existing & Hleast & Hin & Hp).
  apply String.eqb_eq in Hp.
  rewrite Forall_forall in Hkeys. specialize (Hkeys existing Hin).
  set (restored := URL.set_Status "pending"
                     (if gorm.Valid (URL.DeletedAt existing)
                      then URL.set_DeletedAt gorm.DeletedAt_zero existing
                      else existing)).
  assert (URL.ID restored = URL.ID existing) as Hid.
  { unfold restored. by destruct (gorm.Valid _). }
  destruct (Save_spec (DB.driver (World.db w)) (World.clock w) restored
              (DB.urls (World.db w)))
    as (t' & Hsave & Hrow & Hother);
    [change (URL.ID restored ≠ 0%N); congruence|done|].
  exists existing, (URL.set_UpdatedAt (World.clock w) restored).
  eexists.
  unfold CreateURL, gorm.Create. simpl.
  rewrite (nextID_fresh (DB.urls (World.db w))).
  unfold gorm.uniqueConflict. simpl. rewrite Hdup. simpl.
  rewrite Contains_duplicate_error.
  unfold gorm.UnscopedFirstWhere. rewrite Hleast.
  fold restored. rewrite Hsave.
  change (URL.ID (gorm.autoUpdateTime (World.clock w) restored))
    with (URL.ID restored).
  rewrite Hid.
  split; [reflexivity|]. split; [done|].
  change (gorm.primaryKey restored) with (URL.ID restored) in Hrow, Hother.
  rewrite Hid in Hrow, Hother.
  split; [|by repeat split].
  unfold restored. destruct (gorm.Valid (URL.DeletedAt existing)) eqn:Hv; simpl;
    by repeat split.
Qed.

End CreateURL.

(** C9, witness: the theorem on the sample database, whose one URL is
    submitted again. *)
Lemma CreateURL_existing_witness :
  exists existing saved w',
    services.CreateURL "https://example.com" sample.world0
    = (ok saved, w', [services.go_StartCrawl (models.URL.ID existing)])
    /\ models.URL.Status saved = "pending".
Proof.
  destruct (CreateURL_existing "https://example.com" sample.world0 sample.exampleURL)
    as (existing & saved & w' & Heq & _ & (_ & _ & Hst & _) & _).
  - by left.
  - reflexivity.
  - repeat constructor. discriminate.
  - by exists existing, saved, w'.
Defined.

(** ** Deletion *)

Section Delete.

Context {A : Type} `{gorm.Model A}.

(** With a [gorm.DeletedAt] field the row stays, stamped unless it was
    deleted before. *)
Lemma Delete_soft (get : A -> gorm.DeletedAt) (set : gorm.DeletedAt -> A -> A)
    (now : Z) (id : N) (t : list A) (r : A) :
  gorm.deletedAt = Some (get, set) ->
  (forall d x, gorm.primaryKey (set d x) = gorm.primaryKey x) ->
  gorm.row id t = Some r ->
  gorm.row id (gorm.Delete now id t)
  = Some (if gorm.Valid (get r) then r else set (gorm.mkDeletedAt now true) r)
  /\ length (gorm.Delete now id t) = length t.
Proof.
  intros Hd Hpk. unfold gorm.Delete, gorm.isDeleted, gorm.row. rewrite Hd.
  split; [|by rewrite length_fmap].
  induction t as [|x t IH]; simpl in *; [done|].
  destruct (N.eqb (gorm.primaryKey x) id) eqn:Hx; simpl.
  - injection H0 as ->. destruct (gorm.Valid (get r)); simpl.
    + by rewrite Hx.
    + by rewrite Hpk, Hx.
  - rewrite Hx. by apply IH.
Qed.

(** Without one the row is gone. *)
Lemma Delete_hard (now : Z) (id : N) (t : list A) :
  gorm.deletedAt = None -> gorm.row id (gorm.Delete now id t) = None.
Proof.
  intros Hd. unfold gorm.Delete, gorm.row. rewrite Hd.
  induction t as [|x t IH]; [done|].
  rewrite filter_cons. destruct (decide (gorm.primaryKey x ≠ id)) as [Hx|Hx].
  - simpl. by destruct (N.eqb_spec (gorm.primaryKey x) id).
  - done.
Qed.

End Delete.

Section SoftDelete.

Import models.

(** C6, amended.  Of the four tables, users and urls carry a soft-delete
    timestamp and deleting one of their rows keeps the row, stamped;
    crawls and links carry none, and deleting one of their rows removes
    it. *)
Theorem soft_delete_users_and_urls_only :
  (spec.softDeletes User.t
   /\ forall now id (t : list User.t) r,
        gorm.row id t = Some r ->
        gorm.row id (gorm.Delete now id t)
        = Some (if gorm.Valid (User.DeletedAt r) then r
                else User.set_DeletedAt (gorm.mkDeletedAt now true) r))
  /\ (spec.softDeletes URL.t
      /\ forall now id (t : list URL.t) r,
           gorm.row id t = Some r ->
           gorm.row id (gorm.Delete now id t)
           = Some (if gorm.Valid (URL.DeletedAt r) then r
                   else URL.set_DeletedAt (gorm.mkDeletedAt now true) r))
  /\ (gorm.deletedAt (A := Crawl.t) = None
      /\ forall now id (t : list Crawl.t), gorm.row id (gorm.Delete now id t) = None)
  /\ (gorm.deletedAt (A := Link.t) = None
      /\ forall now id (t : list Link.t), gorm.row id (gorm.Delete now id t) = None).
Proof.
  assert (forall now id (t : list User.t) r,
            gorm.row id t = Some r ->
            gorm.row id (gorm.Delete now id t)
            = Some (if gorm.Valid (User.DeletedAt r) then r
                    else User.set_DeletedAt (gorm.mkDeletedAt now true) r)) as Husers.
  { intros now id t r Hr.
    by apply (Delete_soft User.DeletedAt User.set_DeletedAt now id t r). }
  assert (forall now id (t : list URL.t) r,
            gorm.row id t = Some r ->
            gorm.row id (gorm.Delete now id t)
            = Some (if gorm.Valid (URL.DeletedAt r) then r
                    else URL.set_DeletedAt (gorm.mkDeletedAt now true) r)) as Hurls.
  { intros now id t r Hr.
    by apply (Delete_soft URL.DeletedAt URL.set_DeletedAt now id t r). }
  split; [|split; [|split]].
  - split; [|done]. intros now id t r Hr. rewrite (Husers _ _ _ _ Hr). by eexists.
  - split; [|done]. intros now id t r Hr. rewrite (Hurls _ _ _ _ Hr). by eexists.
  - split; [done|]. intros now id t. by apply Delete_hard.
  - split; [done|]. intros now id t. by apply Delete_hard.
Qed.

(** C6 as stated fails: the crawls table has no soft-delete timestamp,
    and deleting the one row of a crawls table leaves no row under its
    key; the same holds of the links table. *)
Lemma delete_crawl_row_is_physical :
  gorm.row 1 [sample.exampleCrawl] = Some sample.exampleCrawl
  /\ gorm.row 1 (gorm.Delete 2000 1 [sample.exampleCrawl]) = None
  /\ ~ (spec.softDeletes User.t /\ spec.softDeletes URL.t
        /\ spec.softDeletes Crawl.t /\ spec.softDeletes Link.t).
Proof.
  split; [reflexivity|]. split; [reflexivity|].
  intros (_ & _ & Hc & _).
  destruct (Hc 2000 1%N [sample.exampleCrawl] sample.exampleCrawl eq_refl)
    as [x Hx].
  discriminate Hx.
Qed.

End SoftDelete.

(** ** The model run on the sample web *)

Section Examples.

Import models services.

(** The listing endpoint on a hostile and on a plain query string. *)
Example GetURLs_hostile_query :
  handlers.GetURLs
    [("limit", "500"); ("offset", "-3"); ("sortBy", "id; DROP TABLE urls");
     ("sortOrder", "ASC"); ("limit", "5")]
  = handlers.mkGetURLsArgs 20 0 EmptyString EmptyString "updated_at" "desc".
Proof. reflexivity. Qed.

Example GetURLs_plain_query :
  handlers.GetURLs
    [("limit", "50"); ("offset", "40"); ("search", "go");
     ("sortBy", "title"); ("sortOrder", "asc")]
  = handlers.mkGetURLsArgs 50 40 "go" EmptyString "title" "asc".
Proof. reflexivity. Qed.

Example Atoi_examples :
  strconv.Atoi <$> ["20"; "+5"; "-5"; "007"; ""; "+"; "1_0"; "0x10"; " 5";
                    "9223372036854775807"; "9223372036854775808"]
  = [Some 20; Some 5; Some (-5); Some 7; None; None; None; None; None;
     Some 9223372036854775807; None].
Proof. reflexivity. Qed.

(** The extraction of the sample page: its title trimmed, two h1 and one
    h2, a login form, one internal link and three external ones, two of
    which do not answer below 400. *)
Example extractData_sample :
  let data := fst (extractData (env := sample.env) sample.page
                     "https://example.com" sample.world0) in
  CrawlData.Title data = "Test Page"
  /\ CrawlData.HasLoginForm data = true
  /\ CrawlData.HeadingCounts data = HeadingCounts.mk 2 1 0 0 0 0
  /\ (CrawlData.InternalLinks data, CrawlData.ExternalLinks data,
      CrawlData.BrokenLinks data) = (1, 3, 2)
  /\ Link.LinkURL <$> CrawlData.Links data
     = ["https://example.com/internal"; "https://external.com";
        "https://gone.example.org/x"; "https://unreachable.example.org"]
  /\ Link.StatusCode <$> CrawlData.Links data = [200; 200; 404; 0].
Proof. vm_compute. repeat split. Qed.

(** The requests of the crawl of the sample page, and of a crawl whose
    page answers 404. *)
Example performCrawl_sample_requests :
  World.requests
    (snd (performCrawl (env := sample.env) sample.exampleURL sample.exampleCrawl
            sample.world0))
  = [http.GET "https://example.com"; http.HEAD "https://external.com";
     http.HEAD "https://gone.example.org/x";
     http.HEAD "https://unreachable.example.org"].
Proof. vm_compute. reflexivity. Qed.

Example performCrawl_missing_requests :
  World.requests
    (snd (performCrawl (env := sample.env) sample.missingURL sample.missingCrawl
            sample.world0))
  = [http.GET "https://example.com/missing"].
Proof. vm_compute. reflexivity. Qed.

(** The error message of that crawl, as fmt prints it. *)
Example performCrawl_missing_message :
  Crawl.ErrorMessage
    (snd (fst (performCrawl (env := sample.env) sample.missingURL
                 sample.missingCrawl sample.world0)))
  = "HTTP 404: 404 Not Found".
Proof. vm_compute. reflexivity. Qed.

End Examples.

(** * Further properties *)

(** ** What the traversal extracts *)

Section Extraction.

Import models services spec.
Context {env : Env}.

Lemma processLink_other_fields n data baseURL :
  CrawlData.Title (processLink n data baseURL) = CrawlData.Title data
  /\ CrawlData.HTMLVersion (processLink n data baseURL) = CrawlData.HTMLVersion data
  /\ CrawlData.HasLoginForm (processLink n data baseURL) = CrawlData.HasLoginForm data.
Proof.
  unfold processLink.
  destruct (String.eqb (href_of _) _); [done|].
  destruct (url_Parse _); [|done].
  by destruct (String.eqb (url_Host _) _).
Qed.

Lemma visit_Title n data baseURL :
  CrawlData.Title (visit n data baseURL) =
    match titleText n with
    | Some s => if String.eqb (CrawlData.Title data) EmptyString
                then s else CrawlData.Title data
    | None => CrawlData.Title data
    end.
Proof.
  destruct n as [ty tag attrs cs]. unfold visit, titleText, isElement. simpl.
  destruct (decide (ty = html.ElementNode)) as [->|Hty].
  2:{ rewrite decide_False; [done|]. by intros [? _]. }
  destruct (String.eqb_spec tag "title") as [->|Htag].
  { rewrite decide_True by done.
    destruct (html.FirstChild _); simpl; [|done].
    by destruct (String.eqb _ _). }
  rewrite decide_False by (by intros [_ ?]).
  repeat (match goal with
          | |- context [String.eqb tag ?b] => destruct (String.eqb tag b)
          end); try done.
  - apply processLink_other_fields.
  - unfold checkLoginForm. by destruct (existsb _ _).
Qed.

Lemma visit_HTMLVersion n data baseURL :
  CrawlData.HTMLVersion (visit n data baseURL) =
    if decide (isElement "html" n) then "HTML5" else CrawlData.HTMLVersion data.
Proof.
  destruct n as [ty tag attrs cs]. unfold visit, isElement. simpl.
  destruct (decide (ty = html.ElementNode)) as [->|Hty].
  2:{ rewrite decide_False; [done|]. by intros [? _]. }
  destruct (String.eqb_spec tag "html") as [->|Htag].
  { by rewrite decide_True. }
  rewrite decide_False by (by intros [_ ?]).
  destruct (String.eqb tag "title").
  { destruct (html.FirstChild _); [|done]. by destruct (String.eqb _ _). }
  repeat (match goal with
          | |- context [String.eqb tag ?b] => destruct (String.eqb tag b)
          end); try done.
  - apply processLink_other_fields.
  - unfold checkLoginForm. by destruct (existsb _ _).
Qed.

Lemma visit_HasLoginForm n data baseURL :
  CrawlData.HasLoginForm (visit n data baseURL) =
    CrawlData.HasLoginForm data
    || (if decide (isElement "form" n) then looksLikeLogin n else false).
Proof.
  destruct n as [ty tag attrs cs]. unfold visit, isElement. simpl.
  destruct (decide (ty = html.ElementNode)) as [->|Hty].
  2:{ rewrite decide_False; [by rewrite orb_false_r|]. by intros [? _]. }
  destruct (String.eqb_spec tag "form") as [->|Htag].
  { rewrite decide_True by done. simpl. unfold checkLoginForm, looksLikeLogin.
    destruct (existsb _ _); simpl; by rewrite ?orb_true_r, ?orb_false_r. }
  rewrite decide_False by (by intros [_ ?]). rewrite orb_false_r.
  destruct (String.eqb tag "title").
  { destruct (html.FirstChild _); [|done]. by destruct (String.eqb _ _). }
  repeat (match goal with
          | |- context [String.eqb tag ?b] => destruct (String.eqb tag b)
          end); try done.
  apply processLink_other_fields.
Qed.

Lemma visit_Links n data baseURL :
  CrawlData.Links (visit n data baseURL) =
    CrawlData.Links data ++ option_list (anchorLink baseURL n).
Proof.
  unfold anchorLink.
  destruct (decide (isElement "a" n)) as [Ha|Ha].
  - rewrite (visit_anchor _ _ _ Ha), processLink_links.
    destruct (String.eqb_spec (href_of (html.Attr n)) EmptyString) as [He|He].
    + rewrite decide_False by tauto. simpl. by rewrite app_nil_r.
    + rewrite decide_True by done.
      destruct (url_Parse _); simpl; [done|by rewrite app_nil_r].
  - rewrite decide_False by tauto. simpl. rewrite app_nil_r.
    destruct n as [ty tag attrs cs]. unfold visit, isElement in *. simpl in *.
    destruct (decide (ty = html.ElementNode)) as [->|Hty]; [|done].
    destruct (String.eqb tag "title").
    { destruct (html.FirstChild _); [|done]. by destruct (String.eqb _ _). }
    repeat (match goal with
            | |- context [String.eqb tag ?b] =>
                destruct (String.eqb_spec tag b) as [->|?]
            end); try done.
    + tauto.
    + unfold checkLoginForm. by destruct (existsb _ _).
Qed.

Lemma fold_visit_Title ns data baseURL :
  CrawlData.Title (fold_left (fun data m => visit m data baseURL) ns data) =
    if decide (CrawlData.Title data = EmptyString)
    then firstNonEmpty (omap titleText ns)
    else CrawlData.Title data.
Proof.
  revert data. induction ns as [|n ns IH]; intros data; simpl.
  { by case_decide. }
  rewrite IH, visit_Title. unfold firstNonEmpty.
  destruct (titleText n) as [s|].
  - destruct (String.eqb_spec (CrawlData.Title data) EmptyString) as [He|He].
    + rewrite (decide_True (P := CrawlData.Title data = _)) by done.
      rewrite filter_cons.
      destruct (decide (s = EmptyString)) as [->|Hs].
      * by rewrite decide_False by (by intros ?).
      * by rewrite decide_True.
    + by rewrite !decide_False.
  - done.
Qed.

Lemma fold_visit_HTMLVersion ns data baseURL :
  CrawlData.HTMLVersion data = "HTML5" ->
  CrawlData.HTMLVersion (fold_left (fun data m => visit m data baseURL) ns data)
  = "HTML5".
Proof.
  revert data. induction ns as [|n ns IH]; intros data Hd; simpl; [done|].
  apply IH. rewrite visit_HTMLVersion. by case_decide.
Qed.

Lemma fold_visit_HasLoginForm ns data baseURL :
  CrawlData.HasLoginForm (fold_left (fun data m => visit m data baseURL) ns data) =
    CrawlData.HasLoginForm data
    || existsb looksLikeLogin (filter (isElement "form") ns).
Proof.
  revert data. induction ns as [|n ns IH]; intros data; simpl.
  { by rewrite orb_false_r. }
  rewrite IH, visit_HasLoginForm, filter_cons.
  destruct (decide (isElement "form" n)); simpl.
  - by rewrite orb_assoc.
  - by rewrite orb_false_r.
Qed.

Lemma fold_visit_Links ns data baseURL :
  CrawlData.Links (fold_left (fun data m => visit m data baseURL) ns data) =
    CrawlData.Links data ++ omap (anchorLink baseURL) ns.
Proof.
  revert data. induction ns as [|n ns IH]; intros data; simpl.
  { by rewrite app_nil_r. }
  rewrite IH, visit_Links, <- app_assoc. f_equal.
  by destruct (anchorLink baseURL n).
Qed.

(** The reachability loop leaves every field but the links and the
    broken count alone. *)
Lemma checkLinkAccessibility_other_fields data w :
  let data' := fst (checkLinkAccessibility data w) in
  CrawlData.Title data' = CrawlData.Title data
  /\ CrawlData.HTMLVersion data' = CrawlData.HTMLVersion data
  /\ CrawlData.HasLoginForm data' = CrawlData.HasLoginForm data
  /\ CrawlData.HeadingCounts data' = CrawlData.HeadingCounts data.
Proof.
  unfold checkLinkAccessibility.
  by destruct (checkLinks _ _ _) as [[? ?] ?].
Qed.


(** X1.  Whatever the document (its doctype, its html element) and
    whatever the base URL, the HTML version extractData reports is
    HTML5. *)
Theorem extractData_HTMLVersion (doc : html.Node) (baseURL : string) (w : World.t) :
  CrawlData.HTMLVersion (fst (extractData doc baseURL w)) = "HTML5".
Proof.
  unfold extractData. destruct (url_Parse baseURL) as [base|e]; [|done].
  pose proof (checkLinkAccessibility_other_fields
                (traverseHTML doc newCrawlData base) w) as (_ & -> & _).
  rewrite traverseHTML_preorder. by apply fold_visit_HTMLVersion.
Qed.

(** X2.  The title the traversal ends with: a title already found is
    kept; otherwise it is the first non-empty text, in document order,
    among the trimmed first children of the title elements, and empty
    when there is none.  For extractData, whose data starts without a
    title, it is that text when the base URL parses and empty when it
    does not. *)
Theorem traverseHTML_Title (doc : html.Node) (data : CrawlData.t)
    (baseURL : url_URL) :
  CrawlData.Title (traverseHTML doc data baseURL) =
    (if decide (CrawlData.Title data = EmptyString)
     then firstNonEmpty (omap titleText (preorder doc))
     else CrawlData.Title data)
  /\ forall (base : string) (w : World.t),
       CrawlData.Title (fst (extractData doc base w)) =
         match url_Parse base with
         | ok _ => firstNonEmpty (omap titleText (preorder doc))
         | err _ => EmptyString
         end.
Proof.
  split.
  - rewrite traverseHTML_preorder. apply fold_visit_Title.
  - intros base w. unfold extractData.
    destruct (url_Parse base) as [parsed|e]; [|done].
    pose proof (checkLinkAccessibility_other_fields
                  (traverseHTML doc newCrawlData parsed) w) as (-> & _).
    rewrite traverseHTML_preorder, fold_visit_Title. done.
Qed.

(** X3.  The login-form flag the traversal ends with: set before, or
    some form element of the document, rendered with its attributes and
    its subtree and lowered, contains one of the five indicators (login,
    signin, email, username, password).  The flag is never cleared. *)
Theorem traverseHTML_HasLoginForm (doc : html.Node) (data : CrawlData.t)
    (baseURL : url_URL) :
  CrawlData.HasLoginForm (traverseHTML doc data baseURL) =
    CrawlData.HasLoginForm data
    || existsb looksLikeLogin (filter (isElement "form") (preorder doc)).
Proof. rewrite traverseHTML_preorder. apply fold_visit_HasLoginForm. Qed.

(** X4.  The links the traversal collects: one for each anchor element
    whose href is non-empty and parses, in document order, appended to
    those collected before; after the reachability check of extractData
    they are still these links, in this order, with at most the status
    code and the accessibility flag changed. *)
Theorem traverseHTML_Links (doc : html.Node) (data : CrawlData.t)
    (baseURL : url_URL) :
  CrawlData.Links (traverseHTML doc data baseURL) =
    CrawlData.Links data ++ omap (anchorLink baseURL) (preorder doc)
  /\ forall (base : string) (w : World.t),
       url_Parse base = ok baseURL ->
       Forall2 probedFrom (omap (anchorLink baseURL) (preorder doc))
               (CrawlData.Links (fst (extractData doc base w))).
Proof.
  split.
  - rewrite traverseHTML_preorder. apply fold_visit_Links.
  - intros base w Hbase. unfold extractData. rewrite Hbase.
    pose proof (traverseHTML_traversed doc newCrawlData baseURL
                  newCrawlData_traversed) as (_ & _ & _ & Hl).
    unfold checkLinkAccessibility.
    pose proof (checkLinks_spec
                  (CrawlData.Links (traverseHTML doc newCrawlData baseURL))
                  (CrawlData.BrokenLinks (traverseHTML doc newCrawlData baseURL))
                  (World.requests w)) as Hc.
    destruct (checkLinks _ _ _) as [[links' broken'] reqs'].
    destruct Hc as (Hp & _).
    { eapply Forall_impl; [exact Hl|]. by intros l (_ & ? & _). }
    simpl. rewrite traverseHTML_preorder, fold_visit_Links in Hp. exact Hp.
Qed.

Lemma checkLink_probed (link : Link.t) (broken : Z) (reqs : list http.Request) :
  fst (fst (checkLink link broken reqs)) = probed reqs link
  /\ snd (checkLink link broken reqs) =
       reqs ++ (if decide (isExternal link)
                then [http.HEAD (Link.LinkURL link)] else []).
Proof.
  unfold checkLink, probed, isInternal, isExternal.
  destruct (String.eqb_spec (Link.LinkType link) "internal") as [Hi|He].
  - rewrite decide_True by done. rewrite decide_False by tauto.
    by rewrite app_nil_r.
  - rewrite decide_False by done. rewrite decide_True by done.
    destruct (http_Head reqs _) as [code|e]; [|done].
    by destruct (400 <=? code).
Qed.

Lemma checkLinks_lookup (links : list Link.t) (broken : Z)
    (reqs : list http.Request) (i : nat) (l : Link.t) :
  links !! i = Some l ->
  fst (fst (checkLinks links broken reqs)) !! i =
    Some (probed (reqs ++ (http.HEAD ∘ Link.LinkURL
                           <$> filter isExternal (take i links))) l).
Proof.
  revert broken reqs i.
  induction links as [|link rest IH]; intros broken reqs i Hi; [done|].
  simpl. pose proof (checkLink_probed link broken reqs) as [Hp Hr].
  destruct (checkLink link broken reqs) as [[link' b1] r1]. simpl in Hp, Hr.
  specialize (IH b1 r1).
  destruct (checkLinks rest b1 r1) as [[rest' b2] r2]. simpl in *.
  destruct i as [|i]; simpl in *.
  - injection Hi as <-. by rewrite app_nil_r, Hp.
  - rewrite (IH i Hi), Hr, filter_cons, <- app_assoc.
    by destruct (decide (isExternal link)).
Qed.

(** X5.  What the reachability loop makes of each link, the requests
    made before its turn being those made before the loop and one HEAD
    for each external link ahead of it: an internal link gets status code
    200 and keeps its flag; an external link whose HEAD fails gets status
    code 0 and is flagged inaccessible; an external link whose HEAD
    answers gets the status code of the answer and is flagged
    inaccessible when that is 400 or more, its flag kept otherwise. *)
Theorem checkLinkAccessibility_outcome (data : CrawlData.t) (w : World.t)
    (i : nat) (l : Link.t) :
  CrawlData.Links data !! i = Some l ->
  let history :=
    World.requests w
    ++ (http.HEAD ∘ Link.LinkURL
        <$> filter isExternal (take i (CrawlData.Links data))) in
  exists l',
    CrawlData.Links (fst (checkLinkAccessibility data w)) !! i = Some l'
    /\ probedFrom l l'
    /\ (isInternal l ->
        Link.StatusCode l' = 200 /\ Link.IsAccessible l' = Link.IsAccessible l)
    /\ (isExternal l ->
        match http_Head history (Link.LinkURL l) with
        | err _ => Link.StatusCode l' = 0 /\ Link.IsAccessible l' = false
        | ok code =>
            Link.StatusCode l' = code
            /\ Link.IsAccessible l' =
                 (if 400 <=? code then false else Link.IsAccessible l)
        end).
Proof.
  intros Hl history. exists (probed history l).
  split.
  { unfold checkLinkAccessibility.
    pose proof (checkLinks_lookup (CrawlData.Links data)
                  (CrawlData.BrokenLinks data) (World.requests w) i l Hl) as H.
    by destruct (checkLinks _ _ _) as [[? ?] ?]. }
  unfold probed, probedFrom, isExternal, isInternal.
  destruct (decide (Link.LinkType l = "internal")) as [Hi|He].
  - simpl. repeat split; try done.
  - destruct (http_Head history _) as [code|e]; [destruct (400 <=? code)|];
      simpl; repeat split; try done.
Qed.

End Extraction.

(** ** The store: visibility and shapes of tables *)

Section Rows.

Context {A : Type} `{gorm.Model A}.

Lemma NoDup_fmap_eq {B : Type} (f : A -> B) (l : list A) (x y : A) :
  NoDup (f <$> l) -> x ∈ l -> y ∈ l -> f x = f y -> x = y.
Proof.
  induction l as [|z l IH]; intros Hnd Hx Hy Hf.
  { by apply elem_of_nil in Hx. }
  rewrite fmap_cons in Hnd. apply NoDup_cons in Hnd as [Hz Hnd].
  apply elem_of_cons in Hx as [->|Hx]; apply elem_of_cons in Hy as [->|Hy].
  - done.
  - exfalso. apply Hz. rewrite Hf. apply list_elem_of_fmap. by exists y.
  - exfalso. apply Hz. rewrite <- Hf. apply list_elem_of_fmap. by exists x.
  - by apply IH.
Qed.

(** [First] reports no record exactly when no row of the key is
    visible. *)
Lemma First_none (id : N) (t : list A) :
  Forall (fun r => gorm.primaryKey r = id -> gorm.isDeleted r = true) t ->
  gorm.First id t = err gorm.ErrRecordNotFound.
Proof.
  intros Hall. unfold gorm.First.
  destruct (gorm.least _ t) as [r|] eqn:Hl; [|done].
  apply least_sound in Hl as [Hin Hp].
  apply andb_true_iff in Hp as [Hk Hd].
  apply N.eqb_eq in Hk. apply negb_true_iff in Hd.
  rewrite Forall_forall in Hall. rewrite (Hall r Hin Hk) in Hd. discriminate.
Qed.

Lemma First_err (id : N) (t : list A) (e : string) :
  gorm.First id t = err e ->
  e = gorm.ErrRecordNotFound
  /\ Forall (fun r => gorm.primaryKey r = id -> gorm.isDeleted r = true) t.
Proof.
  unfold gorm.First. pose proof (least_cases
    (fun r => N.eqb (gorm.primaryKey r) id && negb (gorm.isDeleted r)) t) as Hc.
  destruct (gorm.least _ t) as [r|]; [discriminate|].
  intros [= <-]. split; [done|].
  eapply Forall_impl; [exact Hc|]. intros r Hp Hk. simpl in Hp.
  apply N.eqb_eq in Hk. rewrite Hk in Hp. simpl in Hp.
  by apply negb_false_iff in Hp.
Qed.

(** With distinct keys, [First] finds the one row of a key if it is
    visible. *)
Lemma First_unique (t : list A) (r : A) :
  NoDup (gorm.primaryKey <$> t) -> r ∈ t -> gorm.isDeleted r = false ->
  gorm.First (gorm.primaryKey r) t = ok r.
Proof.
  intros Hnd Hin Hvis. unfold gorm.First.
  destruct (least_Some
              (fun x => N.eqb (gorm.primaryKey x) (gorm.primaryKey r)
                        && negb (gorm.isDeleted x)) t r Hin)
    as (r' & -> & Hin' & Hp).
  { by rewrite N.eqb_refl, Hvis. }
  apply andb_true_iff in Hp as [Hk _]. apply N.eqb_eq in Hk.
  by rewrite (NoDup_fmap_eq gorm.primaryKey t r' r Hnd Hin' Hin Hk).
Qed.

Lemma replace_absent (t : list A) (r' : A) (id : N) :
  gorm.hasKey t id = false ->
  (fun x => if N.eqb (gorm.primaryKey x) id then r' else x) <$> t = t.
Proof.
  unfold gorm.hasKey. induction t as [|x t IH]; [done|].
  intros Hk. simpl in Hk. apply orb_false_iff in Hk as [Hx Ht].
  rewrite fmap_cons, Hx. f_equal. by apply IH.
Qed.

Lemma Save_shape (d : gorm.Driver) (now : Z) (r : A) (t : list A) :
  gorm.primaryKey r ≠ 0%N ->
  gorm.Save d now r t =
    ok (gorm.autoUpdateTime now r,
        if gorm.hasKey t (gorm.primaryKey r)
        then (fun x => if N.eqb (gorm.primaryKey x) (gorm.primaryKey r)
                       then gorm.autoUpdateTime now r else x) <$> t
        else t ++ [gorm.autoUpdateTime now r]).
Proof.
  intros Hnz. unfold gorm.Save.
  destruct (N.eqb_spec (gorm.primaryKey r) 0) as [|_]; [done|].
  by destruct (gorm.hasKey t (gorm.primaryKey r)).
Qed.

(** A row-wise rewriting that keeps the keys keeps the rows of the other
    keys. *)
Lemma row_fmap_other (f : A -> A) (t : list A) (id : N) :
  (forall x, gorm.primaryKey (f x) = gorm.primaryKey x) ->
  (forall x, gorm.primaryKey x = id -> f x = x) ->
  gorm.row id (f <$> t) = gorm.row id t.
Proof.
  intros Hk Hid. unfold gorm.row.
  induction t as [|x t IH]; [done|]. rewrite fmap_cons. simpl.
  rewrite Hk. destruct (N.eqb_spec (gorm.primaryKey x) id) as [Hx|Hx].
  - by rewrite (Hid x Hx).
  - exact IH.
Qed.

Lemma row_elem_of (t : list A) (id : N) (r : A) :
  gorm.row id t = Some r -> r ∈ t /\ gorm.primaryKey r = id.
Proof.
  unfold gorm.row. induction t as [|x t IH]; simpl; [done|].
  destruct (N.eqb_spec (gorm.primaryKey x) id) as [Hx|Hx].
  - intros [= ->]. split; [by left|done].
  - intros Hr. destruct (IH Hr) as [? ?]. split; [by right|done].
Qed.

Lemma row_unique (t : list A) (r : A) :
  NoDup (gorm.primaryKey <$> t) -> r ∈ t ->
  gorm.row (gorm.primaryKey r) t = Some r.
Proof.
  intros Hnd Hin.
  destruct (gorm.row (gorm.primaryKey r) t) as [r'|] eqn:Hrow.
  - apply row_elem_of in Hrow as [Hin' Hk].
    by rewrite (NoDup_fmap_eq gorm.primaryKey t r' r Hnd Hin' Hin Hk).
  - exfalso. unfold gorm.row in Hrow.
    apply find_none with (x := r) in Hrow; [|by apply list_elem_of_In].
    by rewrite N.eqb_refl in Hrow.
Qed.

End Rows.

(** ** A crawl from start to end *)

Section StartCrawl.

Import models services spec.
Context {env : Env}.

(** Saving the links touches the links table only, and every row it
    adds is flagged accessible: [is_accessible] has [default:true], and
    Create writes the default over a false. *)
Lemma saveLinks_tables (urlID crawlID : N) (links : list Link.t) (w : World.t) :
  let w' := saveLinks urlID crawlID links w in
  (World.clock w' = World.clock w
   /\ DB.driver (World.db w') = DB.driver (World.db w)
   /\ DB.urls (World.db w') = DB.urls (World.db w)
   /\ DB.crawls (World.db w') = DB.crawls (World.db w))
  /\ (allAccessible (DB.links (World.db w)) ->
      allAccessible (DB.links (World.db w'))).
Proof.
  revert w. induction links as [|l links IH]; intros w; simpl; [done|].
  match goal with
  | |- context [saveLinks _ _ _ ?w1] =>
      destruct (IH w1) as ((Hc & Hd & Hu & Hcr) & Hacc);
      assert ((World.clock w1 = World.clock w
               /\ DB.driver (World.db w1) = DB.driver (World.db w)
               /\ DB.urls (World.db w1) = DB.urls (World.db w)
               /\ DB.crawls (World.db w1) = DB.crawls (World.db w))
              /\ (allAccessible (DB.links (World.db w)) ->
                  allAccessible (DB.links (World.db w1)))) as Hstep
  end.
  { unfold gorm.Create.
    destruct (gorm.hasKey _ _); [done|].
    destruct (gorm.uniqueConflict _ _) as [[? ?]|]; [done|].
    simpl. split; [done|]. intros Hall. apply Forall_app. split; [done|].
    by constructor. }
  destruct Hstep as ((Hc1 & Hd1 & Hu1 & Hcr1) & Hacc1).
  split; [|by auto].
  by rewrite Hc, Hd, Hu, Hcr.
Qed.

(** The body of performCrawl: the keys, the URL string and the start
    time of the two structs are kept, the crawl ends as an error or as
    completed according to the fetch, and of the database only the links
    table may have changed. *)
Lemma performCrawl_body_shape (u : URL.t) (c : Crawl.t) (w : World.t) :
  exists u1 c1 w1,
    performCrawl_body u c w = (u1, c1, w1)
    /\ (URL.ID u1 = URL.ID u /\ URL.URL u1 = URL.URL u
        /\ URL.DeletedAt u1 = URL.DeletedAt u /\ URL.CreatedAt u1 = URL.CreatedAt u)
    /\ (Crawl.ID c1 = Crawl.ID c /\ Crawl.URLID c1 = Crawl.URLID c
        /\ Crawl.StartedAt c1 = Crawl.StartedAt c
        /\ Crawl.CreatedAt c1 = Crawl.CreatedAt c)
    /\ ((fetchFails u w /\ Crawl.Status c1 = "error")
        \/ ((exists doc, fetchYields u w doc) /\ Crawl.Status c1 = "completed"))
    /\ (World.clock w1 = World.clock w
        /\ DB.driver (World.db w1) = DB.driver (World.db w)
        /\ DB.urls (World.db w1) = DB.urls (World.db w)
        /\ DB.crawls (World.db w1) = DB.crawls (World.db w))
    /\ (allAccessible (DB.links (World.db w)) ->
        allAccessible (DB.links (World.db w1))).
Proof.
  destruct (fetch_cases u w) as [Hfail|(doc & Hdoc)].
  - destruct (performCrawl_body_fails u c w Hfail) as (msg & _ & ->).
    eexists _, _, _. split; [reflexivity|]. simpl.
    split; [done|]. split; [done|]. split; [by left|]. done.
  - rewrite (performCrawl_body_yields u c w doc Hdoc).
    pose proof (extractData_spec doc (URL.URL u) (afterGet u w)) as Hx.
    destruct (extractData doc (URL.URL u) (afterGet u w)) as [data w0].
    destruct Hx as (_ & _ & _ & _ & _ & _ & _ & Hdb & Hclock).
    pose proof (saveLinks_tables (URL.ID u) (Crawl.ID c)
                  (CrawlData.Links data) w0) as ((Hc & Hd & Hu & Hcr) & Hacc).
    eexists _, _, _. split; [reflexivity|]. simpl.
    split; [done|]. split; [done|]. split; [right; split; [by exists doc|done]|].
    rewrite Hdb in Hd, Hu, Hcr, Hacc. simpl in *.
    rewrite Hc, Hd, Hu, Hcr, Hclock. done.
Qed.

(** The deferred function leaves the links table alone. *)
Lemma performCrawl_links_body (u : URL.t) (c : Crawl.t) (w : World.t) :
  DB.links (World.db (snd (performCrawl u c w)))
  = DB.links (World.db (snd (performCrawl_body u c w))).
Proof.
  unfold performCrawl.
  destruct (performCrawl_body u c w) as [[u1 c1] w1]. simpl.
  unfold saveCrawl.
  destruct (gorm.Save _ _ _ (DB.crawls _)) as [[c2 tc]|?]; simpl;
    unfold saveURL; simpl;
    by destruct (gorm.Save _ _ _ (DB.urls _)) as [[u2 tu]|?].
Qed.

Lemma StartCrawl_links (urlID : N) (w : World.t) :
  allAccessible (DB.links (World.db w)) ->
  allAccessible (DB.links (World.db (StartCrawl urlID w))).
Proof.
  intros Hall. unfold StartCrawl.
  destruct (gorm.First urlID _) as [u|e]; [|done].
  destruct (gorm.Create _ _ _ _) as [[c t]|e]; [|done].
  simpl. rewrite third_snd, performCrawl_links_body.
  match goal with
  | |- context [performCrawl_body ?u1 ?c1 ?w1] =>
      destruct (performCrawl_body_shape u1 c1 w1)
        as (u2 & c2 & w2 & -> & _ & _ & _ & _ & Hacc)
  end.
  by apply Hacc.
Qed.

(** X6.  A crawl of a key under which no URL row is visible (there is
    none, or it is soft-deleted) changes nothing: no crawl row is
    created, no request is made. *)
Theorem StartCrawl_no_visible_URL (urlID : N) (w : World.t) :
  noVisibleURL urlID (DB.urls (World.db w)) ->
  StartCrawl urlID w = w.
Proof.
  intros Hno. unfold StartCrawl.
  rewrite (First_none (A := URL.t) urlID (DB.urls (World.db w))); [done|].
  exact Hno.
Qed.

(** The tables after a crawl of a visible URL row with a non-zero key:
    the crawl row appended, and the rows of the key in the urls table
    rewritten, first as running, then by the deferred Save. *)
Lemma StartCrawl_shape (urlID : N) (w : World.t) (u : URL.t) :
  gorm.First urlID (DB.urls (World.db w)) = ok u ->
  urlID ≠ 0%N ->
  let w' := StartCrawl urlID w in
  exists c' u',
    DB.crawls (World.db w') = DB.crawls (World.db w) ++ [c']
    /\ (Crawl.ID c' ≠ 0%N
        /\ gorm.hasKey (DB.crawls (World.db w)) (Crawl.ID c') = false
        /\ Crawl.URLID c' = urlID
        /\ Crawl.StartedAt c' = Some (World.clock w)
        /\ Crawl.CompletedAt c' = Some (World.clock w))
    /\ ((fetchFails u w /\ Crawl.Status c' = "error")
        \/ ((exists doc, fetchYields u w doc) /\ Crawl.Status c' = "completed"))
    /\ DB.urls (World.db w') =
         (fun x => if N.eqb (URL.ID x) urlID then u' else x)
         <$> ((fun x => if N.eqb (URL.ID x) urlID && negb (gorm.isDeleted x)
                        then URL.set_UpdatedAt (World.clock w)
                               (URL.set_Status "running" x)
                        else x) <$> DB.urls (World.db w))
    /\ (URL.Status u' = Crawl.Status c'
        /\ URL.ID u' = urlID
        /\ URL.URL u' = URL.URL u
        /\ URL.CreatedAt u' = URL.CreatedAt u
        /\ URL.DeletedAt u' = URL.DeletedAt u)
    /\ (World.clock w' = World.clock w
        /\ DB.driver (World.db w') = DB.driver (World.db w))
    /\ Crawl.CreatedAt c' = World.clock w.
Proof.
  intros Hfirst Hnz w'. subst w'. unfold StartCrawl. rewrite Hfirst.
  apply First_ok in Hfirst as (Hin & Hid & Hvis).
  unfold gorm.Create. simpl.
  rewrite (nextID_fresh (DB.crawls (World.db w))). simpl.
  rewrite third_snd.
  match goal with
  | |- context [performCrawl ?u1 ?c1 ?w1] =>
      set (w1' := w1); set (c1' := c1); set (u1' := u1)
  end.
  destruct (performCrawl_body_shape u1' c1' w1')
    as (u2 & c2 & w2 & Hbody & (Hu_id & Hu_url & Hu_del & Hu_cr)
        & (Hc_id & Hc_url & Hc_st & Hc_cr) & Hstatus & (Hclock & Hdrv & Hurls & Hcrawls) & _).
  change (Crawl.ID c1') with (gorm.nextID (DB.crawls (World.db w))) in Hc_id.
  change (URL.ID u1') with (URL.ID u) in Hu_id.
  change (URL.URL u1') with (URL.URL u) in Hu_url.
  change (URL.DeletedAt u1') with (URL.DeletedAt u) in Hu_del.
  change (URL.CreatedAt u1') with (URL.CreatedAt u) in Hu_cr.
  change (gorm.primaryKey u = urlID) with (URL.ID u = urlID) in Hid.
  rewrite Hid in Hu_id.
  unfold performCrawl. rewrite Hbody.
  unfold saveCrawl.
  rewrite (Save_shape (A := Crawl.t)) by
    (change (Crawl.ID c2 ≠ 0%N); rewrite Hc_id; apply (nextID_nonzero (A := Crawl.t))).
  simpl. unfold saveURL. simpl.
  rewrite (Save_shape (A := URL.t)) by
    (change (URL.ID u2 ≠ 0%N); by rewrite Hu_id).
  simpl.
  rewrite Hcrawls, Hurls, Hclock. simpl.
  rewrite Hc_id, hasKey_app, (nextID_fresh (DB.crawls (World.db w))). simpl.
  rewrite N.eqb_refl. simpl.
  rewrite fmap_app.
  pose proof (replace_absent (A := Crawl.t) (DB.crawls (World.db w))
                (Crawl.set_UpdatedAt (World.clock w)
                   (Crawl.set_CompletedAt (Some (World.clock w)) c2))
                (gorm.nextID (DB.crawls (World.db w)))
                (nextID_fresh (DB.crawls (World.db w)))) as Hrep.
  simpl in Hrep. rewrite Hrep. clear Hrep.
  simpl. rewrite N.eqb_refl.
  rewrite Hu_id.
  rewrite Hid.
  assert ((fetchFails u w /\ Crawl.Status c2 = "error")
          \/ ((exists doc, fetchYields u w doc) /\ Crawl.Status c2 = "completed"))
    as Hstatus' by exact Hstatus.
  assert (DB.driver (World.db w2) = DB.driver (World.db w)) as Hdrv' by exact Hdrv.
  change (Crawl.URLID c1') with urlID in Hc_url.
  change (Crawl.StartedAt c1') with (Some (World.clock w)) in Hc_st.
  change (Crawl.CreatedAt c1') with (World.clock w) in Hc_cr.
  clear Hbody Hstatus Hclock Hdrv Hurls Hcrawls. clearbody w1' c1' u1'.
  rename Hstatus' into Hstatus.
  assert (gorm.hasKey
            ((fun x : URL.t =>
                if N.eqb (URL.ID x) urlID && negb (gorm.isDeleted x)
                then URL.set_UpdatedAt (World.clock w) (URL.set_Status "running" x)
                else x) <$> DB.urls (World.db w)) urlID = true) as Hk.
  { apply hasKey_true. eexists. split.
    - apply list_elem_of_fmap. by exists u.
    - change (gorm.primaryKey ?x) with (URL.ID x). by destruct (_ && _). }
  rewrite Hk.
  eexists _, _. split; [reflexivity|].
  split.
  { simpl. rewrite Hc_id, Hc_url, Hc_st.
    split; [apply (nextID_nonzero (A := Crawl.t))|].
    split; [apply (nextID_fresh (DB.crawls (World.db w)))|]. done. }
  split; [exact Hstatus|].
  split; [reflexivity|].
  simpl. by rewrite Hu_id, Hu_url, Hu_cr, Hu_del, Hc_cr.
Qed.

(** X7.  A crawl of a visible URL row with a non-zero key, from start
    to end: exactly one crawl row is appended, under a key not in use,
    for this URL, started and completed at the time of the clock, and its
    status is error when the fetch fails and completed when it yields a
    document, never running; the URL row ends with the status of that
    crawl, its key, URL string, creation time and deletion stamp kept; no
    URL row is added or removed and the rows of the other keys are as
    they were. *)
Theorem StartCrawl_outcome (urlID : N) (w : World.t) (u : URL.t) :
  gorm.First urlID (DB.urls (World.db w)) = ok u ->
  urlID ≠ 0%N ->
  let w' := StartCrawl urlID w in
  exists c' u',
    DB.crawls (World.db w') = DB.crawls (World.db w) ++ [c']
    /\ (Crawl.ID c' ≠ 0%N
        /\ gorm.hasKey (DB.crawls (World.db w)) (Crawl.ID c') = false
        /\ Crawl.URLID c' = urlID
        /\ Crawl.StartedAt c' = Some (World.clock w)
        /\ Crawl.CompletedAt c' = Some (World.clock w))
    /\ ((fetchFails u w /\ Crawl.Status c' = "error")
        \/ ((exists doc, fetchYields u w doc) /\ Crawl.Status c' = "completed"))
    /\ gorm.row urlID (DB.urls (World.db w')) = Some u'
    /\ (URL.Status u' = Crawl.Status c'
        /\ URL.ID u' = urlID
        /\ URL.URL u' = URL.URL u
        /\ URL.CreatedAt u' = URL.CreatedAt u
        /\ URL.DeletedAt u' = URL.DeletedAt u)
    /\ URL.ID <$> DB.urls (World.db w') = URL.ID <$> DB.urls (World.db w)
    /\ (forall id, id ≠ urlID ->
          gorm.row id (DB.urls (World.db w')) = gorm.row id (DB.urls (World.db w))).
Proof.
  intros Hfirst Hnz w'.
  destruct (StartCrawl_shape urlID w u Hfirst Hnz)
    as (c' & u' & Hcrawls & Hc & Hstatus & Hurls & Hu & _).
  apply First_ok in Hfirst as (Hin & Hid & Hvis).
  subst w'. exists c', u'. rewrite Hurls.
  set (upd := fun x : URL.t =>
                if N.eqb (URL.ID x) urlID && negb (gorm.isDeleted x)
                then URL.set_UpdatedAt (World.clock w) (URL.set_Status "running" x)
                else x).
  set (fin := fun x : URL.t => if N.eqb (URL.ID x) urlID then u' else x).
  destruct Hu as (Hu_st & Hu_id & Hu_rest).
  assert (forall x, URL.ID (upd x) = URL.ID x) as Hupd.
  { intros x. unfold upd. by destruct (_ && _). }
  assert (gorm.hasKey (upd <$> DB.urls (World.db w)) urlID = true) as Hk.
  { apply hasKey_true. exists (upd u). split.
    - apply list_elem_of_fmap. by exists u.
    - change (URL.ID (upd u) = urlID). by rewrite Hupd. }
  split; [done|]. split; [done|]. split; [done|].
  split.
  { exact (row_replace (A := URL.t) (upd <$> DB.urls (World.db w)) u' urlID Hu_id Hk). }
  split; [done|].
  split.
  - rewrite <- !list_fmap_compose. apply list_fmap_ext. intros i x _. simpl.
    unfold fin. destruct (N.eqb_spec (URL.ID (upd x)) urlID) as [He|He].
    + simpl. by rewrite Hu_id, <- He, Hupd.
    + apply Hupd.
  - intros id Hne.
    transitivity (gorm.row id (upd <$> DB.urls (World.db w))).
    + apply (row_fmap_other (A := URL.t) fin).
      * intros x. unfold fin. simpl.
        destruct (N.eqb_spec (URL.ID x) urlID) as [He|He]; [|done].
        simpl. by rewrite Hu_id.
      * intros x Hx. unfold fin. simpl in Hx.
        destruct (N.eqb_spec (URL.ID x) urlID) as [He|He]; [congruence|done].
    + apply (row_fmap_other (A := URL.t) upd); [exact Hupd|].
      intros x Hx. unfold upd. simpl in Hx.
      destruct (N.eqb_spec (URL.ID x) urlID) as [He|He]; [congruence|done].
Qed.

(** X8.  No crawl stores a link row flagged inaccessible: the column
    [is_accessible] has [default:true], so that Create writes true over
    the false of a broken link.  In a links table whose rows are all
    flagged accessible, they still are after a crawl, and GetURL, which
    loads the rows flagged inaccessible, loads no link. *)
Theorem StartCrawl_stores_links_accessible (urlID : N) (w : World.t) :
  allAccessible (DB.links (World.db w)) ->
  allAccessible (DB.links (World.db (StartCrawl urlID w)))
  /\ forall id loaded,
       GetURL id (StartCrawl urlID w) = ok loaded -> Links loaded = [].
Proof.
  intros Hall. pose proof (StartCrawl_links urlID w Hall) as Hacc.
  split; [exact Hacc|].
  intros id loaded. unfold GetURL.
  destruct (gorm.First id _) as [url|e].
  - intros [= <-]. simpl.
    induction Hacc as [|l t Hl _ IH]; [done|].
    rewrite filter_cons, decide_False; [exact IH|].
    intros [_ Hf]. congruence.
  - by destruct (String.eqb e _).
Qed.

End StartCrawl.

(** ** The requests of a crawl *)

Section Requests.

Import models services spec.
Context {env : Env}.




End Requests.


(** ** Concurrent crawls *)

Section Goroutines.

Import models services spec.
Context {env : Env}.

(** What CreateURL starts: one goroutine for the record it returns, none
    when it fails. *)
Lemma CreateURL_starts (url : string) (w : World.t) :
  snd (CreateURL url w) =
    match fst (fst (CreateURL url w)) with
    | ok saved => [go_StartCrawl (URL.ID saved)]
    | err _ => []
    end.
Proof.
  unfold CreateURL.
  destruct (gorm.Create _ _ _ _) as [[r t]|e]; [done|].
  destruct (_ || _); [|done].
  destruct (gorm.UnscopedFirstWhere _ _) as [existing|?]; [|done].
  by destruct (gorm.Save _ _ _ _) as [[r t]|?].
Qed.

(** CreateURL reads and writes the urls table only: the crawls stored,
    and so the crawls that run, have no part in what it does. *)
Lemma CreateURL_ignores_crawls (url : string) (w : World.t)
    (crawls : list Crawl.t) :
  CreateURL url (World.set_db (DB.set_crawls crawls (World.db w)) w) =
    (fst (fst (CreateURL url w)),
     World.set_db
       (DB.set_crawls crawls (World.db (snd (fst (CreateURL url w)))))
       (snd (fst (CreateURL url w))),
     snd (CreateURL url w)).
Proof.
  unfold CreateURL. simpl.
  destruct (gorm.Create _ _ _ _) as [[r t]|e]; [done|].
  destruct (_ || _); [|done].
  destruct (gorm.UnscopedFirstWhere _ _) as [existing|?]; [|done].
  by destruct (gorm.Save _ _ _ _) as [[r t]|?].
Qed.

(** StartCrawl is its beginning followed by performCrawl. *)
Lemma StartCrawl_steps (urlID : N) (w : World.t) :
  StartCrawl urlID w =
    match StartCrawl_begin urlID w with
    | (Some (urlRecord, crawl), w1) => snd (performCrawl urlRecord crawl w1)
    | (None, w1) => w1
    end.
Proof.
  unfold StartCrawl, StartCrawl_begin.
  destruct (gorm.First urlID _) as [u|e]; [|done].
  destruct (gorm.Create _ _ _ _) as [[c t]|e]; [|done].
  simpl. apply (third_snd (A := URL.t) (B := Crawl.t)).
Qed.

(** A goroutine whose two steps no other step separates does what
    StartCrawl does. *)
Lemma run_alone (urlID : N) (w : World.t) :
  run [Step 0; Step 0] [starting urlID] w = ([returned], StartCrawl urlID w).
Proof.
  rewrite StartCrawl_steps. simpl.
  destruct (StartCrawl_begin urlID w) as [[[u c]|] w1]; simpl; [|done].
  by destruct (performCrawl u c w1) as [[? ?] ?].
Qed.

(** After a crawl that ran alone, the URL row has the status of the
    newest crawl row, which is a crawl of it. *)
Lemma StartCrawl_agreement (urlID : N) (w : World.t) (u : URL.t) :
  gorm.First urlID (DB.urls (World.db w)) = ok u ->
  urlID ≠ 0%N ->
  exists c' u',
    newestCrawl (StartCrawl urlID w) = Some c'
    /\ gorm.row urlID (DB.urls (World.db (StartCrawl urlID w))) = Some u'
    /\ Crawl.URLID c' = urlID
    /\ URL.Status u' = Crawl.Status c'.
Proof.
  intros Hfirst Hnz.
  destruct (StartCrawl_shape urlID w u Hfirst Hnz)
    as (c' & u' & Hcrawls & (_ & _ & Hc_url & _) & _ & Hurls & (Hu_st & Hu_id & _) & _).
  apply First_ok in Hfirst as (Hin & Hid & _).
  exists c', u'. unfold newestCrawl. rewrite Hcrawls, last_snoc, Hurls.
  split; [done|]. split; [|done].
  set (upd := fun x : URL.t =>
                if N.eqb (URL.ID x) urlID && negb (gorm.isDeleted x)
                then URL.set_UpdatedAt (World.clock w) (URL.set_Status "running" x)
                else x).
  assert (gorm.hasKey (upd <$> DB.urls (World.db w)) urlID = true) as Hk.
  { apply hasKey_true. exists (upd u). split.
    - apply list_elem_of_fmap. by exists u.
    - change (URL.ID (upd u) = urlID). unfold upd. by destruct (_ && _). }
  exact (row_replace (A := URL.t) (upd <$> DB.urls (World.db w)) u' urlID Hu_id Hk).
Qed.

End Goroutines.

(** C8.  A submission starts one goroutine, for the record it returns, and
    none when it fails; a bulk rerun starts one for each ID of the request,
    however many.  Nothing coordinates them: CreateURL reads and writes the
    urls table only, so that the crawls stored or running change neither
    what it returns nor what it starts.  A crawl that runs alone is
    StartCrawl, and leaves the URL row with the status of the newest crawl
    row.  Crawls that overlap need not: on a web that answers the first GET
    only, a URL is submitted, its crawl begins, the URL is submitted again,
    the second crawl begins and runs to its end, completed, and then the
    first fails and saves the URL row it read at its beginning; the row
    ends with status error and without the title the completed crawl had
    stored, beside a newest crawl row that is completed.  Run one after the
    other, the same crawls leave the title stored and the two statuses
    equal. *)
Theorem crawls_are_unmanaged_goroutines :
  (forall url w,
     snd (services.CreateURL url w) =
       match fst (fst (services.CreateURL url w)) with
       | ok saved => [services.go_StartCrawl (models.URL.ID saved)]
       | err _ => []
       end)
  /\ (forall urlIDs,
        services.BulkRerunCrawls urlIDs = services.go_StartCrawl <$> urlIDs
        /\ length (services.BulkRerunCrawls urlIDs) = length urlIDs)
  /\ (forall url w crawls,
        services.CreateURL url (World.set_db (DB.set_crawls crawls (World.db w)) w) =
          (fst (fst (services.CreateURL url w)),
           World.set_db
             (DB.set_crawls crawls
                (World.db (snd (fst (services.CreateURL url w)))))
             (snd (fst (services.CreateURL url w))),
           snd (services.CreateURL url w)))
  /\ (forall (env : Env) urlID w,
        spec.run [spec.Step 0; spec.Step 0] [services.starting urlID] w
        = ([services.returned], services.StartCrawl urlID w))
  /\ (forall (env : Env) urlID w u,
        gorm.First urlID (DB.urls (World.db w)) = ok u ->
        urlID ≠ 0%N ->
        exists c' u',
          spec.newestCrawl (services.StartCrawl urlID w) = Some c'
          /\ gorm.row urlID (DB.urls (World.db (services.StartCrawl urlID w)))
             = Some u'
          /\ models.Crawl.URLID c' = urlID
          /\ models.URL.Status u' = models.Crawl.Status c')
  /\ exists (env : Env) (w : World.t) (url : string),
       (exists u c,
          let overlapping :=
            spec.run [spec.Submit url; spec.Step 0; spec.Submit url;
                      spec.Step 1; spec.Step 1; spec.Step 0] [] w in
          fst overlapping = [services.returned; services.returned]
          /\ DB.urls (World.db (snd overlapping)) = [u]
          /\ spec.newestCrawl (snd overlapping) = Some c
          /\ models.Crawl.URLID c = models.URL.ID u
          /\ models.Crawl.Status c = "completed"
          /\ models.URL.Status u = "error"
          /\ models.URL.Title u = EmptyString)
       /\ (exists u c,
             let serial :=
               spec.run [spec.Submit url; spec.Step 0; spec.Step 0;
                         spec.Submit url; spec.Step 1; spec.Step 1] [] w in
             fst serial = [services.returned; services.returned]
             /\ DB.urls (World.db (snd serial)) = [u]
             /\ spec.newestCrawl (snd serial) = Some c
             /\ models.Crawl.URLID c = models.URL.ID u
             /\ models.Crawl.Status c = "error"
             /\ models.URL.Status u = "error"
             /\ models.URL.Title u = "Test Page").
Proof.
  split; [exact CreateURL_starts|].
  split.
  { intros urlIDs. split; [reflexivity|].
    unfold services.BulkRerunCrawls. by rewrite length_fmap. }
  split; [exact CreateURL_ignores_crawls|].
  split; [exact @run_alone|].
  split; [exact @StartCrawl_agreement|].
  exists sample.flaky, sample.emptyWorld, "https://example.com".
  split.
  - eexists _, _. vm_compute. repeat split.
  - eexists _, _. vm_compute. repeat split.
Qed.

(** ** The urls table: submitting, reading and deleting *)

Section URLs.

Import models services spec.

Lemma least_fmap {A : Type} `{gorm.Model A} (p : A -> bool) (f : A -> A)
    (t : list A) :
  (forall x, p (f x) = p x) ->
  (forall x, gorm.primaryKey (f x) = gorm.primaryKey x) ->
  gorm.least p (f <$> t) = f <$> gorm.least p t.
Proof.
  intros Hp Hk. induction t as [|x t IH]; [done|].
  rewrite fmap_cons. simpl. rewrite IH, Hp.
  destruct (p x); [|done].
  destruct (gorm.least p t) as [r|]; simpl; [|done].
  rewrite !Hk. by destruct (_ <? _)%N.
Qed.

(** With distinct URL strings, the row found by its URL string is the
    one row holding it. *)
Lemma least_URL_unique (t : list URL.t) (r : URL.t) :
  NoDup (URL.URL <$> t) -> r ∈ t ->
  gorm.least (fun x => String.eqb (URL.URL x) (URL.URL r)) t = Some r.
Proof.
  intros Hnd Hin.
  destruct (least_Some (fun x => String.eqb (URL.URL x) (URL.URL r)) t r Hin)
    as (r' & -> & Hin' & Hp).
  { by apply String.eqb_eq. }
  apply String.eqb_eq in Hp.
  by rewrite (NoDup_fmap_eq URL.URL t r' r Hnd Hin' Hin Hp).
Qed.

Lemma First_URL_unique (t : list URL.t) (r : URL.t) :
  NoDup (URL.ID <$> t) -> r ∈ t -> gorm.Valid (URL.DeletedAt r) = false ->
  gorm.First (URL.ID r) t = ok r.
Proof. exact (First_unique t r). Qed.

Lemma row_URL_unique (t : list URL.t) (r : URL.t) :
  NoDup (URL.ID <$> t) -> r ∈ t -> gorm.row (URL.ID r) t = Some r.
Proof. exact (row_unique t r). Qed.

(** Rewriting rows without touching their keys and URL strings keeps
    the table well formed. *)
Lemma wellFormedURLs_fmap (f : URL.t -> URL.t) (t : list URL.t) :
  (forall x, x ∈ t -> URL.ID (f x) = URL.ID x /\ URL.URL (f x) = URL.URL x) ->
  wellFormedURLs t ->
  wellFormedURLs (f <$> t)
  /\ URL.ID <$> (f <$> t) = URL.ID <$> t
  /\ URL.URL <$> (f <$> t) = URL.URL <$> t.
Proof.
  intros Hf (Hnz & Hids & Hurls).
  assert (URL.ID <$> (f <$> t) = URL.ID <$> t) as Hi.
  { rewrite <- list_fmap_compose. apply list_fmap_ext. intros i x Hx. simpl.
    apply Hf. by eapply list_elem_of_lookup_2. }
  assert (URL.URL <$> (f <$> t) = URL.URL <$> t) as Hu.
  { rewrite <- list_fmap_compose. apply list_fmap_ext. intros i x Hx. simpl.
    apply Hf. by eapply list_elem_of_lookup_2. }
  split; [|done]. unfold wellFormedURLs. rewrite Hi, Hu.
  split; [|done]. apply Forall_fmap, Forall_forall. intros x Hx. simpl.
  rewrite Forall_forall in Hnz. destruct (Hf x Hx) as [-> _]. by apply Hnz.
Qed.

(** Rewriting the row of a key by a row of the same key and URL
    string. *)
Lemma wellFormedURLs_replace (t : list URL.t) (e s : URL.t) :
  wellFormedURLs t -> e ∈ t ->
  URL.ID s = URL.ID e -> URL.URL s = URL.URL e ->
  let t' := (fun x => if N.eqb (URL.ID x) (URL.ID e) then s else x) <$> t in
  wellFormedURLs t'
  /\ URL.ID <$> t' = URL.ID <$> t
  /\ URL.URL <$> t' = URL.URL <$> t
  /\ s ∈ t'.
Proof.
  intros Hwf He Hid Hurl t'.
  destruct (wellFormedURLs_fmap
              (fun x => if N.eqb (URL.ID x) (URL.ID e) then s else x) t)
    as (Hwf' & Hi & Hu); [|done|].
  { intros x Hx. destruct (N.eqb_spec (URL.ID x) (URL.ID e)) as [Heq|Hne]; [|done].
    destruct Hwf as (_ & Hids & _).
    rewrite (NoDup_fmap_eq URL.ID t x e Hids Hx He Heq). done. }
  split; [done|]. split; [done|]. split; [done|].
  apply list_elem_of_fmap. exists e. by rewrite N.eqb_refl.
Qed.

(** CreateURL on a string no row holds: Create succeeds. *)
Lemma CreateURL_fresh_path (url : string) (w : World.t) :
  Forall (fun r => URL.URL r ≠ url) (DB.urls (World.db w)) ->
  let t := DB.urls (World.db w) in
  let now := stampIfZero (World.clock w) 0 in
  let saved := URL.mk (gorm.nextID t) url EmptyString EmptyString "pending"
                      false now now gorm.DeletedAt_zero in
  CreateURL url w =
    (ok saved, World.set_db (DB.set_urls (t ++ [saved]) (World.db w)) w,
     [go_StartCrawl (gorm.nextID t)]).
Proof.
  intros Hnew t now saved. unfold CreateURL, gorm.Create. simpl.
  rewrite (nextID_fresh (DB.urls (World.db w))).
  unfold gorm.uniqueConflict. simpl.
  assert (existsb (fun r' => String.eqb (URL.URL r') url) (DB.urls (World.db w))
          = false) as ->; [|done].
  apply not_true_is_false. intros Hex.
  apply existsb_exists in Hex as (r & Hr & Heq).
  apply String.eqb_eq in Heq. apply list_elem_of_In in Hr.
  rewrite Forall_forall in Hnew. by apply (Hnew r Hr).
Qed.

(** CreateURL on a string some row holds: Create is refused, and the
    row found by the string is rewritten. *)
Lemma CreateURL_duplicate_path (url : string) (w : World.t) (existing : URL.t) :
  gorm.least (fun r => String.eqb (URL.URL r) url) (DB.urls (World.db w))
  = Some existing ->
  URL.ID existing ≠ 0%N ->
  let saved := resubmitted (World.clock w) existing in
  CreateURL url w =
    (ok saved,
     World.set_db
       (DB.set_urls
          ((fun x => if N.eqb (URL.ID x) (URL.ID existing) then saved else x)
           <$> DB.urls (World.db w)) (World.db w)) w,
     [go_StartCrawl (URL.ID existing)]).
Proof.
  intros Hleast Hnz saved.
  pose proof (least_sound _ _ _ Hleast) as [Hin Hp].
  assert (existsb (fun r' => String.eqb (URL.URL r') url) (DB.urls (World.db w)) = true)
    as Hdup.
  { apply existsb_exists. exists existing. split; [by apply list_elem_of_In|done]. }
  unfold CreateURL, gorm.Create. simpl.
  rewrite (nextID_fresh (DB.urls (World.db w))).
  unfold gorm.uniqueConflict. simpl. rewrite Hdup. simpl.
  rewrite Contains_duplicate_error.
  unfold gorm.UnscopedFirstWhere. rewrite Hleast.
  set (restored := URL.set_Status "pending"
                     (if gorm.Valid (URL.DeletedAt existing)
                      then URL.set_DeletedAt gorm.DeletedAt_zero existing
                      else existing)).
  assert (URL.ID restored = URL.ID existing) as Hid.
  { unfold restored. by destruct (gorm.Valid _). }
  rewrite (Save_shape (A := URL.t)) by (change (URL.ID restored ≠ 0%N); congruence).
  change (gorm.primaryKey restored) with (URL.ID restored). rewrite Hid.
  assert (gorm.hasKey (DB.urls (World.db w)) (URL.ID existing) = true) as ->.
  { apply hasKey_true. by exists existing. }
  change (gorm.autoUpdateTime (World.clock w) restored) with saved.
  assert (URL.ID saved = URL.ID existing) as -> by exact Hid.
  reflexivity.
Qed.

(** CreateURL on a well-formed table: it succeeds, the table stays well
    formed and holds the record returned. *)
Lemma CreateURL_result (url : string) (w : World.t) :
  wellFormedURLs (DB.urls (World.db w)) ->
  exists saved t',
    CreateURL url w =
      (ok saved, World.set_db (DB.set_urls t' (World.db w)) w,
       [go_StartCrawl (URL.ID saved)])
    /\ wellFormedURLs t'
    /\ saved ∈ t'
    /\ (URL.URL saved = url /\ URL.Status saved = "pending"
        /\ gorm.Valid (URL.DeletedAt saved) = false
        /\ URL.UpdatedAt saved = World.clock w)
    /\ ((Forall (fun r => URL.URL r ≠ url) (DB.urls (World.db w))
         /\ t' = DB.urls (World.db w) ++ [saved]
         /\ gorm.hasKey (DB.urls (World.db w)) (URL.ID saved) = false)
        \/ (exists existing,
              existing ∈ DB.urls (World.db w) /\ URL.URL existing = url
              /\ saved = resubmitted (World.clock w) existing
              /\ URL.ID <$> t' = URL.ID <$> DB.urls (World.db w))).
Proof.
  intros Hwf.
  pose proof (least_cases (fun r => String.eqb (URL.URL r) url)
                (DB.urls (World.db w))) as Hc.
  destruct (gorm.least _ _) as [existing|] eqn:Hleast.
  - destruct Hc as [Hin Hp]. apply String.eqb_eq in Hp.
    assert (URL.ID existing ≠ 0%N) as Hnz.
    { destruct Hwf as (Hnz & _). rewrite Forall_forall in Hnz. by apply Hnz. }
    rewrite (CreateURL_duplicate_path url w existing Hleast Hnz).
    assert (URL.ID (resubmitted (World.clock w) existing) = URL.ID existing) as Hid.
    { unfold resubmitted. by destruct (gorm.Valid _). }
    assert (URL.URL (resubmitted (World.clock w) existing) = URL.URL existing) as Hu.
    { unfold resubmitted. by destruct (gorm.Valid _). }
    destruct (wellFormedURLs_replace (DB.urls (World.db w)) existing
                (resubmitted (World.clock w) existing) Hwf Hin Hid Hu)
      as (Hwf' & Hids & _ & Hsaved).
    eexists _, _. split; [by rewrite Hid|].
    split; [exact Hwf'|]. split; [exact Hsaved|]. split.
    { rewrite Hu. split; [done|]. unfold resubmitted.
      by destruct (gorm.Valid (URL.DeletedAt existing)) eqn:Hv. }
    right. by exists existing.
  - assert (Forall (fun r => URL.URL r ≠ url) (DB.urls (World.db w))) as Hnew.
    { eapply Forall_impl; [exact Hc|]. intros r Hr. simpl in Hr.
      by apply String.eqb_neq. }
    rewrite (CreateURL_fresh_path url w Hnew). cbv zeta.
    match goal with |- context [ok ?s] => exists s end.
    eexists. split; [reflexivity|].
    destruct Hwf as (Hnz & Hids & Hurls).
    assert (gorm.nextID (DB.urls (World.db w)) ∉ URL.ID <$> DB.urls (World.db w))
      as Hfresh.
    { intros Hin. apply list_elem_of_fmap in Hin as (r & Hr & Hin).
      pose proof (nextID_fresh (DB.urls (World.db w))) as Hf.
      apply not_true_iff_false in Hf. apply Hf, hasKey_true. by exists r. }
    split; [|split; [|split; [done|]]].
    + split; [|split].
      * apply Forall_app. split; [done|]. constructor; [|done].
        apply (nextID_nonzero (A := URL.t)).
      * rewrite fmap_app. apply NoDup_app. split; [done|]. split.
        -- intros x Hx Hx'. simpl in Hx'. apply list_elem_of_singleton in Hx'.
           by subst x.
        -- apply NoDup_singleton.
      * rewrite fmap_app. apply NoDup_app. split; [done|]. split.
        -- intros x Hx Hx'. simpl in Hx'. apply list_elem_of_singleton in Hx'.
           subst x. apply list_elem_of_fmap in Hx as (r & Hr & Hin).
           rewrite Forall_forall in Hnew. by apply (Hnew r Hin).
        -- apply NoDup_singleton.
    + apply elem_of_app. right. by left.
    + left. split; [done|]. split; [done|].
      apply (nextID_fresh (DB.urls (World.db w))).
Qed.

(** X9.  On SQLite, whose unique index compares byte for byte and whose
    columns have no bound, submitting a string that no row of the urls
    table holds, not even a soft-deleted one: a row is appended under a
    key that is
    non-zero and not in use, holding the string as given, with status
    pending, no title, no HTML version, no login form, both times at the
    clock; the rows before it are untouched, as are the other tables; one
    crawl is started, for the new key. *)
Theorem CreateURL_new (url : string) (w : World.t) :
  DB.driver (World.db w) = gorm.SQLite ->
  Forall (fun r => URL.URL r ≠ url) (DB.urls (World.db w)) ->
  exists saved,
    CreateURL url w =
      (ok saved,
       World.set_db
         (DB.set_urls (DB.urls (World.db w) ++ [saved]) (World.db w)) w,
       [go_StartCrawl (URL.ID saved)])
    /\ (URL.ID saved ≠ 0%N
        /\ gorm.hasKey (DB.urls (World.db w)) (URL.ID saved) = false)
    /\ (URL.URL saved = url /\ URL.Status saved = "pending"
        /\ URL.Title saved = EmptyString /\ URL.HTMLVersion saved = EmptyString
        /\ URL.HasLoginForm saved = false
        /\ gorm.Valid (URL.DeletedAt saved) = false
        /\ URL.CreatedAt saved = World.clock w
        /\ URL.UpdatedAt saved = World.clock w).
Proof.
  intros _ Hnew. rewrite (CreateURL_fresh_path url w Hnew). cbv zeta.
  match goal with |- context [ok ?s] => exists s end.
  split; [reflexivity|]. simpl.
  split; [|by repeat split].
  split; [apply (nextID_nonzero (A := URL.t))|].
  apply (nextID_fresh (DB.urls (World.db w))).
Qed.

(** X10.  CreateURL keeps the urls table well formed: keys non-zero and
    distinct, URL strings distinct. *)
Theorem CreateURL_keeps_wellFormedURLs (url : string) (w : World.t) :
  wellFormedURLs (DB.urls (World.db w)) ->
  wellFormedURLs (DB.urls (World.db (snd (fst (CreateURL url w))))).
Proof.
  intros Hwf.
  by destruct (CreateURL_result url w Hwf) as (saved & t' & -> & Hwf' & _).
Qed.

(** X12.  On SQLite and a well-formed urls table, CreateURL succeeds
    and the record it returns can be read back: in the state it returns,
    before the crawl it starts has run, GetURL of the key finds that
    record, which holds the submitted string and is pending. *)
Theorem CreateURL_then_GetURL (url : string) (w : World.t) :
  DB.driver (World.db w) = gorm.SQLite ->
  wellFormedURLs (DB.urls (World.db w)) ->
  exists saved w' loaded,
    CreateURL url w = (ok saved, w', [go_StartCrawl (URL.ID saved)])
    /\ GetURL (URL.ID saved) w' = ok loaded
    /\ Record_ loaded = saved
    /\ URL.URL saved = url
    /\ URL.Status saved = "pending".
Proof.
  intros _ Hwf.
  destruct (CreateURL_result url w Hwf)
    as (saved & t' & Hfirst & (_ & Hnd & _) & Hin & (Hurl & Hst & Hv & _) & _).
  eexists saved, _, _. split; [exact Hfirst|].
  unfold GetURL. simpl.
  rewrite (First_URL_unique t' saved Hnd Hin Hv).
  split; [reflexivity|]. done.
Qed.

End URLs.

(** ** Deleting URLs *)

Section Deletion.

Import models services spec.
Context {env : Env}.

(** What the soft delete of key [id] makes of a row of the urls
    table. *)
Lemma Delete_URL_fmap (now : Z) (id : N) (t : list URL.t) :
  gorm.Delete now id t =
    (fun x => if N.eqb (URL.ID x) id && negb (gorm.Valid (URL.DeletedAt x))
              then URL.set_DeletedAt (gorm.mkDeletedAt now true) x else x) <$> t.
Proof. reflexivity. Qed.

Lemma Delete_URL_invisible (now : Z) (id : N) (t : list URL.t) :
  noVisibleURL id (gorm.Delete now id t).
Proof.
  rewrite Delete_URL_fmap. unfold noVisibleURL. apply Forall_fmap, Forall_forall.
  intros x _. simpl.
  destruct (N.eqb_spec (URL.ID x) id) as [He|He];
    destruct (gorm.Valid (URL.DeletedAt x)) eqn:Hv; simpl; intros; congruence.
Qed.

Lemma Delete_URL_none (now : Z) (id : N) (t : list URL.t) :
  noVisibleURL id t -> gorm.Delete now id t = t.
Proof.
  intros Hno. rewrite Delete_URL_fmap.
  induction Hno as [|x t Hx _ IH]; [done|].
  rewrite fmap_cons, IH. f_equal.
  destruct (N.eqb_spec (URL.ID x) id) as [He|He]; [|done].
  by rewrite (Hx He).
Qed.

Lemma Delete_URL_First_other (now : Z) (id id' : N) (t : list URL.t) :
  id' ≠ id -> gorm.First id' (gorm.Delete now id t) = gorm.First id' t.
Proof.
  intros Hne. rewrite Delete_URL_fmap. unfold gorm.First.
  rewrite (least_fmap (A := URL.t)).
  - pose proof (least_cases
                  (fun r : URL.t => N.eqb (gorm.primaryKey r) id'
                                    && negb (gorm.isDeleted r)) t) as Hc.
    destruct (gorm.least _ t) as [r|]; [|done].
    destruct Hc as [_ Hp]. apply andb_true_iff in Hp as [Hk _].
    apply N.eqb_eq in Hk. change (URL.ID r = id') in Hk. simpl.
    destruct (N.eqb_spec (URL.ID r) id) as [He|He]; [congruence|done].
  - intros x. change (gorm.primaryKey ?y) with (URL.ID y).
    change (gorm.isDeleted ?y) with (gorm.Valid (URL.DeletedAt y)).
    destruct (N.eqb_spec (URL.ID x) id) as [He|He]; [|done].
    destruct (gorm.Valid (URL.DeletedAt x)) eqn:Hv; simpl; [by rewrite Hv|].
    destruct (N.eqb_spec (URL.ID x) id'); [congruence|done].
  - intros x. change (gorm.primaryKey ?y) with (URL.ID y).
    by destruct (_ && _).
Qed.

Lemma GetURL_not_found (id : N) (w : World.t) :
  noVisibleURL id (DB.urls (World.db w)) -> GetURL id w = err "URL not found".
Proof.
  intros Hno. unfold GetURL.
  rewrite (First_none (A := URL.t) id (DB.urls (World.db w))); [done|exact Hno].
Qed.

(** X13.  DeleteURL of any key returns no error, and afterwards no row
    of the key is visible: GetURL of the key answers that the URL is not
    found and a crawl of the key changes nothing.  The row itself, the
    rows of the other keys and the crawls and links of the deleted URL
    all stay stored: no row is removed anywhere, and GetURL of any other
    key answers as before. *)
Theorem DeleteURL_hides_the_row (id : N) (w : World.t) :
  let w' := snd (DeleteURL id w) in
  fst (DeleteURL id w) = ok tt
  /\ noVisibleURL id (DB.urls (World.db w'))
  /\ GetURL id w' = err "URL not found"
  /\ StartCrawl id w' = w'
  /\ (URL.ID <$> DB.urls (World.db w') = URL.ID <$> DB.urls (World.db w)
      /\ DB.crawls (World.db w') = DB.crawls (World.db w)
      /\ DB.links (World.db w') = DB.links (World.db w)
      /\ World.requests w' = World.requests w)
  /\ (forall id', id' ≠ id -> GetURL id' w' = GetURL id' w).
Proof.
  intros w'. subst w'. unfold DeleteURL. simpl.
  pose proof (Delete_URL_invisible (World.clock w) id (DB.urls (World.db w))) as Hno.
  split; [done|]. split; [exact Hno|].
  split; [by apply GetURL_not_found|].
  split.
  { unfold StartCrawl. simpl.
    rewrite (First_none (A := URL.t) id
               (gorm.Delete (World.clock w) id (DB.urls (World.db w))));
      [done|exact Hno]. }
  split.
  { split; [|done]. rewrite Delete_URL_fmap, <- list_fmap_compose.
    apply list_fmap_ext. intros i x _. simpl. by destruct (_ && _). }
  intros id' Hne. unfold GetURL. simpl.
  by rewrite (Delete_URL_First_other _ _ _ _ Hne).
Qed.

(** X14.  DeleteURL of a key under which no row is visible (an unknown
    key, or a URL deleted before) returns no error and changes nothing;
    in particular a second delete keeps the time stamp of the first. *)
Theorem DeleteURL_missing (id : N) (w : World.t) :
  noVisibleURL id (DB.urls (World.db w)) ->
  fst (DeleteURL id w) = ok tt
  /\ DB.urls (World.db (snd (DeleteURL id w))) = DB.urls (World.db w)
  /\ snd (DeleteURL id (snd (DeleteURL id w))) = snd (DeleteURL id w).
Proof.
  intros Hno. unfold DeleteURL. simpl.
  split; [done|]. split; [by apply Delete_URL_none|].
  by rewrite (Delete_URL_none _ id (gorm.Delete _ id _))
    by apply Delete_URL_invisible.
Qed.

(** The rows of a well-formed table, one of them visible under the key,
    after the delete of the key. *)
Lemma Delete_URL_wellFormed (now : Z) (id : N) (t : list URL.t) (u : URL.t) :
  wellFormedURLs t -> u ∈ t -> URL.ID u = id ->
  gorm.Valid (URL.DeletedAt u) = false ->
  wellFormedURLs (gorm.Delete now id t)
  /\ URL.set_DeletedAt (gorm.mkDeletedAt now true) u ∈ gorm.Delete now id t
  /\ URL.ID <$> gorm.Delete now id t = URL.ID <$> t.
Proof.
  intros Hwf Hin Hid Hv. rewrite Delete_URL_fmap.
  match goal with
  | |- context [?f <$> t] =>
      destruct (wellFormedURLs_fmap f t) as (Hwf' & Hids & _); [|done|]
  end.
  { intros x _. by destruct (_ && _). }
  split; [done|]. split; [|done].
  apply list_elem_of_fmap. exists u. split; [|done].
  by rewrite Hid, N.eqb_refl, Hv.
Qed.

(** X15.  Deleting a URL and submitting its string again gives the URL
    back under its key: the record returned has the same key, string,
    title, HTML version, login-form flag and creation time, is pending
    and no longer deleted; it is the row GetURL of the key finds; no row
    is added; and one crawl is started for the key. *)
Theorem DeleteURL_then_CreateURL (id : N) (w : World.t) (u : URL.t) :
  wellFormedURLs (DB.urls (World.db w)) ->
  gorm.First id (DB.urls (World.db w)) = ok u ->
  exists saved w' loaded,
    CreateURL (URL.URL u) (snd (DeleteURL id w))
    = (ok saved, w', [go_StartCrawl id])
    /\ (URL.ID saved = id
        /\ URL.URL saved = URL.URL u
        /\ URL.Title saved = URL.Title u
        /\ URL.HTMLVersion saved = URL.HTMLVersion u
        /\ URL.HasLoginForm saved = URL.HasLoginForm u
        /\ URL.CreatedAt saved = URL.CreatedAt u
        /\ URL.Status saved = "pending"
        /\ gorm.Valid (URL.DeletedAt saved) = false)
    /\ (GetURL id w' = ok loaded /\ Record_ loaded = saved)
    /\ URL.ID <$> DB.urls (World.db w') = URL.ID <$> DB.urls (World.db w).
Proof.
  intros Hwf Hfirst.
  apply (First_ok (A := URL.t)) in Hfirst as (Hin & Hid & Hvis).
  change (URL.ID u = id) in Hid.
  change (gorm.Valid (URL.DeletedAt u) = false) in Hvis.
  destruct (Delete_URL_wellFormed (World.clock w) id (DB.urls (World.db w)) u
              Hwf Hin Hid Hvis) as (Hwf1 & Hin1 & Hids1).
  set (t1 := gorm.Delete (World.clock w) id (DB.urls (World.db w))) in *.
  set (d := URL.set_DeletedAt (gorm.mkDeletedAt (World.clock w) true) u) in *.
  pose proof Hwf1 as (Hnz1 & Hnd1 & Hurls1).
  pose proof (least_URL_unique t1 d Hurls1 Hin1) as Hleast.
  assert (URL.ID d ≠ 0%N) as Hdnz.
  { rewrite Forall_forall in Hnz1. by apply Hnz1. }
  unfold DeleteURL. simpl. fold t1.
  rewrite (CreateURL_duplicate_path (URL.URL u)
             (World.set_db (DB.set_urls t1 (World.db w)) w) d Hleast Hdnz).
  simpl.
  set (saved := resubmitted (World.clock w) d).
  assert (URL.ID saved = id) as Hsid by exact Hid.
  destruct (wellFormedURLs_replace t1 d saved Hwf1 Hin1 eq_refl eq_refl)
    as ((_ & Hnd2 & _) & Hids2 & _ & Hin2).
  pose proof (First_URL_unique _ saved Hnd2 Hin2 eq_refl) as Hf.
  rewrite Hsid in Hf.
  change (URL.ID d) with (URL.ID u) in *. rewrite Hid in *.
  eexists saved, _, _. split; [reflexivity|].
  split; [by rewrite <- Hid|].
  unfold GetURL. simpl. rewrite Hf.
  split; [done|]. by rewrite Hids2, Hids1.
Qed.

Lemma DeleteIn_URL_fold (now : Z) (ids : list N) (t : list URL.t) :
  fold_left (fun t id => gorm.Delete now id t) ids t =
    (fun x => if existsb (N.eqb (URL.ID x)) ids
                 && negb (gorm.Valid (URL.DeletedAt x))
              then URL.set_DeletedAt (gorm.mkDeletedAt now true) x else x) <$> t.
Proof.
  revert t. induction ids as [|id ids IH]; intros t; simpl.
  { by rewrite list_fmap_id. }
  rewrite IH, Delete_URL_fmap, <- list_fmap_compose.
  apply list_fmap_ext. intros i x _. simpl.
  destruct (N.eqb_spec (URL.ID x) id) as [He|He];
    destruct (gorm.Valid (URL.DeletedAt x)) eqn:Hv; simpl;
    rewrite ?Hv, ?andb_false_r; try done.
Qed.

Lemma DeleteURL_fold (ids : list N) (w : World.t) (t : list URL.t) :
  fold_left (fun w id => snd (DeleteURL id w)) ids
            (World.set_db (DB.set_urls t (World.db w)) w)
  = World.set_db
      (DB.set_urls (fold_left (fun t id => gorm.Delete (World.clock w) id t) ids t)
                   (World.db w)) w.
Proof.
  revert t. induction ids as [|id ids IH]; intros t; [done|].
  simpl. apply (IH (gorm.Delete (World.clock w) id t)).
Qed.

Lemma BulkDeleteURLs_cons (id : N) (ids : list N) (w : World.t) :
  BulkDeleteURLs (id :: ids) w
  = (ok tt, fold_left (fun w id => snd (DeleteURL id w)) (id :: ids) w).
Proof.
  unfold BulkDeleteURLs, gorm.DeleteIn. f_equal.
  change (fold_left (fun w id => snd (DeleteURL id w)) (id :: ids) w)
    with (fold_left (fun w id => snd (DeleteURL id w)) ids
            (World.set_db
               (DB.set_urls (gorm.Delete (World.clock w) id (DB.urls (World.db w)))
                            (World.db w)) w)).
  rewrite DeleteURL_fold.
  change (fold_left (fun t id => gorm.Delete (World.clock w) id t) ids
            (gorm.Delete (World.clock w) id (DB.urls (World.db w))))
    with (fold_left (fun t id => gorm.Delete (World.clock w) id t) (id :: ids)
            (DB.urls (World.db w))).
  by rewrite DeleteIn_URL_fold.
Qed.

(** X16.  BulkDeleteURLs of an empty list is refused by the database,
    for want of a condition, and changes nothing; of any other list it
    returns no error and does what deleting the URLs one by one, in the
    order of the list, does. *)
Theorem BulkDeleteURLs_as_DeleteURL (ids : list N) (w : World.t) :
  match ids with
  | [] =>
      BulkDeleteURLs ids w
      = (err "failed to bulk delete URLs: WHERE conditions required", w)
  | _ =>
      BulkDeleteURLs ids w
      = (ok tt, fold_left (fun w id => snd (DeleteURL id w)) ids w)
  end.
Proof.
  destruct ids as [|id ids]; [done|]. apply BulkDeleteURLs_cons.
Qed.

End Deletion.

(** ** Reading a URL *)

Section GetURL.

Import models services spec.

Lemma insertDesc_Permutation {A : Type} `{gorm.Model A} (key : A -> Z)
    (x : A) (l : list A) :
  gorm.insertDesc key x l ≡ₚ x :: l.
Proof.
  induction l as [|y l IH]; simpl; [done|].
  destruct (key y <=? key x); [done|].
  rewrite IH. apply Permutation_swap.
Qed.

Lemma orderDesc_Permutation {A : Type} `{gorm.Model A} (key : A -> Z)
    (t : list A) :
  gorm.orderDesc key t ≡ₚ t.
Proof.
  unfold gorm.orderDesc. induction t as [|x t IH]; simpl; [done|].
  by rewrite insertDesc_Permutation, IH.
Qed.

Lemma insertDesc_Sorted {A : Type} `{gorm.Model A} (key : A -> Z)
    (x : A) (l : list A) :
  StronglySorted (fun a b => key b <= key a) l ->
  StronglySorted (fun a b => key b <= key a) (gorm.insertDesc key x l).
Proof.
  induction 1 as [|y l Hs IH Hy]; simpl.
  { repeat constructor. }
  destruct (Z.leb_spec (key y) (key x)) as [Hle|Hgt].
  - constructor; [by constructor|].
    constructor; [done|].
    eapply Forall_impl; [exact Hy|]. intros z Hz. simpl in Hz. lia.
  - constructor; [exact IH|].
    rewrite insertDesc_Permutation. constructor; [lia|done].
Qed.

Lemma orderDesc_Sorted {A : Type} `{gorm.Model A} (key : A -> Z) (t : list A) :
  StronglySorted (fun a b => key b <= key a) (gorm.orderDesc key t).
Proof.
  unfold gorm.orderDesc. induction t as [|x t IH]; simpl; [constructor|].
  by apply insertDesc_Sorted.
Qed.

(** X17.  What GetURL answers: with no visible row under the key, the
    error that the URL is not found, and no other error; otherwise the
    visible row of the key, with the crawl rows of the URL, each once,
    none created later than the one before it, and with those link rows
    of the URL that are flagged inaccessible. *)
Theorem GetURL_loads (id : N) (w : World.t) :
  match GetURL id w with
  | err e =>
      e = "URL not found" /\ noVisibleURL id (DB.urls (World.db w))
  | ok loaded =>
      (Record_ loaded ∈ DB.urls (World.db w)
       /\ URL.ID (Record_ loaded) = id
       /\ gorm.Valid (URL.DeletedAt (Record_ loaded)) = false)
      /\ (Crawls loaded
            ≡ₚ filter (fun c => Crawl.URLID c = id) (DB.crawls (World.db w))
          /\ StronglySorted (fun a b => Crawl.CreatedAt b <= Crawl.CreatedAt a)
                            (Crawls loaded))
      /\ Links loaded =
           filter (fun l => Link.URLID l = id /\ Link.IsAccessible l = false)
                  (DB.links (World.db w))
  end.
Proof.
  unfold GetURL.
  destruct (gorm.First id (DB.urls (World.db w))) as [url|e] eqn:Hfirst.
  - apply (First_ok (A := URL.t)) in Hfirst as (Hin & Hid & Hvis).
    change (URL.ID url = id) in Hid. simpl. rewrite Hid.
    split; [done|]. split; [|done].
    split; [apply orderDesc_Permutation|apply orderDesc_Sorted].
  - apply (First_err (A := URL.t)) in Hfirst as [-> Hno]. simpl. done.
Qed.

(** X18.  What GetURLLinks answers for a limit of at least 1 and an
    offset of at least 0: the error that the URL is not found exactly when
    no row of the key is visible; otherwise the total counts every link
    row of the URL that passes the type filter, whatever the page; the
    page holds such rows only, none created later than the one before it,
    and as many as the limit allows of those past the offset. *)
Theorem GetURLLinks_page (urlID : N) (linkType : string) (limit offset : Z)
    (w : World.t) :
  1 <= limit -> 0 <= offset ->
  match GetURLLinks urlID linkType limit offset w with
  | err e => e = "URL not found" /\ noVisibleURL urlID (DB.urls (World.db w))
  | ok (links, total) =>
      total = Z.of_nat (length (filter
                (fun l => Link.URLID l = urlID /\ linkTypeFilter linkType l = true)
                (DB.links (World.db w))))
      /\ Z.of_nat (length links) = Z.min limit (Z.max 0 (total - offset))
      /\ Forall (fun l => l ∈ DB.links (World.db w)
                          /\ Link.URLID l = urlID
                          /\ linkTypeFilter linkType l = true) links
      /\ StronglySorted (fun a b => Link.CreatedAt b <= Link.CreatedAt a) links
  end.
Proof.
  intros Hlimit Hoffset. unfold GetURLLinks.
  destruct (gorm.First urlID (DB.urls (World.db w))) as [url|e] eqn:Hfirst.
  2:{ apply (First_err (A := URL.t)) in Hfirst as [-> Hno]. done. }
  set (query := filter _ (DB.links (World.db w))).
  pose proof (orderDesc_Permutation (A := Link.t) Link.CreatedAt query) as Hperm.
  pose proof (orderDesc_Sorted (A := Link.t) Link.CreatedAt query) as Hsorted.
  set (ordered := gorm.orderDesc Link.CreatedAt query) in *.
  split; [done|]. split.
  { rewrite length_take, length_drop, <- (Permutation_length Hperm). lia. }
  split.
  - apply Forall_forall. intros l Hl.
    assert (l ∈ query) as Hq.
    { rewrite <- Hperm.
      apply (subseteq_drop (Z.to_nat offset)), (subseteq_take (Z.to_nat limit)), Hl. }
    apply list_elem_of_filter in Hq as [[? ?] ?]. done.
  - eapply StronglySorted_app_1_l. rewrite take_drop.
    eapply StronglySorted_app_1_r. rewrite take_drop. exact Hsorted.
Qed.

End GetURL.

(** ** The URL handlers *)

Section Handlers.

Import models.




End Handlers.

Section HandlersOnTheStore.

Import models spec.
Context {env : Env}.

(** X20.  DELETE of a URL and then GET of it: with an ID that is no
    decimal numeral below 2^32 both answer 400 and nothing changes;
    otherwise DELETE answers 200, whether or not there was such a URL,
    GET then answers 404, and a second DELETE answers like the first and
    changes nothing more. *)
Theorem DeleteURL_then_GetURL (idStr : string) (w : World.t) :
  let resp := fst (handlers.DeleteURL idStr w) in
  let w' := snd (handlers.DeleteURL idStr w) in
  match strconv.ParseUint idStr 32 with
  | None =>
      handlers.Code resp = 400 /\ w' = w
      /\ handlers.Code (handlers.GetURL idStr w') = 400
  | Some id =>
      resp = handlers.messageResponse "URL deleted successfully"
      /\ handlers.Code resp = 200
      /\ handlers.GetURL idStr w'
         = handlers.errorResponse 404 "URL not found"
             "The requested URL does not exist"
      /\ handlers.DeleteURL idStr w' = (resp, w')
  end.
Proof.
  intros resp w'. subst resp w'.
  unfold handlers.DeleteURL, handlers.GetURL.
  destruct (strconv.ParseUint idStr 32) as [id|] eqn:Hid; [|done].
  unfold services.DeleteURL. simpl.
  split; [done|]. split; [done|].
  pose proof (Delete_URL_invisible (World.clock w) id (DB.urls (World.db w))) as Hno.
  split.
  - rewrite GetURL_not_found; [done|exact Hno].
  - by rewrite (Delete_URL_none _ id (gorm.Delete _ id _)).
Qed.

(** X21.  The bulk delete handler answers 400 or 200 and nothing else:
    400, changing nothing, for a body that does not bind or binds to no
    ID; 200 otherwise, the URLs of the list deleted one by one.  The
    refusal of an empty list by the database is never reached, and with
    it no 500. *)
Theorem BulkDeleteURLs_responses (bind : Result (list N)) (w : World.t) :
  let resp := fst (handlers.BulkDeleteURLs bind w) in
  let w' := snd (handlers.BulkDeleteURLs bind w) in
  match bind with
  | err _ | ok [] => handlers.Code resp = 400 /\ w' = w
  | ok ids =>
      resp = handlers.messageResponse "URLs deleted successfully"
      /\ handlers.Code resp = 200
      /\ w' = fold_left (fun w id => snd (services.DeleteURL id w)) ids w
  end.
Proof.
  intros resp w'. subst resp w'. unfold handlers.BulkDeleteURLs.
  destruct bind as [[|id ids]|e]; [done| |done].
  change (length (id :: ids) =? 0)%nat with false. cbv iota.
  by rewrite BulkDeleteURLs_cons.
Qed.

(** X22.  The handler of a submission, on SQLite and a well-formed urls
    table: 400, changing nothing and starting nothing, for a body that
    does not bind; otherwise 201 with the record, which holds the
    submitted string and is pending, and one crawl started for its key,
    also when the string was submitted before or its URL deleted.  There
    it never answers 500.  (Under MySQL the column of the URL is bounded
    and compared without regard to case, and a string too long for it is
    answered 500.) *)
Theorem CreateURL_responses (bind : Result string) (w : World.t) :
  DB.driver (World.db w) = gorm.SQLite ->
  wellFormedURLs (DB.urls (World.db w)) ->
  match bind with
  | err e =>
      handlers.CreateURL bind w
      = (handlers.errorResponse 400 "Invalid request body" e, w, [])
  | ok url =>
      exists saved w',
        handlers.CreateURL bind w
        = (handlers.mkResponse 201
             (<["data" := handlers.Data (services.mkLoadedURL saved [] [])]>
                (<["message" := handlers.Str "URL created and crawling started"]>
                   ∅)),
           w', [services.go_StartCrawl (URL.ID saved)])
        /\ URL.URL saved = url
        /\ URL.Status saved = "pending"
        /\ gorm.First (URL.ID saved) (DB.urls (World.db w')) = ok saved
  end.
Proof.
  intros _ Hwf. destruct bind as [url|e]; [|done].
  destruct (CreateURL_result url w Hwf)
    as (saved & t' & Hcreate & (_ & Hnd & _) & Hin & (Hurl & Hst & Hv & _) & _).
  exists saved. eexists. unfold handlers.CreateURL. rewrite Hcreate.
  split; [reflexivity|]. split; [done|]. split; [done|].
  exact (First_URL_unique t' saved Hnd Hin Hv).
Qed.

End HandlersOnTheStore.

(** ** From a submission to its crawl *)

Section Submission.

Import models services spec.
Context {env : Env}.

(** A crawl keeps the urls table well formed, with the keys and the URL
    strings of its rows. *)
Lemma StartCrawl_keeps_URLs (urlID : N) (w : World.t) :
  wellFormedURLs (DB.urls (World.db w)) ->
  wellFormedURLs (DB.urls (World.db (StartCrawl urlID w)))
  /\ URL.ID <$> DB.urls (World.db (StartCrawl urlID w))
     = URL.ID <$> DB.urls (World.db w)
  /\ URL.URL <$> DB.urls (World.db (StartCrawl urlID w))
     = URL.URL <$> DB.urls (World.db w).
Proof.
  intros Hwf.
  destruct (gorm.First urlID (DB.urls (World.db w))) as [u|e] eqn:Hfirst.
  2:{ unfold StartCrawl. by rewrite Hfirst. }
  pose proof (First_ok (A := URL.t) _ _ _ Hfirst) as (Hin & Hid & Hvis).
  change (URL.ID u = urlID) in Hid.
  change (gorm.Valid (URL.DeletedAt u) = false) in Hvis.
  assert (urlID ≠ 0%N) as Hnz.
  { destruct Hwf as (Hnz & _). rewrite Forall_forall in Hnz.
    rewrite <- Hid. by apply Hnz. }
  destruct (StartCrawl_shape urlID w u Hfirst Hnz)
    as (c' & u' & _ & _ & _ & Hurls & (_ & Hu_id & Hu_url & _) & _).
  rewrite Hurls.
  set (upd := fun x : URL.t =>
                if N.eqb (URL.ID x) urlID && negb (gorm.isDeleted x)
                then URL.set_UpdatedAt (World.clock w) (URL.set_Status "running" x)
                else x).
  destruct (wellFormedURLs_fmap upd (DB.urls (World.db w)))
    as (Hwf_upd & Hids_upd & Hurls_upd); [|exact Hwf|].
  { intros x _. unfold upd. by destruct (_ && _). }
  set (e := URL.set_UpdatedAt (World.clock w) (URL.set_Status "running" u)).
  assert (e ∈ upd <$> DB.urls (World.db w)) as He.
  { apply list_elem_of_fmap. exists u. split; [|done].
    unfold upd. change (gorm.isDeleted u) with (gorm.Valid (URL.DeletedAt u)).
    by rewrite Hid, N.eqb_refl, Hvis. }
  assert (URL.ID u' = URL.ID e) as Hid' by (by rewrite Hu_id).
  destruct (wellFormedURLs_replace (upd <$> DB.urls (World.db w)) e u'
              Hwf_upd He Hid' Hu_url) as (Hwf2 & Hids2 & Hurls2 & _).
  change (URL.ID e) with (URL.ID u) in Hwf2, Hids2, Hurls2.
  rewrite Hid in Hwf2, Hids2, Hurls2.
  split; [exact Hwf2|]. split; congruence.
Qed.

Lemma crawls_keep_URLs (crawled : list N) (w : World.t) :
  wellFormedURLs (DB.urls (World.db w)) ->
  let later := fold_left (fun w id => StartCrawl id w) crawled w in
  wellFormedURLs (DB.urls (World.db later))
  /\ URL.ID <$> DB.urls (World.db later) = URL.ID <$> DB.urls (World.db w)
  /\ URL.URL <$> DB.urls (World.db later) = URL.URL <$> DB.urls (World.db w).
Proof.
  revert w. induction crawled as [|id crawled IH]; intros w Hwf; simpl; [done|].
  destruct (StartCrawl_keeps_URLs id w Hwf) as (Hwf1 & Hids1 & Hurls1).
  destruct (IH _ Hwf1) as (Hwf2 & Hids2 & Hurls2).
  split; [exact Hwf2|]. split; congruence.
Qed.

(** X11.  On SQLite and a well-formed urls table, the same string is
    submitted twice, the second time at any clock and after any crawls
    have run in between, one after the other: both calls succeed; the
    second returns a record under the key of the first, holding the
    string, pending and not deleted, which is the row of that key
    afterwards; no row is added; each call starts one crawl for that key.
    When no crawl ran in between, the second record is the first with
    only its update time changed. *)
Theorem CreateURL_twice (url : string) (w : World.t) (crawled : list N)
    (now' : Z) :
  DB.driver (World.db w) = gorm.SQLite ->
  wellFormedURLs (DB.urls (World.db w)) ->
  exists saved w1 again w2,
    CreateURL url w = (ok saved, w1, [go_StartCrawl (URL.ID saved)])
    /\ (let later := fold_left (fun w id => StartCrawl id w) crawled w1 in
        CreateURL url (World.mk now' (World.requests later) (World.db later))
        = (ok again, w2, [go_StartCrawl (URL.ID saved)]))
    /\ (URL.ID again = URL.ID saved
        /\ URL.URL again = url
        /\ URL.Status again = "pending"
        /\ gorm.Valid (URL.DeletedAt again) = false)
    /\ URL.ID <$> DB.urls (World.db w2) = URL.ID <$> DB.urls (World.db w1)
    /\ gorm.row (URL.ID saved) (DB.urls (World.db w2)) = Some again
    /\ (crawled = [] -> again = URL.set_UpdatedAt now' saved).
Proof.
  intros _ Hwf.
  destruct (CreateURL_result url w Hwf)
    as (saved & t' & Hfirst & Hwf' & Hin & (Hurl & Hst & Hv & _) & _).
  set (w1 := World.set_db (DB.set_urls t' (World.db w)) w) in *.
  destruct (crawls_keep_URLs crawled w1 Hwf') as (Hwf_l & Hids_l & Hurls_l).
  set (later := fold_left (fun w id => StartCrawl id w) crawled w1) in *.
  change (DB.urls (World.db w1)) with t' in Hids_l, Hurls_l.
  (* the row of the string after the crawls *)
  apply list_elem_of_lookup in Hin as [i Hi].
  assert (exists e, DB.urls (World.db later) !! i = Some e
                    /\ URL.ID e = URL.ID saved /\ URL.URL e = url)
    as (e & He & He_id & He_url).
  { pose proof (f_equal (fun l => l !! i) Hids_l) as Hi_id.
    pose proof (f_equal (fun l => l !! i) Hurls_l) as Hi_url.
    cbv beta in Hi_id, Hi_url.
    rewrite !list_lookup_fmap in Hi_id. rewrite !list_lookup_fmap in Hi_url.
    rewrite Hi in Hi_id, Hi_url.
    destruct (DB.urls (World.db later) !! i) as [e|]; [|discriminate].
    simpl in Hi_id, Hi_url. exists e.
    split; [done|]. split; congruence. }
  apply list_elem_of_lookup_2 in He.
  pose proof Hwf_l as (Hnz_l & Hnd_l & Hnd_url_l).
  assert (URL.ID e ≠ 0%N) as He_nz.
  { rewrite Forall_forall in Hnz_l. by apply Hnz_l. }
  pose proof (least_URL_unique _ e Hnd_url_l He) as Hleast.
  rewrite He_url in Hleast.
  set (w1' := World.mk now' (World.requests later) (World.db later)).
  pose proof (CreateURL_duplicate_path url w1' e Hleast He_nz) as Hsecond.
  cbv zeta in Hsecond. change (World.clock w1') with now' in Hsecond.
  assert (URL.ID (resubmitted now' e) = URL.ID e) as Hrid.
  { unfold resubmitted. destruct (gorm.Valid (URL.DeletedAt e)); reflexivity. }
  assert (URL.URL (resubmitted now' e) = URL.URL e) as Hrurl.
  { unfold resubmitted. destruct (gorm.Valid (URL.DeletedAt e)); reflexivity. }
  destruct (wellFormedURLs_replace _ e (resubmitted now' e) Hwf_l He Hrid Hrurl)
    as ((_ & Hnd2 & _) & Hids2 & _ & Hin2).
  pose proof (row_URL_unique _ _ Hnd2 Hin2) as Hrow2. rewrite Hrid in Hrow2.
  exists saved, w1, (resubmitted now' e). eexists.
  split; [exact Hfirst|].
  split; [rewrite <- He_id; exact Hsecond|].
  split.
  { rewrite Hrid, Hrurl, He_id, He_url. split; [done|]. split; [done|].
    unfold resubmitted.
    destruct (gorm.Valid (URL.DeletedAt e)) eqn:He_v; simpl; by split. }
  split.
  { simpl. rewrite Hids2. exact Hids_l. }
  split.
  { simpl. rewrite <- He_id. exact Hrow2. }
  intros ->. simpl in later. subst later.
  assert (e = saved) as ->.
  { destruct Hwf' as (_ & _ & Hnd_url).
    apply (NoDup_fmap_eq URL.URL t' e saved Hnd_url He); [|congruence].
    by eapply list_elem_of_lookup_2. }
  unfold resubmitted. rewrite Hv. destruct saved. simpl in *. by subst.
Qed.

(** X23.  On SQLite and a well-formed urls table, a URL is submitted
    and the crawl this starts is run, alone: the urls table is still well
    formed, and GetURL of the key returned finds the URL, holding the
    submitted string, with the status of the crawl, completed or error
    and no longer pending, and among its crawls the one just run,
    completed at the time of the clock. *)
Theorem CreateURL_then_StartCrawl (url : string) (w : World.t) :
  DB.driver (World.db w) = gorm.SQLite ->
  wellFormedURLs (DB.urls (World.db w)) ->
  exists saved w1 loaded c,
    CreateURL url w = (ok saved, w1, [go_StartCrawl (URL.ID saved)])
    /\ wellFormedURLs (DB.urls (World.db (StartCrawl (URL.ID saved) w1)))
    /\ GetURL (URL.ID saved) (StartCrawl (URL.ID saved) w1) = ok loaded
    /\ URL.URL (Record_ loaded) = url
    /\ (URL.Status (Record_ loaded) = "completed"
        \/ URL.Status (Record_ loaded) = "error")
    /\ c ∈ Crawls loaded
    /\ Crawl.Status c = URL.Status (Record_ loaded)
    /\ Crawl.URLID c = URL.ID saved
    /\ Crawl.CompletedAt c = Some (World.clock w).
Proof.
  intros _ Hwf.
  destruct (CreateURL_result url w Hwf)
    as (saved & t' & Hcreate & Hwf' & Hin & (Hurl & Hst & Hv & _) & _).
  pose proof Hwf' as (Hnz & Hnd & _).
  assert (URL.ID saved ≠ 0%N) as Hid.
  { rewrite Forall_forall in Hnz. by apply Hnz. }
  set (w1 := World.set_db (DB.set_urls t' (World.db w)) w) in *.
  pose proof (First_URL_unique t' saved Hnd Hin Hv) as Hfirst.
  destruct (StartCrawl_shape (URL.ID saved) w1 saved Hfirst Hid)
    as (c' & u' & Hcrawls & (_ & _ & Hc_url & _ & Hc_done) & Hstatus & Hurls
        & (Hu_st & Hu_id & Hu_url & _ & Hu_del) & _).
  set (w2 := StartCrawl (URL.ID saved) w1) in *.
  set (upd := fun x : URL.t =>
                if N.eqb (URL.ID x) (URL.ID saved) && negb (gorm.isDeleted x)
                then URL.set_UpdatedAt (World.clock w1) (URL.set_Status "running" x)
                else x) in *.
  destruct (wellFormedURLs_fmap upd t') as (Hwf_upd & _ & _); [|exact Hwf'|].
  { intros x _. unfold upd. by destruct (_ && _). }
  set (e := URL.set_UpdatedAt (World.clock w1) (URL.set_Status "running" saved)).
  assert (e ∈ upd <$> t') as He.
  { apply list_elem_of_fmap. exists saved. split; [|done].
    unfold upd. change (gorm.isDeleted saved) with (gorm.Valid (URL.DeletedAt saved)).
    by rewrite N.eqb_refl, Hv. }
  destruct (wellFormedURLs_replace (upd <$> t') e u' Hwf_upd He Hu_id Hu_url)
    as (Hwf2 & _ & _ & Hin2).
  change (URL.ID e) with (URL.ID saved) in Hwf2, Hin2.
  change (DB.urls (World.db w1)) with t' in Hurls.
  rewrite <- Hurls in Hwf2, Hin2.
  exists saved, w1, (mkLoadedURL u'
    (gorm.orderDesc Crawl.CreatedAt
       (filter (fun c => Crawl.URLID c = URL.ID u') (DB.crawls (World.db w2))))
    (filter (fun l => Link.URLID l = URL.ID u' /\ Link.IsAccessible l = false)
            (DB.links (World.db w2)))), c'.
  change (StartCrawl (URL.ID saved) w1) with w2.
  split; [exact Hcreate|]. split; [exact Hwf2|].
  split.
  { unfold GetURL. rewrite <- Hu_id.
    destruct Hwf2 as (_ & Hnd2 & _).
    rewrite (First_URL_unique _ u' Hnd2 Hin2); [done|].
    by rewrite Hu_del. }
  clearbody w2.
  simpl. split; [by rewrite Hu_url|].
  split.
  { rewrite Hu_st. destruct Hstatus as [[_ ->]|[_ ->]]; [by right|by left]. }
  split.
  { rewrite (orderDesc_Permutation (A := Crawl.t)), Hcrawls.
    apply list_elem_of_filter. split; [by rewrite Hu_id|].
    apply elem_of_app. right. by left. }
  by rewrite Hu_st.
Qed.

End Submission.

(** ** The status of a crawl *)

Section Status.

Import models services spec.
Context {env : Env}.
Variable json_Unmarshal : string -> HeadingCounts.t -> HeadingCounts.t.

(** The head of a list in descending order is a greatest element. *)
Lemma head_orderDesc {A : Type} `{gorm.Model A} (key : A -> Z) (t : list A) :
  match head (gorm.orderDesc key t) with
  | None => t = []
  | Some x => x ∈ t /\ Forall (fun y => key y <= key x) t
  end.
Proof.
  pose proof (orderDesc_Permutation key t) as Hp.
  pose proof (orderDesc_Sorted key t) as Hs.
  destruct (gorm.orderDesc key t) as [|x l]; simpl.
  - by apply Permutation_nil_l in Hp.
  - split.
    + rewrite <- Hp. by left.
    + rewrite <- Hp. apply StronglySorted_inv in Hs as [_ Hx].
      constructor; [lia|done].
Qed.

(** X24.  What GetCrawlStatus answers: the error that the URL is not
    found exactly when no row of the key is visible; for a URL without a
    crawl, the key of the URL with status pending, all counts zero and no
    heading counts; otherwise the key, status, link counts, times and
    error message of a crawl of the URL than which none was created
    later, together with the URL string. *)
Theorem GetCrawlStatus_reports (urlID : N) (w : World.t) :
  match GetCrawlStatus json_Unmarshal urlID w with
  | err e => e = "URL not found" /\ noVisibleURL urlID (DB.urls (World.db w))
  | ok status =>
      exists url,
        gorm.First urlID (DB.urls (World.db w)) = ok url
        /\ CrawlStatusResponse.URL status = URL.URL url
        /\ ((Forall (fun c => Crawl.URLID c ≠ urlID) (DB.crawls (World.db w))
             /\ status = CrawlStatusResponse.mk urlID (URL.URL url) "pending"
                           0 0 0 None None None EmptyString)
            \/ (exists crawl,
                  (crawl ∈ DB.crawls (World.db w)
                   /\ Crawl.URLID crawl = urlID
                   /\ Forall (fun c => Crawl.URLID c = urlID ->
                                       Crawl.CreatedAt c <= Crawl.CreatedAt crawl)
                             (DB.crawls (World.db w)))
                  /\ CrawlStatusResponse.ID status = Crawl.ID crawl
                  /\ CrawlStatusResponse.Status status = Crawl.Status crawl
                  /\ CrawlStatusResponse.InternalLinks status
                     = Crawl.InternalLinks crawl
                  /\ CrawlStatusResponse.ExternalLinks status
                     = Crawl.ExternalLinks crawl
                  /\ CrawlStatusResponse.BrokenLinks status
                     = Crawl.BrokenLinks crawl
                  /\ CrawlStatusResponse.StartedAt status = Crawl.StartedAt crawl
                  /\ CrawlStatusResponse.CompletedAt status
                     = Crawl.CompletedAt crawl
                  /\ CrawlStatusResponse.ErrorMessage status
                     = Crawl.ErrorMessage crawl
                  /\ is_Some (CrawlStatusResponse.HeadingCounts status)))
  end.
Proof.
  unfold GetCrawlStatus.
  destruct (gorm.First urlID (DB.urls (World.db w))) as [url|e] eqn:Hfirst.
  2:{ apply (First_err (A := URL.t)) in Hfirst as [_ Hno]. done. }
  apply (First_ok (A := URL.t)) in Hfirst as (_ & Hid & _).
  change (URL.ID url = urlID) in Hid. rewrite Hid.
  pose proof (head_orderDesc (A := Crawl.t) Crawl.CreatedAt
                (filter (fun c => Crawl.URLID c = urlID)
                        (DB.crawls (World.db w)))) as Hhead.
  destruct (head _) as [crawl|].
  - destruct Hhead as [Hin Hmax].
    apply list_elem_of_filter in Hin as [Hurl Hin].
    exists url. split; [done|]. split; [done|]. right. exists crawl.
    split.
    { split; [done|]. split; [done|].
      apply Forall_forall. intros c Hc Hcu.
      rewrite Forall_forall in Hmax. apply Hmax.
      by apply list_elem_of_filter. }
    simpl. by repeat split.
  - exists url. split; [done|]. split; [done|]. left. split; [|done].
    apply Forall_forall. intros c Hc Hcu.
    assert (c ∈ filter (fun c => Crawl.URLID c = urlID) (DB.crawls (World.db w)))
      as Hf by by apply list_elem_of_filter.
    rewrite Hhead in Hf. by apply elem_of_nil in Hf.
Qed.

(** X25.  After a crawl of a visible URL row with a non-zero key whose
    earlier crawls were all created before the time of the clock,
    GetCrawlStatus reports that crawl: its key, a status of error when
    the fetch failed and of completed when it yielded a document, and its
    completion at the time of the clock. *)
Theorem StartCrawl_then_GetCrawlStatus (urlID : N) (w : World.t) (u : URL.t) :
  gorm.First urlID (DB.urls (World.db w)) = ok u ->
  urlID ≠ 0%N ->
  NoDup (URL.ID <$> DB.urls (World.db w)) ->
  Forall (fun c => Crawl.URLID c = urlID -> Crawl.CreatedAt c < World.clock w)
         (DB.crawls (World.db w)) ->
  exists status,
    GetCrawlStatus json_Unmarshal urlID (StartCrawl urlID w) = ok status
    /\ CrawlStatusResponse.URL status = URL.URL u
    /\ gorm.hasKey (DB.crawls (World.db w)) (CrawlStatusResponse.ID status) = false
    /\ ((fetchFails u w /\ CrawlStatusResponse.Status status = "error")
        \/ ((exists doc, fetchYields u w doc)
            /\ CrawlStatusResponse.Status status = "completed"))
    /\ CrawlStatusResponse.StartedAt status = Some (World.clock w)
    /\ CrawlStatusResponse.CompletedAt status = Some (World.clock w).
Proof.
  intros Hfirst Hnz Hnd Hold.
  destruct (StartCrawl_shape urlID w u Hfirst Hnz)
    as (c' & u' & Hcrawls & (_ & Hfresh & Hc_url & Hc_start & Hc_done) & Hstatus
        & Hurls & (_ & Hu_id & Hu_url & _ & Hu_del) & _ & Hc_created).
  apply (First_ok (A := URL.t)) in Hfirst as (Hin & Hid & Hvis).
  change (URL.ID u = urlID) in Hid.
  change (gorm.Valid (URL.DeletedAt u) = false) in Hvis.
  set (w' := StartCrawl urlID w) in *.
  (* the URL row after the crawl *)
  set (upd := fun x : URL.t =>
                if N.eqb (URL.ID x) urlID && negb (gorm.isDeleted x)
                then URL.set_UpdatedAt (World.clock w) (URL.set_Status "running" x)
                else x) in *.
  assert (NoDup (URL.ID <$> DB.urls (World.db w')) /\ u' ∈ DB.urls (World.db w'))
    as [Hnd' Hin'].
  { rewrite Hurls. split.
    - rewrite <- !list_fmap_compose.
      erewrite list_fmap_ext; [exact Hnd|]. intros i x _. simpl.
      destruct (N.eqb_spec (URL.ID (upd x)) urlID) as [He|He]; simpl.
      + rewrite Hu_id, <- He. unfold upd. by destruct (_ && _).
      + unfold upd. by destruct (_ && _).
    - apply list_elem_of_fmap. exists (upd u). split.
      + assert (URL.ID (upd u) = urlID) as ->; [|by rewrite N.eqb_refl].
        unfold upd. by destruct (_ && _).
      + apply list_elem_of_fmap. by exists u. }
  pose proof (First_URL_unique _ u' Hnd' Hin' ltac:(by rewrite Hu_del)) as Hfirst'.
  rewrite Hu_id in Hfirst'.
  unfold GetCrawlStatus. rewrite Hfirst', Hu_id, Hcrawls.
  pose proof (head_orderDesc (A := Crawl.t) Crawl.CreatedAt
                (filter (fun c => Crawl.URLID c = urlID)
                        (DB.crawls (World.db w) ++ [c']))) as Hhead.
  assert (c' ∈ filter (fun c => Crawl.URLID c = urlID)
                      (DB.crawls (World.db w) ++ [c'])) as Hc'.
  { apply list_elem_of_filter. split; [done|]. apply elem_of_app. right. by left. }
  destruct (head _) as [crawl|]; [|rewrite Hhead in Hc'; by apply elem_of_nil in Hc'].
  destruct Hhead as [Hcin Hmax].
  assert (crawl = c') as ->.
  { apply list_elem_of_filter in Hcin as [Hcu Hcin].
    apply elem_of_app in Hcin as [Hcin|Hcin].
    - exfalso. rewrite Forall_forall in Hold, Hmax.
      specialize (Hold crawl Hcin Hcu). specialize (Hmax c' Hc'). simpl in Hmax.
      lia.
    - by apply list_elem_of_singleton in Hcin. }
  eexists. split; [reflexivity|]. simpl.
  by rewrite Hu_url.
Qed.

End Status.

(** ** The further properties on the sample web *)

Lemma world0_wellFormedURLs :
  spec.wellFormedURLs (DB.urls (World.db sample.world0)).
Proof.
  split; [|split].
  - repeat constructor. discriminate.
  - apply NoDup_singleton.
  - apply NoDup_singleton.
Qed.

(** X4 on the sample page: its base URL parses, and the links extracted
    come from its four anchors with an href that parses. *)
Lemma traverseHTML_Links_witness :
  Forall2 spec.probedFrom
    (omap (spec.anchorLink (env := sample.env) sample.sampleBase)
          (spec.preorder sample.page))
    (services.CrawlData.Links
       (fst (services.extractData (env := sample.env) sample.page
               "https://example.com" sample.world0))).
Proof.
  apply (traverseHTML_Links (env := sample.env) sample.page
           services.newCrawlData sample.sampleBase).
  reflexivity.
Defined.

(** X5 on the sample page: the third link, whose HEAD answers 404 after
    the HEAD of the second. *)
Lemma checkLinkAccessibility_outcome_witness :
  let data := services.traverseHTML (env := sample.env) sample.page
                services.newCrawlData sample.sampleBase in
  exists l',
    services.CrawlData.Links
      (fst (services.checkLinkAccessibility (env := sample.env) data sample.world0))
    !! 2%nat = Some l'
    /\ models.Link.LinkURL l' = "https://gone.example.org/x"
    /\ models.Link.StatusCode l' = 404
    /\ models.Link.IsAccessible l' = false.
Proof.
  intros data.
  destruct (checkLinkAccessibility_outcome (env := sample.env) data sample.world0 2
              (models.Link.mk 0 0 0 "https://gone.example.org/x" "Gone" "external"
                              0 true 0) eq_refl)
    as (l' & Hl' & (_ & _ & _ & Hurl & _) & _ & Hext).
  exists l'. split; [exact Hl'|]. split; [exact Hurl|].
  specialize (Hext ltac:(discriminate)). vm_compute in Hext. exact Hext.
Defined.

(** X6 on the sample database, which has no URL of key 7. *)
Lemma StartCrawl_no_visible_URL_witness :
  services.StartCrawl (env := sample.env) 7 sample.world0 = sample.world0.
Proof.
  apply (StartCrawl_no_visible_URL (env := sample.env) 7 sample.world0).
  repeat constructor. discriminate.
Defined.

(** X7 on the sample database: the crawl of its one URL. *)
Lemma StartCrawl_outcome_witness :
  exists c' u',
    DB.crawls (World.db (services.StartCrawl (env := sample.env) 1 sample.world0))
    = DB.crawls (World.db sample.world0) ++ [c']
    /\ gorm.row 1 (DB.urls (World.db
                     (services.StartCrawl (env := sample.env) 1 sample.world0)))
       = Some u'
    /\ models.URL.Status u' = models.Crawl.Status c'.
Proof.
  destruct (StartCrawl_outcome (env := sample.env) 1 sample.world0 sample.exampleURL
              eq_refl ltac:(discriminate))
    as (c' & u' & Hcrawls & _ & _ & Hrow & (Hst & _) & _).
  exists c', u'. split; [exact Hcrawls|]. split; [exact Hrow|exact Hst].
Defined.

(** X8 on the sample database, whose page has two broken links. *)
Lemma StartCrawl_stores_links_accessible_witness :
  spec.allAccessible
    (DB.links (World.db (services.StartCrawl (env := sample.env) 1 sample.world0)))
  /\ length (DB.links (World.db
               (services.StartCrawl (env := sample.env) 1 sample.world0))) = 4%nat.
Proof.
  split; [|reflexivity].
  apply (StartCrawl_stores_links_accessible (env := sample.env) 1 sample.world0).
  constructor.
Defined.

(** X9 on the sample database, which does not hold the string. *)
Lemma CreateURL_new_witness :
  exists saved,
    services.CreateURL "https://new.example.org" sample.world0
    = (ok saved,
       World.set_db
         (DB.set_urls (DB.urls (World.db sample.world0) ++ [saved])
                      (World.db sample.world0)) sample.world0,
       [services.go_StartCrawl (models.URL.ID saved)])
    /\ models.URL.Status saved = "pending".
Proof.
  destruct (CreateURL_new "https://new.example.org" sample.world0 eq_refl)
    as (saved & Hcreate & _ & (_ & Hst & _)).
  - repeat constructor. discriminate.
  - by exists saved.
Defined.

(** X10 on the sample database. *)
Lemma CreateURL_keeps_wellFormedURLs_witness :
  spec.wellFormedURLs
    (DB.urls (World.db (snd (fst (services.CreateURL "https://new.example.org"
                                    sample.world0))))).
Proof.
  apply (CreateURL_keeps_wellFormedURLs "https://new.example.org" sample.world0).
  exact world0_wellFormedURLs.
Defined.

(** X11 on the sample database: the string submitted at time 1000 and,
    after the crawl this starts and a crawl of an unknown key, again at
    time 2000. *)
Lemma CreateURL_twice_witness :
  exists saved w1 again w2,
    services.CreateURL "https://new.example.org" sample.world0
    = (ok saved, w1, [services.go_StartCrawl (models.URL.ID saved)])
    /\ (let later :=
          fold_left (fun w id => services.StartCrawl (env := sample.env) id w)
                    [2%N; 7%N] w1 in
        services.CreateURL "https://new.example.org"
          (World.mk 2000 (World.requests later) (World.db later))
        = (ok again, w2, [services.go_StartCrawl (models.URL.ID saved)]))
    /\ models.URL.ID again = models.URL.ID saved
    /\ models.URL.Status again = "pending".
Proof.
  destruct (CreateURL_twice (env := sample.env) "https://new.example.org"
              sample.world0 [2%N; 7%N] 2000 eq_refl world0_wellFormedURLs)
    as (saved & w1 & again & w2 & H1 & H2 & (H3 & _ & H4 & _) & _).
  exists saved, w1, again, w2.
  split; [exact H1|]. split; [exact H2|]. split; [exact H3|exact H4].
Defined.

(** X12 on the sample database. *)
Lemma CreateURL_then_GetURL_witness :
  exists saved w' loaded,
    services.CreateURL "https://example.com" sample.world0
    = (ok saved, w', [services.go_StartCrawl (models.URL.ID saved)])
    /\ services.GetURL (models.URL.ID saved) w' = ok loaded
    /\ services.Record_ loaded = saved.
Proof.
  destruct (CreateURL_then_GetURL "https://example.com" sample.world0
              eq_refl world0_wellFormedURLs)
    as (saved & w' & loaded & H1 & H2 & H3 & _).
  by exists saved, w', loaded.
Defined.

(** X14 on the sample database, which has no URL of key 7. *)
Lemma DeleteURL_missing_witness :
  fst (services.DeleteURL 7 sample.world0) = ok tt
  /\ DB.urls (World.db (snd (services.DeleteURL 7 sample.world0)))
     = DB.urls (World.db sample.world0).
Proof.
  destruct (DeleteURL_missing 7 sample.world0) as (H1 & H2 & _).
  - repeat constructor. discriminate.
  - by split.
Defined.

(** X15 on the sample database: its URL deleted and submitted again. *)
Lemma DeleteURL_then_CreateURL_witness :
  exists saved w',
    services.CreateURL "https://example.com" (snd (services.DeleteURL 1 sample.world0))
    = (ok saved, w', [services.go_StartCrawl 1])
    /\ models.URL.ID saved = 1%N
    /\ gorm.Valid (models.URL.DeletedAt saved) = false.
Proof.
  destruct (DeleteURL_then_CreateURL 1 sample.world0 sample.exampleURL
              world0_wellFormedURLs eq_refl)
    as (saved & w' & loaded & H1 & (H2 & _ & _ & _ & _ & _ & _ & H3) & _).
  by exists saved, w'.
Defined.

(** X23 on the sample database: its URL submitted again and crawled. *)
Lemma CreateURL_then_StartCrawl_witness :
  exists saved w1 loaded,
    services.CreateURL "https://example.com" sample.world0
    = (ok saved, w1, [services.go_StartCrawl (models.URL.ID saved)])
    /\ services.GetURL (models.URL.ID saved)
         (services.StartCrawl (env := sample.env) (models.URL.ID saved) w1)
       = ok loaded
    /\ (models.URL.Status (services.Record_ loaded) = "completed"
        \/ models.URL.Status (services.Record_ loaded) = "error").
Proof.
  destruct (CreateURL_then_StartCrawl (env := sample.env) "https://example.com"
              sample.world0 eq_refl world0_wellFormedURLs)
    as (saved & w1 & loaded & c & H1 & _ & H2 & _ & H3 & _).
  by exists saved, w1, loaded.
Defined.

(** X25 on the sample database at time 2000, after its crawl of time
    1000. *)
Lemma StartCrawl_then_GetCrawlStatus_witness :
  exists status,
    services.GetCrawlStatus (fun _ h => h) 1
      (services.StartCrawl (env := sample.env) 1
         (World.mk 2000 [] (World.db sample.world0)))
    = ok status
    /\ models.CrawlStatusResponse.CompletedAt status = Some 2000.
Proof.
  assert (gorm.First 1 (DB.urls (World.db (World.mk 2000 [] (World.db sample.world0))))
          = ok sample.exampleURL) as Hfirst by reflexivity.
  assert (NoDup (models.URL.ID
                 <$> DB.urls (World.db (World.mk 2000 [] (World.db sample.world0)))))
    as Hnd by apply NoDup_singleton.
  assert (Forall (fun c => models.Crawl.URLID c = 1%N ->
                           models.Crawl.CreatedAt c < 2000)
                 (DB.crawls (World.db (World.mk 2000 [] (World.db sample.world0)))))
    as Hold.
  { constructor; [|constructor]. intros _. reflexivity. }
  destruct (StartCrawl_then_GetCrawlStatus (env := sample.env) (fun _ h => h) 1
              (World.mk 2000 [] (World.db sample.world0)) sample.exampleURL
              Hfirst ltac:(discriminate) Hnd Hold)
    as (status & H1 & _ & _ & _ & _ & H2).
  exists status. split; [exact H1|exact H2].
Defined.

(** X18 on the sample database after the crawl of its URL: the second
    page of two of its three external links. *)
Lemma GetURLLinks_page_witness :
  exists links total,
    services.GetURLLinks 1 "external" 2 1
      (services.StartCrawl (env := sample.env) 1 sample.world0)
    = ok (links, total)
    /\ total = 3
    /\ Z.of_nat (length links) = Z.min 2 (Z.max 0 (total - 1)).
Proof.
  pose proof (GetURLLinks_page 1 "external" 2 1
                (services.StartCrawl (env := sample.env) 1 sample.world0)
                ltac:(lia) ltac:(lia)) as H.
  destruct (services.GetURLLinks 1 "external" 2 1
              (services.StartCrawl (env := sample.env) 1 sample.world0))
    as [[links total]|e] eqn:E; [|vm_compute in E; discriminate].
  exists links, total. split; [reflexivity|].
  destruct H as (Ht & Hl & _). split; [|exact Hl].
  rewrite Ht. reflexivity.
Defined.

(** X22 on the sample database: its URL submitted again through the
    handler. *)
Lemma CreateURL_responses_witness :
  exists saved w',
    handlers.CreateURL (ok "https://example.com") sample.world0
    = (handlers.mkResponse 201
         (<["data" := handlers.Data (services.mkLoadedURL saved [] [])]>
            (<["message" := handlers.Str "URL created and crawling started"]> ∅)),
       w', [services.go_StartCrawl (models.URL.ID saved)])
    /\ models.URL.Status saved = "pending".
Proof.
  destruct (CreateURL_responses (ok "https://example.com") sample.world0
              eq_refl world0_wellFormedURLs)
    as (saved & w' & H1 & _ & H2 & _).
  exists saved, w'. split; [exact H1|exact H2].
Defined.
